(** * moviebot: a shallow embedding of the fetcher, the favorites store and
      the paged browsing handlers, with the properties checked against them.

    Sources embedded: [src/main.py] ([make_api_request], [process_search_query],
    the [show_*] renderers, [handle_navigation] and its eight routes,
    [show_favorites], [remove_from_favorites], and in module [Browse]
    [back_to_main], [process_search], [show_popular_movies],
    [show_popular_tv], [show_similar_movies], [add_to_favorites]) and
    [src/database.py] ([add_favorite], [remove_favorite], [get_favorites]).

    The chat transport (aiogram) and the HTTP client (aiohttp) are external:
    what the bot sends is kept as an output log, and what the provider would
    answer to the request of each attempt is an input of the model.  Of the
    HTTP client the model keeps that a session closes the connector it was
    given. *)

From Stdlib Require Import ZArith List Bool Ascii String QArith Lia.
From stdpp Require Import base decidable option list gmap strings.

#[local] Set Warnings "-register-all".

Open Scope Z_scope.

(* ===================================================================== *)
(** * Python values                                                        *)
(* ===================================================================== *)

Module Py.

(** A Python [str] is a sequence of code points: slicing and [len] count
    code points, so the Cyrillic placeholders are kept as numbers. *)
Definition pystr := list N.

(** An ASCII literal as a [str]. *)
Definition lit (s : string) : pystr :=
  map N_of_ascii (list_ascii_of_string s).
Arguments lit s%_string.

(** The exceptions the embedded code can meet. [ClientError] stands for the
    aiohttp family caught by name in [make_api_request] ([ClientError],
    [ClientConnectorError], [ServerTimeoutError]); [SqliteError] for any
    fault of the storage layer; [OtherException] for any other subclass of
    [Exception]. *)
Inductive api_message :=
| RequestFailedWithStatus (status : Z)
| MaxRetriesExceeded.

Inductive exn :=
| TypeError
| IndexError
| KeyError
| AttributeError
| ValueError
| UnboundLocalError
| ClientError
| SqliteError
| APIError (msg : api_message)
| OtherException.

Inductive result (A : Type) :=
| Ok (a : A)
| Raise (e : exn).
Arguments Ok {A} a.
Arguments Raise {A} e.

Definition rbind {A B} (r : result A) (k : A -> result B) : result B :=
  match r with
  | Ok a => k a
  | Raise e => Raise e
  end.

(** What [json.loads] produces. A float is kept by its exact value. *)
Inductive json :=
| JNull
| JBool (b : bool)
| JInt (z : Z)
| JFloat (q : Q)
| JStr (s : pystr)
| JArr (l : list json)
| JObj (o : list (pystr * json)).

(** [bool(v)] *)
Definition truthy (v : json) : bool :=
  match v with
  | JNull => false
  | JBool b => b
  | JInt z => negb (z =? 0)
  | JFloat q => negb (Qeq_bool q 0)
  | JStr s => negb (bool_decide (s = []))
  | JArr l => match l with [] => false | _ => true end
  | JObj o => match o with [] => false | _ => true end
  end.

(** [isinstance(v, dict)] *)
Definition is_dict (v : json) : bool :=
  match v with
  | JObj _ => true
  | _ => false
  end.

(** [d.get(k)] on the pairs of a dict: [None] when the key is missing. *)
Fixpoint obj_lookup (o : list (pystr * json)) (k : pystr) : option json :=
  match o with
  | [] => None
  | (k', v) :: o' => if bool_decide (k' = k) then Some v else obj_lookup o' k
  end.

(** [d.get(k, dflt)] *)
Definition obj_get (o : list (pystr * json)) (k : pystr) (dflt : json) : json :=
  match obj_lookup o k with
  | Some v => v
  | None => dflt
  end.

(** [v.get(k)] on any value: only a dict has the method; a missing key
    gives [None]. *)
Definition get1 (v : json) (k : pystr) : result json :=
  match v with
  | JObj o => Ok (obj_get o k JNull)
  | _ => Raise AttributeError
  end.

(** [v[k]] with a [str] key. *)
Definition getitem_str (v : json) (k : pystr) : result json :=
  match v with
  | JObj o =>
      match obj_lookup o k with
      | Some x => Ok x
      | None => Raise KeyError
      end
  | _ => Raise TypeError
  end.

(** [v == s] for a [str] [s]: only an equal [str] is equal to it. *)
Definition eq_str (v : json) (s : pystr) : bool :=
  match v with
  | JStr t => bool_decide (t = s)
  | _ => false
  end.

(** [v in [s1, s2, ...]] for a list of [str] literals. *)
Definition in_strs (v : json) (ss : list pystr) : bool :=
  existsb (eq_str v) ss.

(** [v != n] for an [int] [n]: numbers compare by value ([bool] is an
    [int]), anything else differs. *)
Definition ne_int (v : json) (n : Z) : bool :=
  match v with
  | JBool b => negb (Z.b2z b =? n)
  | JInt z => negb (z =? n)
  | JFloat q => negb (Qeq_bool q (inject_Z n))
  | _ => true
  end.

(** [l[i]] for an [int] [i]: a negative index counts from the end. *)
Definition index {A} (l : list A) (i : Z) : result A :=
  let n := Z.of_nat (length l) in
  let j := if i <? 0 then i + n else i in
  if (0 <=? j) && (j <? n) then
    match l !! Z.to_nat j with
    | Some x => Ok x
    | None => Raise IndexError
    end
  else Raise IndexError.

(** [v[:n]] for [n >= 0]: a [str] or a list is cut; any other value
    (a number, [None], a dict) cannot be sliced and the expression raises. *)
Definition slice_to (n : nat) (v : json) : result json :=
  match v with
  | JStr s => Ok (JStr (take n s))
  | JArr l => Ok (JArr (take n l))
  | _ => Raise TypeError
  end.

(** What the handlers keep in the FSM data: [int]s, [str]s and lists of
    provider items. *)
Inductive value :=
| VInt (z : Z)
| VStr (s : pystr)
| VList (l : list json).

(** [v > n], [v < n], [v >= n] for an [int] [n] *)
Definition gt_int (v : value) (n : Z) : result bool :=
  match v with
  | VInt z => Ok (n <? z)
  | _ => Raise TypeError
  end.

Definition lt_int (v : value) (n : Z) : result bool :=
  match v with
  | VInt z => Ok (z <? n)
  | _ => Raise TypeError
  end.

Definition ge_int (v : value) (n : Z) : result bool :=
  match v with
  | VInt z => Ok (n <=? z)
  | _ => Raise TypeError
  end.

(** [v + n] for an [int] [n] *)
Definition add_int (v : value) (n : Z) : result Z :=
  match v with
  | VInt z => Ok (z + n)
  | _ => Raise TypeError
  end.

(** [len(v)] *)
Definition len (v : value) : result Z :=
  match v with
  | VInt _ => Raise TypeError
  | VStr s => Ok (Z.of_nat (length s))
  | VList l => Ok (Z.of_nat (length l))
  end.

(** [v[i]] for an [int] [i] *)
Definition getitem (v : value) (i : Z) : result json :=
  match v with
  | VInt _ => Raise TypeError
  | VStr s => rbind (index s i) (fun c => Ok (JStr [c]))
  | VList l => index l i
  end.

(** The elements [for x in v] visits. *)
Definition iter (v : value) : result (list json) :=
  match v with
  | VInt _ => Raise TypeError
  | VStr s => Ok (map (fun c => JStr [c]) s)
  | VList l => Ok l
  end.

(** The elements [for x in v] visits, for a parsed JSON value. *)
Definition iter_json (v : json) : result (list json) :=
  match v with
  | JStr s => Ok (map (fun c => JStr [c]) s)
  | JArr l => Ok l
  | JObj o => Ok (map (fun kv => JStr (fst kv)) o)
  | _ => Raise TypeError
  end.

(** [[x for x in l if p(x)]] where [p] may raise: the first fault ends the
    comprehension. *)
Fixpoint filterM {A} (p : A -> result bool) (l : list A) : result (list A) :=
  match l with
  | [] => Ok []
  | x :: l' =>
      rbind (p x) (fun b =>
      rbind (filterM p l') (fun r =>
      Ok (if b then x :: r else r)))
  end.

(** The placeholders of the renderers. *)
Definition no_title : pystr :=      (* 'Нет названия' *)
  [1053; 1077; 1090; 32; 1085; 1072; 1079; 1074; 1072; 1085; 1080; 1103]%N.
Definition unknown : pystr :=       (* 'Неизвестно' *)
  [1053; 1077; 1080; 1079; 1074; 1077; 1089; 1090; 1085; 1086]%N.
Definition no_rating : pystr :=     (* 'Нет рейтинга' *)
  [1053; 1077; 1090; 32; 1088; 1077; 1081; 1090; 1080; 1085; 1075; 1072]%N.
Definition no_overview : pystr :=   (* 'Нет описания' *)
  [1053; 1077; 1090; 32; 1086; 1087; 1080; 1089; 1072; 1085; 1080; 1103]%N.

End Py.

(* ===================================================================== *)
(** * The fetcher: [make_api_request]                                      *)
(* ===================================================================== *)

Module Fetcher.
Import Py.

(** The [Retry-After] header as [int(response.headers.get('Retry-After',
    retry_delay))] sees it: missing, a text [int] accepts, or a text on
    which [int] raises [ValueError]. *)
Inductive retry_after :=
| HeaderAbsent
| HeaderInt (seconds : Z)
| HeaderUnparsable.

(** What [await response.json()] does: gives the parsed body, or raises an
    aiohttp error, or raises something else. *)
Inductive body :=
| BodyJson (v : json)
| BodyClientError
| BodyOtherError.

(** What one [session.get(url)] meets on an open session. *)
Inductive attempt_outcome :=
| Response (status : Z) (hdr : retry_after) (b : body)
| ConnectionFault
| OtherFault.

(** The provider: what it would answer to the request of each attempt, by
    attempt number. *)
Definition provider := nat -> attempt_outcome.

(** What a run does that can be seen from outside: the calls of
    [session.get], numbered by the iteration that makes them, and the
    sleeps. *)
Inductive event :=
| Get (attempt : Z)
| Sleep (seconds : Z).

(** How a loop body ends. *)
Inductive flow :=
| Return (v : json)
| Continue
| Raised (e : exn).

Section Request.
Variables (max_retries retry_delay : Z).

(** Lines 75-78 and 82-85: the wait before the next attempt. *)
Definition backoff (attempt : Z) : list event :=
  if attempt <? max_retries - 1
  then [Sleep (retry_delay * 2 ^ attempt)]
  else [].

(** Lines 64-72: the response in hand. *)
Definition on_response (status : Z) (hdr : retry_after) (b : body)
  : list event * flow :=
  if status =? 200 then
    match b with
    | BodyJson v => ([], Return v)
    | BodyClientError => ([], Raised ClientError)
    | BodyOtherError => ([], Raised OtherException)
    end
  else if status =? 429 then
    match hdr with
    | HeaderAbsent => ([Sleep retry_delay], Continue)
    | HeaderInt n => ([Sleep n], Continue)
    | HeaderUnparsable => ([], Raised ValueError)
    end
  else ([], Raised (APIError (RequestFailedWithStatus status))).

(** Lines 62-79: the inner [try], whose handler takes the aiohttp errors
    only. *)
Definition inner_try (attempt : Z) (o : attempt_outcome) : list event * flow :=
  let '(evs, f) :=
    match o with
    | Response status hdr b => on_response status hdr b
    | ConnectionFault => ([], Raised ClientError)
    | OtherFault => ([], Raised OtherException)
    end in
  match f with
  | Raised ClientError => (evs ++ backoff attempt, Continue)
  | _ => (evs, f)
  end.

(** Lines 60-86: the outer [try], whose handler takes every [Exception]. *)
Definition outer_try (attempt : Z) (o : attempt_outcome) : list event * flow :=
  let '(evs, f) := inner_try attempt o in
  match f with
  | Raised _ => (evs ++ backoff attempt, Continue)
  | _ => (evs, f)
  end.

(** Lines 55-57 and 61: what [session.get(url)] meets in iteration
    [attempt].  The connector is built once, before the loop, and every
    iteration opens its own [ClientSession] on it.  A session owns the
    connector it is given and closes it when its [async with] block is left,
    so only the session of the first iteration is open: in every later one
    [session.get] raises [RuntimeError('Session is closed')] before anything
    is asked of the provider, which is an exception that is not an aiohttp
    error. *)
Definition met (env : provider) (attempt : Z) : attempt_outcome :=
  if attempt =? 0 then env (Z.to_nat attempt) else OtherFault.

(** Lines 59-87: [for attempt in range(max_retries)], with [todo]
    iterations left, then the final [raise]. *)
Fixpoint attempts (env : provider) (todo : nat) (attempt : Z)
  : list event * result json :=
  match todo with
  | O => ([], Raise (APIError MaxRetriesExceeded))
  | S todo' =>
      let '(evs, f) := outer_try attempt (met env attempt) in
      match f with
      | Return v => (Get attempt :: evs, Ok v)
      | Continue =>
          let '(rest, r) := attempts env todo' (attempt + 1) in
          (Get attempt :: evs ++ rest, r)
      | Raised e => (Get attempt :: evs, Raise e)
      end
  end.

(** [make_api_request(session, url, max_retries, retry_delay)] against a
    provider: what the run did and how it ended. *)
Definition make_api_request (env : provider) : list event * result json :=
  attempts env (Z.to_nat max_retries) 0.

End Request.

(** The attempts made and the seconds slept in a run. *)
Definition is_get (e : event) : bool :=
  match e with
  | Get _ => true
  | Sleep _ => false
  end.

Definition requests (t : list event) : nat :=
  length (List.filter is_get t).

Definition sleeps (t : list event) : list Z :=
  omap (fun e => match e with Sleep s => Some s | _ => None end) t.

Definition total_sleep (t : list event) : Z :=
  foldr Z.add 0 (sleeps t).

End Fetcher.

(* ===================================================================== *)
(** * The favorites store: [database.py]                                   *)
(* ===================================================================== *)

Module Database.
Import Py.

(** A row of [favorites]: [(id, user_id, movie_id, title, poster_path)]. *)
Record row := {
  row_id : Z;
  user_id : Z;
  movie_id : Z;
  title : pystr;
  poster_path : option pystr
}.

(** The table in row order, and the last key [AUTOINCREMENT] gave. *)
Record database := {
  rows : list row;
  last_id : Z
}.

(** The store after [init_db] on a new file. *)
Definition empty_db : database := {| rows := []; last_id := 0 |}.

(** Which step of an operation meets a storage fault. *)
Record faults := {
  connect_fails : bool;
  execute_fails : bool;
  commit_fails : bool;
  fetch_fails : bool;
  close_fails : bool
}.

Definition no_faults : faults :=
  {| connect_fails := false; execute_fails := false; commit_fails := false;
     fetch_fails := false; close_fails := false |}.

(** The local [conn]: unbound until [get_db_connection] has returned. *)
Inductive conn_var :=
| Unbound
| Bound.

(** [get_db_connection]: logs and re-raises. *)
Definition get_db_connection (f : faults) : result conn_var :=
  if connect_fails f then Raise SqliteError else Ok Bound.

(** [finally: conn.close()]: runs on every path and its own fault replaces
    the pending return or exception. *)
Definition finally_close {A} (f : faults) (conn : conn_var) (pending : result A)
  : result A :=
  match conn with
  | Unbound => Raise UnboundLocalError
  | Bound => if close_fails f then Raise SqliteError else pending
  end.

(** [INSERT INTO favorites (user_id, movie_id, title, poster_path)]. *)
Definition insert_row (db : database) (u m : Z) (t : pystr) (p : option pystr)
  : database :=
  {| rows := rows db ++
             [{| row_id := last_id db + 1; user_id := u; movie_id := m;
                 title := t; poster_path := p |}];
     last_id := last_id db + 1 |}.

(** [DELETE FROM favorites WHERE user_id = ? AND movie_id = ?]. *)
Definition delete_rows (db : database) (u m : Z) : database :=
  {| rows := List.filter
               (fun r => negb ((user_id r =? u) && (movie_id r =? m)))
               (rows db);
     last_id := last_id db |}.

(** [SELECT * FROM favorites WHERE user_id = ?]. *)
Definition select_rows (db : database) (u : Z) : list row :=
  List.filter (fun r => user_id r =? u) (rows db).

(** The [try] block of a writing operation: connect, execute, commit. The
    statement takes effect only once committed. *)
Definition write_block (f : faults) (db db' : database)
  : database * conn_var * result bool :=
  match get_db_connection f with
  | Raise e => (db, Unbound, Raise e)
  | Ok conn =>
      if execute_fails f then (db, conn, Raise SqliteError)
      else if commit_fails f then (db, conn, Raise SqliteError)
      else (db', conn, Ok true)
  end.

(** [except Exception: ... return False] *)
Definition except_return {A} (dflt : A) (r : result A) : result A :=
  match r with
  | Ok a => Ok a
  | Raise _ => Ok dflt
  end.

Definition add_favorite (f : faults) (db : database)
    (user_id movie_id : Z) (title : pystr) (poster_path : option pystr)
  : database * result bool :=
  let '(db1, conn, r) :=
    write_block f db (insert_row db user_id movie_id title poster_path) in
  (db1, finally_close f conn (except_return false r)).

Definition remove_favorite (f : faults) (db : database) (user_id movie_id : Z)
  : database * result bool :=
  let '(db1, conn, r) := write_block f db (delete_rows db user_id movie_id) in
  (db1, finally_close f conn (except_return false r)).

Definition get_favorites (f : faults) (db : database) (user_id : Z)
  : result (list row) :=
  let '(conn, r) :=
    match get_db_connection f with
    | Raise e => (Unbound, Raise e)
    | Ok conn =>
        if execute_fails f then (conn, Raise SqliteError)
        else if fetch_fails f then (conn, Raise SqliteError)
        else (conn, Ok (select_rows db user_id))
    end in
  finally_close f conn (except_return [] r).

End Database.

(* ===================================================================== *)
(** * The handlers of [main.py]                                            *)
(* ===================================================================== *)

Module Bot.
Import Py.
Export Database.

(** ** What comes in and what goes out *)

(** A button press: [callback.message] (here the chat it belongs to, when
    there is one), [callback.data], [callback.from_user.id]. The data are
    the ASCII identifiers the bot puts on its own buttons. *)
Record callback := {
  cb_message : option Z;
  cb_data : string;
  cb_from_user : Z
}.

(** A text message: [message.chat.id] and [message.text]. *)
Record message := {
  msg_chat : Z;
  msg_text : option string
}.

Inductive button :=
| AddFavoriteButton (id : json)      (* add_favorite_{id} *)
| SimilarButton (id : json)          (* similar_{id} *)
| RemoveFavoriteButton (id : json)   (* remove_favorite_{id} *)
| NavButton (data : string)          (* prev_... / next_... *)
| MainMenuButton.                    (* back_to_main *)

(** The first line of a card. *)
Inductive heading :=
| SearchResult
| Top (content_type : value)
| Favorite
| SimilarMovies.

(** The text block of a card, field by field as the f-string lays it out:
    heading with "(i из n)", title, year, rating, overview. *)
Record card := {
  card_heading : heading;
  card_index : Z;
  card_total : Z;
  card_title : json;
  card_year : json;
  card_rating : json;
  card_overview : json
}.

Inductive notice :=
| NothingFound            (* "По вашему запросу ничего не найдено." *)
| NoFavoritesYet          (* "У вас пока нет избранных фильмов." *)
| RemovedFromFavorites    (* "Фильм удален из избранного!" *)
| RemoveFailed.           (* "Ошибка при удалении из избранного" *)

(** What the bot hands to the transport. *)
Inductive output :=
| SendCard (chat : Z) (c : card) (keyboard : list (list button))
           (photo : option json)
| SendNotice (chat : Z) (n : notice) (keyboard : list (list button))
| Answer (n : notice).

(** ** The state the handlers work on *)

Record world := {
  fsm : gmap string value;      (* the FSM data of the conversation *)
  db : database;                (* movie_bot.db *)
  sent : list output            (* what was handed to the transport *)
}.

(** A handler step: it changes the world and returns or raises. *)
Definition M (A : Type) := world -> world * result A.

Definition ret {A} (a : A) : M A := fun w => (w, Ok a).

Definition bind {A B} (m : M A) (k : A -> M B) : M B :=
  fun w =>
    match m w with
    | (w', Ok a) => k a w'
    | (w', Raise e) => (w', Raise e)
    end.

Definition raise {A} (e : exn) : M A := fun w => (w, Raise e).

Definition lift {A} (r : result A) : M A := fun w => (w, r).

Notation "'let*' x := m 'in' k" := (bind m (fun x => k))
  (at level 10, x name, m at level 100, k at level 200).
Notation "'run' m 'then' k" := (bind m (fun _ => k))
  (at level 10, m at level 100, k at level 200).

(** [await state.get_data()] *)
Definition get_data : M (gmap string value) := fun w => (w, Ok (fsm w)).

(** [await state.update_data(k1=v1, ...)] *)
Definition update_data (kvs : list (string * value)) : M unit :=
  fun w =>
    ({| fsm := foldl (fun m kv => <[kv.1 := kv.2]> m) (fsm w) kvs;
        db := db w; sent := sent w |}, Ok tt).

(** [data.get(k, dflt)] *)
Definition data_get (data : gmap string value) (k : string) (dflt : value)
  : value :=
  default dflt (data !! k).

Definition emit (o : output) : M unit :=
  fun w => ({| fsm := fsm w; db := db w; sent := sent w ++ [o] |}, Ok tt).

(** The keys of the FSM data and the callback identifiers. *)
Definition k_current_page : string := "current_page"%string.
Definition k_total_pages : string := "total_pages"%string.
Definition k_content_type : string := "content_type"%string.
Definition k_search_results : string := "search_results"%string.
Definition k_popular_results : string := "popular_results"%string.
Definition k_similar_results : string := "similar_results"%string.
Definition k_favorites : string := "favorites"%string.

(** ** Rendering *)

(** [item.get('release_date', item.get('first_air_date', 'Неизвестно'))[:4]] *)
Definition release_year (o : list (pystr * json)) : result json :=
  slice_to 4
    (obj_get o (lit "release_date")
       (obj_get o (lit "first_air_date") (JStr unknown))).

(** [item.get('release_date', 'Неизвестно')[:4]] *)
Definition release_year_similar (o : list (pystr * json)) : result json :=
  slice_to 4 (obj_get o (lit "release_date") (JStr unknown)).

(** [item.get('title', item.get('name', 'Нет названия'))] *)
Definition display_title (o : list (pystr * json)) : json :=
  obj_get o (lit "title") (obj_get o (lit "name") (JStr no_title)).

(** The navigation row: "previous" when not on the first page, "next" when
    not on the last, then the way back to the menu. *)
Definition nav_buttons (prev next : string) (current_page total_pages : Z)
  : list button :=
  (if 0 <? current_page then [NavButton prev] else []) ++
  (if current_page <? total_pages - 1 then [NavButton next] else []) ++
  [MainMenuButton].

(** The body the four [show_*] functions share: the guard on the item, the
    text, the keyboard, and the photo when the item has a poster. *)
Definition show_card (h : heading)
    (title_of : list (pystr * json) -> json)
    (year_of : list (pystr * json) -> result json)
    (actions : json -> list (list button)) (prev next : string)
    (chat_id : Z) (item : json) (current_page total_pages : Z) : M unit :=
  match item with
  | JObj o =>
      let id := obj_get o (lit "id") JNull in
      if negb (truthy id) then ret tt else
      let* year := lift (year_of o) in
      let c := {| card_heading := h;
                  card_index := current_page + 1;
                  card_total := total_pages;
                  card_title := title_of o;
                  card_year := year;
                  card_rating := obj_get o (lit "vote_average") (JStr no_rating);
                  card_overview := obj_get o (lit "overview") (JStr no_overview) |} in
      let keyboard :=
        actions id ++ [nav_buttons prev next current_page total_pages] in
      let poster := obj_get o (lit "poster_path") JNull in
      emit (SendCard chat_id c keyboard
              (if truthy poster then Some poster else None))
  | _ => ret tt
  end.

Definition show_search_results (chat_id : Z) (item : json)
    (content_type : value) (current_page total_pages : Z) : M unit :=
  show_card SearchResult display_title release_year
    (fun id => [[AddFavoriteButton id]; [SimilarButton id]])
    "prev_page" "next_page" chat_id item current_page total_pages.

Definition show_popular_content (chat_id : Z) (item : json)
    (content_type : value) (current_page total_pages : Z) : M unit :=
  show_card (Top content_type) display_title release_year
    (fun id => [[AddFavoriteButton id]])
    "prev_popular" "next_popular" chat_id item current_page total_pages.

Definition show_favorites_page (chat_id : Z) (item : json)
    (current_page total_pages : Z) : M unit :=
  show_card Favorite display_title release_year
    (fun id => [[RemoveFavoriteButton id]])
    "prev_favorite" "next_favorite" chat_id item current_page total_pages.

Definition show_similar_content (chat_id : Z) (item : json)
    (current_page total_pages : Z) : M unit :=
  show_card SimilarMovies
    (fun o => obj_get o (lit "title") (JStr no_title))
    release_year_similar
    (fun id => [[AddFavoriteButton id]])
    "prev_similar" "next_similar" chat_id item current_page total_pages.

(** ** Navigation *)

(** The [show_func] argument of [handle_navigation]. *)
Inductive show_func :=
| ShowSearchResults
| ShowPopularContent
| ShowSimilarContent
| ShowFavoritesPage.

(** [show_func(chat_id, item, content_type, current_page, len(results))]:
    five positional arguments. [show_similar_content] and
    [show_favorites_page] declare four parameters, so binding fails. *)
Definition call_show (f : show_func) (chat_id : Z) (item : json)
    (content_type : value) (current_page total_pages : Z) : M unit :=
  match f with
  | ShowSearchResults =>
      show_search_results chat_id item content_type current_page total_pages
  | ShowPopularContent =>
      show_popular_content chat_id item content_type current_page total_pages
  | ShowSimilarContent => raise TypeError
  | ShowFavoritesPage => raise TypeError
  end.

(** The move both branches of [handle_navigation] end with: store the new
    cursor, then render the item under it. *)
Definition move_to (chat_id : Z) (results content_type : value)
    (f : show_func) (current_page : Z) : M unit :=
  run update_data [(k_current_page, VInt current_page)] then
  let* item := lift (getitem results current_page) in
  let* n := lift (len results) in
  call_show f chat_id item content_type current_page n.

Definition handle_navigation (cb : callback) (data_key : string)
    (f : show_func) (prev_callback next_callback : string) : M unit :=
  match cb_message cb with
  | None => ret tt
  | Some chat_id =>
      let* data := get_data in
      let current_page := data_get data k_current_page (VInt 0) in
      let results := data_get data data_key (VList []) in
      let content_type := data_get data k_content_type (VStr (lit "movie")) in
      let* go_prev := lift (if String.eqb (cb_data cb) prev_callback
                      then gt_int current_page 0 else Ok false) in
      if go_prev : bool then
        let* p := lift (add_int current_page (-1)) in
        move_to chat_id results content_type f p
      else
        let* go_next := lift (if String.eqb (cb_data cb) next_callback
                        then rbind (len results)
                               (fun n => lt_int current_page (n - 1))
                        else Ok false) in
        if go_next : bool then
          let* p := lift (add_int current_page 1) in
          move_to chat_id results content_type f p
        else ret tt
  end.

Definition prev_page (cb : callback) : M unit :=
  handle_navigation cb k_search_results ShowSearchResults "prev_page" "next_page".
Definition next_page (cb : callback) : M unit :=
  handle_navigation cb k_search_results ShowSearchResults "prev_page" "next_page".
Definition prev_popular (cb : callback) : M unit :=
  handle_navigation cb k_popular_results ShowPopularContent "prev_popular" "next_popular".
Definition next_popular (cb : callback) : M unit :=
  handle_navigation cb k_popular_results ShowPopularContent "prev_popular" "next_popular".
Definition prev_similar (cb : callback) : M unit :=
  handle_navigation cb k_similar_results ShowSimilarContent "prev_similar" "next_similar".
Definition next_similar (cb : callback) : M unit :=
  handle_navigation cb k_similar_results ShowSimilarContent "prev_similar" "next_similar".
Definition prev_favorite (cb : callback) : M unit :=
  handle_navigation cb k_favorites ShowFavoritesPage "prev_favorite" "next_favorite".
Definition next_favorite (cb : callback) : M unit :=
  handle_navigation cb k_favorites ShowFavoritesPage "prev_favorite" "next_favorite".

(** ** Favorites *)

Definition db_step {A} (op : database -> database * result A) : M A :=
  fun w =>
    let '(d, r) := op (db w) in
    ({| fsm := fsm w; db := d; sent := sent w |}, r).

(** The dict [show_favorites] makes of a row. *)
Definition favorite_dict (fav : row) : json :=
  JObj [(lit "id", JInt (movie_id fav));
        (lit "title", JStr (title fav));
        (lit "poster_path",
          match poster_path fav with Some p => JStr p | None => JNull end);
        (lit "overview", JStr []);
        (lit "vote_average", JInt 0);
        (lit "release_date", JStr [])].

Definition back_keyboard : list (list button) := [[MainMenuButton]].

Definition show_favorites (f : faults) (cb : callback) : M unit :=
  match cb_message cb with
  | None => ret tt
  | Some chat_id =>
      let* favorites :=
        db_step (fun d => (d, get_favorites f d (cb_from_user cb))) in
      match favorites with
      | [] => emit (SendNotice chat_id NoFavoritesYet back_keyboard)
      | _ =>
          let favorites_dicts := map favorite_dict favorites in
          let n := Z.of_nat (length favorites_dicts) in
          run update_data [(k_favorites, VList favorites_dicts);
                           (k_current_page, VInt 0);
                           (k_total_pages, VInt n)] then
          let* item := lift (index favorites_dicts 0) in
          show_favorites_page chat_id item 0 n
      end
  end.

(** [s.split("_")[-1]]: what follows the last underscore. *)
Fixpoint last_segment_from (cur : list ascii) (s : list ascii) : list ascii :=
  match s with
  | [] => cur
  | c :: s' =>
      if Ascii.eqb c "_" then last_segment_from [] s'
      else last_segment_from (cur ++ [c]) s'
  end.

Definition last_segment (s : string) : list ascii :=
  last_segment_from [] (list_ascii_of_string s).

(** The blanks [int] skips around the digits of an ASCII text: the space
    and the codes 9 to 13. *)
Definition is_space (c : ascii) : bool :=
  let n := nat_of_ascii c in
  (Nat.eqb n 32) || ((Nat.leb 9 n) && (Nat.leb n 13)).

Fixpoint lstrip (s : list ascii) : list ascii :=
  match s with
  | c :: s' => if is_space c then lstrip s' else s
  | [] => []
  end.

Definition digit_of (c : ascii) : option Z :=
  let n := nat_of_ascii c in
  if (Nat.leb 48 n) && (Nat.leb n 57) then Some (Z.of_nat n - 48) else None.

Fixpoint digits_value (acc : Z) (s : list ascii) : option Z :=
  match s with
  | [] => Some acc
  | c :: s' =>
      match digit_of c with
      | Some d => digits_value (10 * acc + d) s'
      | None => None
      end
  end.

Definition unsigned_value (s : list ascii) : option Z :=
  match s with
  | [] => None
  | _ => digits_value 0 s
  end.

(** [int(s)] on an ASCII text without underscore: blanks around, a sign,
    then decimal digits; [None] stands for [ValueError]. *)
Definition py_int (s : list ascii) : option Z :=
  let s1 := lstrip s in
  let s2 := rev (lstrip (rev s1)) in
  match s2 with
  | c :: s3 =>
      if Ascii.eqb c "-" then Z.opp <$> unsigned_value s3
      else if Ascii.eqb c "+" then unsigned_value s3
      else unsigned_value s2
  | [] => None
  end.

(** [f['id'] != movie_id] *)
Definition other_id (movie_id : Z) (f : json) : result bool :=
  rbind (getitem_str f (lit "id")) (fun id => Ok (ne_int id movie_id)).

Definition remove_from_favorites (f : faults) (cb : callback) : M unit :=
  match cb_message cb with
  | None => ret tt
  | Some chat_id =>
      if String.eqb (cb_data cb) "" then ret tt else
      match py_int (last_segment (cb_data cb)) with
      | None => ret tt
      | Some movie_id =>
          let* removed :=
            db_step (fun d => remove_favorite f d (cb_from_user cb) movie_id) in
          if removed : bool then
            run emit (Answer RemovedFromFavorites) then
            let* data := get_data in
            let favorites := data_get data k_favorites (VList []) in
            let current_page := data_get data k_current_page (VInt 0) in
            let* items := lift (iter favorites) in
            let* favorites := lift (filterM (other_id movie_id) items) in
            match favorites with
            | [] => emit (SendNotice chat_id NoFavoritesYet back_keyboard)
            | _ =>
                let n := Z.of_nat (length favorites) in
                let* beyond := lift (ge_int current_page n) in
                let current_page :=
                  if beyond : bool then VInt (n - 1) else current_page in
                run update_data [(k_favorites, VList favorites);
                                 (k_current_page, current_page)] then
                match current_page with
                | VInt p =>
                    let* item := lift (index favorites p) in
                    show_favorites_page chat_id item p n
                | _ => raise TypeError
                end
            end
          else emit (Answer RemoveFailed)
      end
  end.

(** ** Search *)

(** [item.get("media_type") in ["movie", "tv"]] *)
Definition movie_or_tv (item : json) : result bool :=
  rbind (get1 item (lit "media_type"))
        (fun t => Ok (in_strs t [lit "movie"; lit "tv"])).

Definition process_search_query (env : Fetcher.provider) (msg : message)
  : M unit :=
  match msg_text msg with
  | None => ret tt
  | Some text =>
      if String.eqb text "" then ret tt else
      let* data := lift (snd (Fetcher.make_api_request 3 1 env)) in
      let found :=
        match data with
        | JObj o => obj_get o (lit "results") JNull
        | _ => JNull
        end in
      if negb (truthy found) then
        emit (SendNotice (msg_chat msg) NothingFound back_keyboard)
      else
        let* items := lift (iter_json found) in
        let* results := lift (filterM movie_or_tv items) in
        let total_pages := Z.of_nat (length results) in
        run update_data [(k_search_results, VList results);
                         (k_current_page, VInt 0);
                         (k_total_pages, VInt total_pages);
                         (k_content_type, VStr (lit "search"))] then
        let* item := lift (index results 0) in
        show_search_results (msg_chat msg) item (VStr (lit "search"))
          0 total_pages
  end.

(** ** Dispatch *)

(** The routes [@dp.callback_query(F.data == ...)] registers for the
    navigation buttons: a press goes to the handler whose filter its data
    match, and to none of them otherwise. *)
Definition dispatch_navigation (cb : callback) : M unit :=
  let d := cb_data cb in
  if String.eqb d "prev_page" then prev_page cb
  else if String.eqb d "next_page" then next_page cb
  else if String.eqb d "prev_popular" then prev_popular cb
  else if String.eqb d "next_popular" then next_popular cb
  else if String.eqb d "prev_similar" then prev_similar cb
  else if String.eqb d "next_similar" then next_similar cb
  else if String.eqb d "prev_favorite" then prev_favorite cb
  else if String.eqb d "next_favorite" then next_favorite cb
  else ret tt.

(** The presses of a conversation, one after the other. An exception ends
    the handler that raised it, not the bot: the next press finds the world
    as that handler left it. *)
Fixpoint run_presses (cbs : list callback) (w : world) : world :=
  match cbs with
  | [] => w
  | cb :: cbs' => run_presses cbs' (fst (dispatch_navigation cb w))
  end.

End Bot.

(* ===================================================================== *)
(** * Runs of the fetcher, as the retry policy describes them *)
(* ===================================================================== *)

Module FetcherSpec.
Import Py Fetcher.

(** The run the backoff policy describes when no attempt succeeds: [todo]
    attempts from number [k] on, each but the last followed by its wait. *)
Fixpoint backoff_schedule (retry_delay : Z) (todo : nat) (k : Z) : list event :=
  match todo with
  | O => []
  | S todo' =>
      Get k ::
      match todo' with
      | O => []
      | S _ => [Sleep (retry_delay * 2 ^ k)]
      end ++ backoff_schedule retry_delay todo' (k + 1)
  end.

(** The wait a rate-limited answer asks for: the seconds of its
    [Retry-After], [retry_delay] without one. *)
Definition hinted_wait (retry_delay : Z) (h : retry_after) : Z :=
  match h with
  | HeaderInt n => n
  | _ => retry_delay
  end.


End FetcherSpec.

(* ===================================================================== *)
(** * Faults of the store *)
(* ===================================================================== *)

Module DatabaseSpec.
Import Py Database.

(** The storage handle that cannot be opened. *)
Definition cannot_open : faults :=
  {| connect_fails := true; execute_fails := false; commit_fails := false;
     fetch_fails := false; close_fails := false |}.

End DatabaseSpec.

(* ===================================================================== *)
(** * Sessions, views and sample conversations *)
(* ===================================================================== *)

Module BotSpec.
Import Py Bot.

(** The date string of an item: its [release_date], or its
    [first_air_date] when it has no [release_date]. *)
Definition date_string (o : list (pystr * json)) : option pystr :=
  match obj_lookup o (lit "release_date") with
  | Some (JStr s) => Some s
  | Some _ => None
  | None =>
      match obj_lookup o (lit "first_air_date") with
      | Some (JStr s) => Some s
      | _ => None
      end
  end.

(** The date string of an item as the card of similar films reads it: its
    [release_date] only. *)
Definition release_date_string (o : list (pystr * json)) : option pystr :=
  match obj_lookup o (lit "release_date") with
  | Some (JStr s) => Some s
  | _ => None
  end.

(** A conversation that has not started: no FSM data, an empty store,
    nothing sent. *)
Definition blank : world := {| fsm := ∅; db := empty_db; sent := [] |}.

(** The year on the card sent last. *)
Definition shown_year (w : world) : option json :=
  match last (sent w) with
  | Some (SendCard _ c _ _) => Some (card_year c)
  | _ => None
  end.

(** The media type of a provider entry. *)
Definition media_type_of (item : json) : option pystr :=
  match item with
  | JObj o =>
      match obj_lookup o (lit "media_type") with
      | Some (JStr s) => Some s
      | _ => None
      end
  | _ => None
  end.

(** The entries to keep for browsing: those whose media type is "movie" or
    "tv". *)
Definition is_movie_or_tv (item : json) : bool :=
  match media_type_of item with
  | Some s => bool_decide (s = lit "movie" \/ s = lit "tv")
  | None => false
  end.

(** A provider entry with an id and a media type, and a search answer
    that mixes a film, a person and a series. *)
Definition entry (id : Z) (kind : string) : json :=
  JObj [(lit "id", JInt id); (lit "media_type", JStr (lit kind))].

Definition mixed_answer : Fetcher.provider :=
  fun _ =>
    Fetcher.Response 200 Fetcher.HeaderAbsent
      (Fetcher.BodyJson
         (JObj [(lit "page", JInt 1);
                (lit "results",
                  JArr [entry 603 "movie"; entry 6384 "person";
                        entry 1399 "tv"])])).

(** The four paged views. *)
Inductive view :=
| Search
| Popular
| Similar
| Favorites.

(** The key of the list of a view in the FSM data, the data of its two
    navigation buttons and its renderer, as the routes pass them to
    [handle_navigation]. *)
Definition list_key (v : view) : string :=
  match v with
  | Search => k_search_results
  | Popular => k_popular_results
  | Similar => k_similar_results
  | Favorites => k_favorites
  end.

Definition prev_data (v : view) : string :=
  match v with
  | Search => "prev_page"
  | Popular => "prev_popular"
  | Similar => "prev_similar"
  | Favorites => "prev_favorite"
  end.

Definition next_data (v : view) : string :=
  match v with
  | Search => "next_page"
  | Popular => "next_popular"
  | Similar => "next_similar"
  | Favorites => "next_favorite"
  end.

Definition renderer (v : view) : show_func :=
  match v with
  | Search => ShowSearchResults
  | Popular => ShowPopularContent
  | Similar => ShowSimilarContent
  | Favorites => ShowFavoritesPage
  end.

(** A press of one of the two navigation buttons of a view. *)
Definition nav_press (v : view) (cb : callback) : Prop :=
  cb_data cb = prev_data v \/ cb_data cb = next_data v.

(** The session of a view: its list and the cursor, as stored. *)
Definition in_session (v : view) (items : list json) (c : Z) (w : world)
  : Prop :=
  fsm w !! list_key v = Some (VList items) /\
  fsm w !! k_current_page = Some (VInt c).

(** A press by user 7 in chat 1 of the button with the given data. *)
Definition press (d : string) : callback :=
  {| cb_message := Some 1; cb_data := d; cb_from_user := 7 |}.

(** The session a search for "matrix" opens on the mixed answer. *)
Definition after_search : world :=
  fst (process_search_query mixed_answer
         {| msg_chat := 1; msg_text := Some "matrix"%string |} blank).

(** FSM data with a search list of two entries and no cursor. *)
Definition list_without_cursor : world :=
  {| fsm := {[ k_search_results :=
                 VList [entry 603 "movie"; entry 1399 "tv"] ]};
     db := empty_db; sent := [] |}.

(** The rows that stay when the favorites with content id [mid] go. *)
Definition kept_rows (mid : Z) (favs : list row) : list row :=
  List.filter (fun r => negb (movie_id r =? mid)) favs.

(** How many of the rows carry content id [mid]. *)
Definition copies (mid : Z) (favs : list row) : nat :=
  length (List.filter (fun r => movie_id r =? mid) favs).

(** What [remove_from_favorites] does with the list that is left, once
    the store has answered [True]. *)
Definition rerender (chat c : Z) (favorites : list json) : M unit :=
  match favorites with
  | [] => emit (SendNotice chat NoFavoritesYet back_keyboard)
  | _ :: _ =>
      let n := Z.of_nat (length favorites) in
      let p := if n <=? c then n - 1 else c in
      run update_data [(k_favorites, VList favorites);
                       (k_current_page, VInt p)] then
      let* item := lift (index favorites p) in
      show_favorites_page chat item p n
  end.

(** A store where user 7 has added the given content ids, in that
    order. *)
Definition favorites_of (ids : list Z) : database :=
  foldl (fun d id => fst (add_favorite no_faults d 7 id (lit "title") None))
    empty_db ids.

(** The world after that user has opened the favorites view on it. *)
Definition favorites_opened (ids : list Z) : world :=
  fst (show_favorites no_faults (press "favorites")
         {| fsm := ∅; db := favorites_of ids; sent := [] |}).

(** A favorites session of two entries with the cursor moved to the
    second one. *)
Definition on_second_favorite : world :=
  run_presses [press "next_favorite"] (favorites_opened [603; 550]).

End BotSpec.

(* ===================================================================== *)
(** * The other handlers of [main.py]                                      *)
(* ===================================================================== *)

Module Browse.
Import Py Bot.

(** ** The conversation *)

(** [MovieStates] *)
Inductive movie_state :=
| WaitingForSearch
| WaitingForGenre
| WaitingForRandomCriteria.

(** The texts these handlers send with a keyboard. *)
Inductive text :=
| ChooseAction           (* "Выбери действие:" *)
| EnterTitle             (* "Введите название фильма для поиска:" *)
| PopularMoviesFailed    (* "Не удалось получить популярные фильмы. ..." *)
| PopularTvFailed        (* "Не удалось получить популярные сериалы. ..." *)
| SimilarFailed.         (* "Не удалось найти похожие фильмы. ..." *)

(** The texts [add_to_favorites] answers a press with. *)
Inductive toast :=
| AddedToFavorites       (* "✅ Фильм добавлен в избранное!" *)
| AlreadyInFavorites     (* "❌ Фильм уже в избранном" *)
| AddFailed.             (* "❌ Ошибка при добавлении в избранное" *)

(** What reaches the transport: the output of the handlers of [Bot], a text
    with a keyboard (each button by its [callback_data]), an answer to a
    press. *)
Inductive sending :=
| FromHandlers (o : output)
| SendText (chat : Z) (t : text) (keyboard : list (list string))
| AnswerToast (t : toast).

(** The conversation of one user: the FSM state and data, the store, what
    was sent. *)
Record conversation := {
  c_state : option movie_state;
  c_fsm : gmap string value;
  c_db : database;
  c_sent : list sending
}.

Definition C (A : Type) := conversation -> conversation * result A.

Definition cret {A} (a : A) : C A := fun s => (s, Ok a).

Definition cbind {A B} (m : C A) (k : A -> C B) : C B :=
  fun s =>
    match m s with
    | (s', Ok a) => k a s'
    | (s', Raise e) => (s', Raise e)
    end.

Notation "'let!' x := m 'in' k" := (cbind m (fun x => k))
  (at level 10, x name, m at level 100, k at level 200).
Notation "'do!' m 'in' k" := (cbind m (fun _ => k))
  (at level 10, m at level 100, k at level 200).

(** A handler of [Bot] run in the conversation: it sees the FSM data and
    the store, and what it sends goes to the end of the log. *)
Definition via_world {A} (m : M A) : C A :=
  fun s =>
    let '(w, r) := m {| fsm := c_fsm s; db := c_db s; sent := [] |} in
    ({| c_state := c_state s; c_fsm := fsm w; c_db := db w;
        c_sent := c_sent s ++ map FromHandlers (sent w) |}, r).

Definition send_text (chat : Z) (t : text) (keyboard : list (list string))
  : C unit :=
  fun s =>
    ({| c_state := c_state s; c_fsm := c_fsm s; c_db := c_db s;
        c_sent := c_sent s ++ [SendText chat t keyboard] |}, Ok tt).

Definition answer (t : toast) : C unit :=
  fun s =>
    ({| c_state := c_state s; c_fsm := c_fsm s; c_db := c_db s;
        c_sent := c_sent s ++ [AnswerToast t] |}, Ok tt).

(** [await state.clear()]: no state, no data. *)
Definition clear : C unit :=
  fun s =>
    ({| c_state := None; c_fsm := ∅; c_db := c_db s; c_sent := c_sent s |},
     Ok tt).

(** [await state.set_state(st)] *)
Definition set_state (st : movie_state) : C unit :=
  fun s =>
    ({| c_state := Some st; c_fsm := c_fsm s; c_db := c_db s;
        c_sent := c_sent s |}, Ok tt).

(** A step that touches nothing. *)
Definition clift {A} (r : result A) : C A := fun s => (s, r).

(** [await state.update_data(k1=v1, ...)] *)
Definition set_data (kvs : list (string * value)) : C unit :=
  fun s =>
    ({| c_state := c_state s;
        c_fsm := foldl (fun m kv => <[kv.1 := kv.2]> m) (c_fsm s) kvs;
        c_db := c_db s; c_sent := c_sent s |}, Ok tt).

(** [await make_api_request(session, url)] with the defaults. *)
Definition fetch (env : Fetcher.provider) : C json :=
  fun s => (s, snd (Fetcher.make_api_request 3 1 env)).

(** The keyboards: the main menu and the single way back. *)
Definition main_menu : list (list string) :=
  [["search"%string]; ["random"%string]; ["favorites"%string];
   ["recommendations"%string]].

Definition back_only : list (list string) := [["back_to_main"%string]].

(** ** Menus *)

Definition back_to_main (cb : callback) : C unit :=
  match cb_message cb with
  | None => cret tt
  | Some chat_id =>
      do! clear in
      send_text chat_id ChooseAction main_menu
  end.

Definition process_search (cb : callback) : C unit :=
  match cb_message cb with
  | None => cret tt
  | Some chat_id =>
      do! send_text chat_id EnterTitle back_only in
      set_state WaitingForSearch
  end.

(** ** Opening a list *)

(** The value the guard [not data or not isinstance(data, dict) or not
    data.get("results")] tests: the [results] of a dict, nothing else. *)
Definition found_results (data : json) : json :=
  match data with
  | JObj o => obj_get o (lit "results") JNull
  | _ => JNull
  end.

(** [data.get("results", [])[:10]] *)
Definition first_ten (found : json) : result value :=
  match found with
  | JStr s => Ok (VStr (take 10 s))
  | JArr l => Ok (VList (take 10 l))
  | _ => Raise TypeError
  end.

(** The body [show_popular_movies] and [show_popular_tv] share, up to the
    text of the failure notice and the content type. *)
Definition show_popular (failed : text) (content_type : pystr)
    (env : Fetcher.provider) (cb : callback) : C unit :=
  match cb_message cb with
  | None => cret tt
  | Some chat_id =>
      let! data := fetch env in
      let found := found_results data in
      if negb (truthy found) then send_text chat_id failed back_only
      else
        let! results := clift (first_ten found) in
        let! n := clift (len results) in
        do! set_data [(k_popular_results, results);
                      (k_current_page, VInt 0);
                      (k_total_pages, VInt n);
                      (k_content_type, VStr content_type)] in
        let! item := clift (getitem results 0) in
        via_world (show_popular_content chat_id item (VStr content_type) 0 n)
  end.

Definition show_popular_movies (env : Fetcher.provider) (cb : callback)
  : C unit :=
  show_popular PopularMoviesFailed (lit "movie") env cb.

Definition show_popular_tv (env : Fetcher.provider) (cb : callback)
  : C unit :=
  show_popular PopularTvFailed (lit "tv") env cb.

Definition show_similar_movies (env : Fetcher.provider) (cb : callback)
  : C unit :=
  match cb_message cb with
  | None => cret tt
  | Some chat_id =>
      if String.eqb (cb_data cb) "" then cret tt else
      match py_int (last_segment (cb_data cb)) with
      | None => cret tt
      | Some movie_id =>
          let! data := fetch env in
          let found := found_results data in
          if negb (truthy found) then send_text chat_id SimilarFailed back_only
          else
            let! results := clift (first_ten found) in
            let! n := clift (len results) in
            do! set_data [(k_similar_results, results);
                          (k_current_page, VInt 0);
                          (k_total_pages, VInt n)] in
            let! item := clift (getitem results 0) in
            via_world (show_similar_content chat_id item 0 n)
      end
  end.

(** ** Adding a favorite *)

(** 'Неизвестный фильм' *)
Definition unknown_film : pystr :=
  [1053; 1077; 1080; 1079; 1074; 1077; 1089; 1090; 1085; 1099; 1081; 32;
   1092; 1080; 1083; 1100; 1084]%N.

Section Adding.

(** What sqlite3 makes of a Python value bound to a [TEXT] column: nothing
    when it refuses the value, [NULL], or a text. *)
Variable sqlite_text : json -> option (option pystr).

(** [add_favorite] on the values of a provider answer: the statement fails
    when a value cannot be bound and when the title, declared [NOT NULL],
    is [NULL]. *)
Definition add_favorite_values (f : faults) (d : database)
    (user_id movie_id : Z) (title poster_path : json)
  : database * result bool :=
  match sqlite_text title, sqlite_text poster_path with
  | Some (Some t), Some p => add_favorite f d user_id movie_id t p
  | _, _ =>
      add_favorite
        {| connect_fails := connect_fails f; execute_fails := true;
           commit_fails := commit_fails f; fetch_fails := fetch_fails f;
           close_fails := close_fails f |}
        d user_id movie_id [] None
  end.

Definition add_to_favorites (f : faults) (env : Fetcher.provider)
    (cb : callback) : C unit :=
  match cb_message cb with
  | None => cret tt
  | Some _ =>
      if String.eqb (cb_data cb) "" then cret tt else
      match py_int (last_segment (cb_data cb)) with
      | None => cret tt
      | Some movie_id =>
          let! data := fetch env in
          match data with
          | JObj ((_ :: _) as o) =>
              let title := obj_get o (lit "title") (JStr unknown_film) in
              let poster_path := obj_get o (lit "poster_path") (JStr []) in
              let! added :=
                via_world
                  (db_step (fun d =>
                     add_favorite_values f d (cb_from_user cb) movie_id
                       title poster_path)) in
              if added : bool then answer AddedToFavorites
              else answer AlreadyInFavorites
          | _ => answer AddFailed
          end
      end
  end.

End Adding.

(** ** The text of a button *)

(** [str(n)] for an [int]: the decimal digits, after a minus sign when
    [n < 0]. [fuel] bounds the number of digits. *)
Definition digit_char (d : Z) : ascii := ascii_of_nat (48 + Z.to_nat d).

Fixpoint digits_of (fuel : nat) (n : Z) (acc : list ascii) : list ascii :=
  match fuel with
  | O => acc
  | S fuel' =>
      if n <? 10 then digit_char n :: acc
      else digits_of fuel' (n / 10) (digit_char (n mod 10) :: acc)
  end.

Definition str_of_int (n : Z) : list ascii :=
  if n <? 0 then "-"%char :: digits_of (S (Z.to_nat (- n))) (- n) []
  else digits_of (S (Z.to_nat n)) n [].

(** [f"{prefix}_{id}"] for an [int] id, as the renderers build the data of
    the buttons [add_favorite_...], [similar_...], [remove_favorite_...]. *)
Definition button_data (prefix : string) (id : Z) : string :=
  string_of_list_ascii
    (list_ascii_of_string prefix ++ "_"%char :: str_of_int id).

End Browse.

(* ===================================================================== *)
(** * Notions used to state further properties                             *)
(* ===================================================================== *)

Module ExtraSpec.
Import Py Fetcher Bot Browse BotSpec.

(** The body an attempt ends the run with: the parsed body of a 200
    answer, nothing for any other outcome. *)
Definition succeeds (o : attempt_outcome) : option json :=
  match o with
  | Response status _ (BodyJson v) => if status =? 200 then Some v else None
  | _ => None
  end.

(** An attempt that fails and is followed by the exponential wait: any
    outcome but a parsed 200 and a 429 whose [Retry-After] is missing or
    readable. *)
Definition backs_off (o : attempt_outcome) : bool :=
  match o with
  | Response status h b =>
      if status =? 200 then match b with BodyJson _ => false | _ => true end
      else if status =? 429
           then match h with HeaderUnparsable => true | _ => false end
           else true
  | _ => true
  end.

(** A call of one of the two writing operations of the store, with the
    faults it meets. *)
Inductive store_op :=
| AddOp (f : faults) (user_id movie_id : Z) (title : pystr)
        (poster_path : option pystr)
| RemoveOp (f : faults) (user_id movie_id : Z).

(** The store after a call, whether it returned or raised, and after a
    sequence of calls. *)
Definition store_after (o : store_op) (d : database) : database :=
  match o with
  | AddOp f u m t p => fst (add_favorite f d u m t p)
  | RemoveOp f u m => fst (remove_favorite f d u m)
  end.

Definition store_after_all (ops : list store_op) (d : database) : database :=
  foldl (fun d o => store_after o d) d ops.

(** Rows whose keys grow strictly along the list, all above [bound]. *)
Fixpoint increasing_keys (bound : Z) (l : list row) : Prop :=
  match l with
  | [] => True
  | r :: l' => bound < row_id r /\ increasing_keys (row_id r) l'
  end.

(** The invariant of the key column: keys grow along the table, above 0
    and up to the last key given. *)
Definition keyed (d : database) : Prop :=
  increasing_keys 0 (rows d) /\
  (forall r, In r (rows d) -> row_id r <= last_id d) /\
  0 <= last_id d.

(** The user a call is made for. *)
Definition op_user (o : store_op) : Z :=
  match o with
  | AddOp _ u _ _ _ => u
  | RemoveOp _ u _ => u
  end.

(** The faults of a call that goes well until [conn.close()] raises. *)
Definition close_raises : faults :=
  {| connect_fails := false; execute_fails := false; commit_fails := false;
     fetch_fails := false; close_fails := true |}.

(** An item the renderers accept: a dict with a truthy [id]. *)
Definition renderable (item : json) : bool :=
  match item with
  | JObj o => truthy (obj_get o (lit "id") JNull)
  | _ => false
  end.

(** The value whose first four characters the search, popular and
    favorites cards show as the year. *)
Definition date_value (o : list (pystr * json)) : json :=
  obj_get o (lit "release_date")
    (obj_get o (lit "first_air_date") (JStr unknown)).

(** A value that can be sliced: a [str] or a list. *)
Definition sliceable (v : json) : bool :=
  match v with
  | JStr _ | JArr _ => true
  | _ => false
  end.

(** The two views whose renderer takes the five arguments
    [handle_navigation] passes. *)
Definition five_argument_view (v : view) : bool :=
  match v with
  | Search | Popular => true
  | Similar | Favorites => false
  end.

(** A press that moves the cursor [c] of a list of [n] entries to [p]. *)
Definition moves_to (v : view) (cb : callback) (c n p : Z) : Prop :=
  (cb_data cb = prev_data v /\ 0 < c /\ p = c - 1) \/
  (cb_data cb = next_data v /\ c < n - 1 /\ p = c + 1).

(** The last thing sent. *)
Definition last_sent (w : world) : option output := last (sent w).

(** The navigation row of a keyboard: its last row. *)
Definition nav_row (keyboard : list (list button)) : list button :=
  default [] (last keyboard).

(** An entry the search and popular cards cannot show: one the renderers
    do not accept, or one whose date cannot be sliced. *)
Definition unshowable (item : json) : bool :=
  match item with
  | JObj o => negb (renderable item) || negb (sliceable (date_value o))
  | _ => true
  end.

(** The world of a session of view [v]: its list and the cursor stored,
    nothing else. *)
Definition session_of (v : view) (items : list json) (c : Z) : world :=
  {| fsm := {[ list_key v := VList items; k_current_page := VInt c ]};
     db := empty_db; sent := [] |}.

(** The favorites list of the session is the list of the store: one dict
    per row of the user, in the order of the table. *)
Definition mirrors (user : Z) (w : world) : Prop :=
  fsm w !! k_favorites
  = Some (VList (map favorite_dict (select_rows (db w) user))).

(** A character that is one of the ten decimal digits. *)
Definition decimal_digit (c : ascii) : Prop :=
  exists d, 0 <= d <= 9 /\ c = digit_char d.

(** The FSM data and the store of a conversation, as the handlers of [Bot]
    see them. *)
Definition world_of (s : conversation) : world :=
  {| fsm := c_fsm s; db := c_db s; sent := [] |}.

(** The keys a popular list is opened under. *)
Definition popular_keys : list string :=
  [k_popular_results; k_current_page; k_total_pages; k_content_type].

(** The keys a similar list is opened under. *)
Definition similar_keys : list string :=
  [k_similar_results; k_current_page; k_total_pages].

(** A conversation that has not started. *)
Definition fresh : conversation :=
  {| c_state := None; c_fsm := ∅; c_db := empty_db; c_sent := [] |}.

(** The body of the mixed answer and its entries. *)
Definition mixed_entries : list json :=
  [entry 603 "movie"; entry 6384 "person"; entry 1399 "tv"].

Definition mixed_body : json :=
  JObj [(lit "page", JInt 1); (lit "results", JArr mixed_entries)].

(** An answer with five films, and the search session of [after_search],
    of two entries, after the user has then opened the popular films on
    that answer: the FSM data holds both lists, under the one cursor. *)
Definition five_films : Fetcher.provider :=
  fun _ =>
    Fetcher.Response 200 Fetcher.HeaderAbsent
      (Fetcher.BodyJson
         (JObj [(lit "results",
                  JArr [entry 11 "movie"; entry 12 "movie"; entry 13 "movie";
                        entry 14 "movie"; entry 15 "movie"])])).

Definition search_then_popular : world :=
  world_of
    (fst (show_popular_movies five_films (press "popular_movies")
            {| c_state := Some WaitingForSearch; c_fsm := fsm after_search;
               c_db := db after_search; c_sent := [] |})).

(** What sqlite3 makes of a value bound to a [TEXT] column, given the text
    it prints a real number as: a text is stored as it is and [None] as
    [NULL]; a number is stored as its text, which for an [int] is its
    decimal form and for a [bool] that of 1 or 0; a list or a dict is
    refused. *)
Definition bound_text (real_text : Q -> pystr) (v : json)
  : option (option pystr) :=
  match v with
  | JStr s => Some (Some s)
  | JNull => Some None
  | JInt z => Some (Some (map N_of_ascii (str_of_int z)))
  | JBool b => Some (Some (map N_of_ascii (str_of_int (if b then 1 else 0))))
  | JFloat q => Some (Some (real_text q))
  | JArr _ | JObj _ => None
  end.

(** The detail answer for a film with a title and no poster. *)
Definition detail_body : list (pystr * json) :=
  [(lit "id", JInt 550); (lit "title", JStr (lit "Fight Club"));
   (lit "poster_path", JNull)].

Definition detail_answer : Fetcher.provider :=
  fun _ =>
    Fetcher.Response 200 Fetcher.HeaderAbsent
      (Fetcher.BodyJson (JObj detail_body)).

End ExtraSpec.

(* ===================================================================== *)
(** * Properties of the fetcher                                           *)
(* ===================================================================== *)

Module FetcherProofs.
Import Py Fetcher FetcherSpec.

Lemma requests_cons_get a t : requests (Get a :: t) = S (requests t).
Proof. reflexivity. Qed.

Lemma requests_cons_sleep s t : requests (Sleep s :: t) = requests t.
Proof. reflexivity. Qed.

Lemma requests_app t u : requests (t ++ u) = (requests t + requests u)%nat.
Proof.
  unfold requests. rewrite List.filter_app, length_app. reflexivity.
Qed.

Lemma sleeps_app t u : sleeps (t ++ u) = sleeps t ++ sleeps u.
Proof. unfold sleeps. apply omap_app. Qed.

Lemma backoff_not_last max_retries retry_delay attempt :
  attempt < max_retries - 1 ->
  backoff max_retries retry_delay attempt = [Sleep (retry_delay * 2 ^ attempt)].
Proof.
  intros H. unfold backoff.
  destruct (Z.ltb_spec attempt (max_retries - 1)); [reflexivity | lia].
Qed.

Lemma backoff_last max_retries retry_delay attempt :
  max_retries - 1 <= attempt ->
  backoff max_retries retry_delay attempt = [].
Proof.
  intros H. unfold backoff.
  destruct (Z.ltb_spec attempt (max_retries - 1)); [lia | reflexivity].
Qed.

(** An attempt that ends in an exception of any kind goes on to the next
    one after the backoff wait: the aiohttp errors through the inner
    handler, all others through the outer one. *)
Lemma outer_try_connection_fault max_retries retry_delay attempt :
  outer_try max_retries retry_delay attempt ConnectionFault
  = (backoff max_retries retry_delay attempt, Continue).
Proof. reflexivity. Qed.

Lemma outer_try_bad_status max_retries retry_delay attempt status h b :
  status <> 200 -> status <> 429 ->
  outer_try max_retries retry_delay attempt (Response status h b)
  = (backoff max_retries retry_delay attempt, Continue).
Proof.
  intros H1 H2. unfold outer_try, inner_try, on_response.
  destruct (Z.eqb_spec status 200); [contradiction|].
  destruct (Z.eqb_spec status 429); [contradiction|].
  reflexivity.
Qed.

Lemma outer_try_rate_limited max_retries retry_delay attempt h b :
  h <> HeaderUnparsable ->
  outer_try max_retries retry_delay attempt (Response 429 h b)
  = ([Sleep (hinted_wait retry_delay h)], Continue).
Proof.
  intros H. unfold outer_try, inner_try, on_response. simpl.
  destruct h; [reflexivity | reflexivity | contradiction].
Qed.

Lemma outer_try_success max_retries retry_delay attempt h v :
  outer_try max_retries retry_delay attempt (Response 200 h (BodyJson v))
  = ([], Return v).
Proof. reflexivity. Qed.

Lemma outer_try_other_fault max_retries retry_delay attempt :
  outer_try max_retries retry_delay attempt OtherFault
  = (backoff max_retries retry_delay attempt, Continue).
Proof. reflexivity. Qed.

(** Only the first iteration asks the provider; the later ones meet the
    closed session. *)
Lemma met_first env : met env 0 = env 0%nat.
Proof. reflexivity. Qed.

Lemma met_later env a : a <> 0 -> met env a = OtherFault.
Proof.
  intros H. unfold met. destruct (Z.eqb_spec a 0); [contradiction | reflexivity].
Qed.

(** A loop whose every attempt goes on after the backoff wait follows the
    schedule and ends in the final [raise]. *)
Lemma attempts_never_succeeding max_retries retry_delay env :
  forall (todo : nat) (a : Z),
    (forall b : Z, a <= b ->
       outer_try max_retries retry_delay b (met env b)
       = (backoff max_retries retry_delay b, Continue)) ->
    a + Z.of_nat todo = max_retries ->
    attempts max_retries retry_delay env todo a
    = (backoff_schedule retry_delay todo a, Raise (APIError MaxRetriesExceeded)).
Proof.
  intros todo. induction todo as [|todo IH]; intros a Hstep Hsum.
  - reflexivity.
  - cbn [attempts backoff_schedule]. rewrite Hstep by lia.
    rewrite (IH (a + 1)) by (try (intros b Hb; apply Hstep); lia).
    destruct todo as [|todo'].
    + rewrite backoff_last by lia. reflexivity.
    + rewrite backoff_not_last by lia. reflexivity.
Qed.

(** From the second iteration on the loop runs to its end, whatever the
    provider would answer. *)
Lemma attempts_on_closed_session max_retries retry_delay env todo a :
  1 <= a ->
  a + Z.of_nat todo = max_retries ->
  attempts max_retries retry_delay env todo a
  = (backoff_schedule retry_delay todo a, Raise (APIError MaxRetriesExceeded)).
Proof.
  intros Ha Hsum. apply attempts_never_succeeding; [|exact Hsum].
  intros b Hb. rewrite met_later by lia. apply outer_try_other_fault.
Qed.

Lemma requests_backoff_schedule d todo k :
  requests (backoff_schedule d todo k) = todo.
Proof.
  revert k. induction todo as [|todo IH]; intros k; [reflexivity|].
  cbn [backoff_schedule]. rewrite requests_cons_get, requests_app, IH.
  destruct todo; reflexivity.
Qed.

Lemma sleeps_backoff_schedule d todo k :
  sleeps (backoff_schedule d (S todo) k)
  = map (fun j => d * 2 ^ j) (seqZ k (Z.of_nat todo)).
Proof.
  revert k. induction todo as [|todo IH]; intros k; [reflexivity|].
  change (backoff_schedule d (S (S todo)) k)
    with (Get k :: [Sleep (d * 2 ^ k)] ++ backoff_schedule d (S todo) (k + 1)).
  change (sleeps (Get k :: [Sleep (d * 2 ^ k)] ++ backoff_schedule d (S todo) (k + 1)))
    with (d * 2 ^ k :: sleeps (backoff_schedule d (S todo) (k + 1))).
  rewrite IH.
  rewrite (seqZ_cons k (Z.of_nat (S todo))) by lia.
  cbn [map]. do 3 f_equal; lia.
Qed.

Lemma last_backoff_schedule d todo k :
  last (backoff_schedule d (S todo) k) = Some (Get (k + Z.of_nat todo)).
Proof.
  revert k. induction todo as [|todo IH]; intros k.
  - cbn. do 2 f_equal. lia.
  - change (backoff_schedule d (S (S todo)) k)
      with ([Get k; Sleep (d * 2 ^ k)] ++ backoff_schedule d (S todo) (k + 1)).
    rewrite last_app, IH. cbn. do 2 f_equal. lia.
Qed.

(** ** Connection faults on every attempt *)

(** C5. When every attempt meets a connection-level fault,
    [make_api_request] makes exactly [max_retries] requests, sleeps
    [retry_delay * 2^k] after failed attempt [k] for each [k] in
    [0, max_retries - 2] and nothing after the last attempt (the run is the
    backoff schedule, whose last event is the last request), so the time
    slept is the sum of those terms, and it ends in
    [APIError("Max retries exceeded")]. *)
Theorem C5_all_faults_exhaust_retries
    (max_retries retry_delay : Z) (env : provider) :
  0 <= max_retries ->
  (forall k, env k = ConnectionFault) ->
  let run := make_api_request max_retries retry_delay env in
  snd run = Raise (APIError MaxRetriesExceeded) /\
  fst run = backoff_schedule retry_delay (Z.to_nat max_retries) 0 /\
  Z.of_nat (requests (fst run)) = max_retries /\
  sleeps (fst run)
    = map (fun k => retry_delay * 2 ^ k) (seqZ 0 (max_retries - 1)) /\
  total_sleep (fst run)
    = foldr Z.add 0
        (map (fun k => retry_delay * 2 ^ k) (seqZ 0 (max_retries - 1))) /\
  (0 < max_retries -> last (fst run) = Some (Get (max_retries - 1))).
Proof.
  intros Hpos Henv run.
  assert (Hrun : run = (backoff_schedule retry_delay (Z.to_nat max_retries) 0,
                        Raise (APIError MaxRetriesExceeded))).
  { subst run. unfold make_api_request.
    apply attempts_never_succeeding; [|lia].
    intros a _. unfold met. destruct (a =? 0).
    - rewrite Henv. apply outer_try_connection_fault.
    - apply outer_try_other_fault. }
  rewrite Hrun. cbn [fst snd].
  assert (Hsleeps : sleeps (backoff_schedule retry_delay (Z.to_nat max_retries) 0)
            = map (fun k => retry_delay * 2 ^ k) (seqZ 0 (max_retries - 1))).
  { destruct (Z.to_nat max_retries) as [|n] eqn:En.
    - assert (max_retries = 0) by lia. subst max_retries. reflexivity.
    - rewrite sleeps_backoff_schedule. do 2 f_equal. lia. }
  repeat split.
  - rewrite requests_backoff_schedule. lia.
  - exact Hsleeps.
  - unfold total_sleep. rewrite Hsleeps. reflexivity.
  - intros Hlt. destruct (Z.to_nat max_retries) as [|n] eqn:En; [lia|].
    rewrite last_backoff_schedule. do 2 f_equal. lia.
Qed.

Lemma C5_all_faults_exhaust_retries_witness :
  let run := make_api_request 3 1 (fun _ => ConnectionFault) in
  snd run = Raise (APIError MaxRetriesExceeded) /\
  fst run = [Get 0; Sleep 1; Get 1; Sleep 2; Get 2] /\
  Z.of_nat (requests (fst run)) = 3 /\
  sleeps (fst run) = [1; 2] /\
  total_sleep (fst run) = 3 /\
  (0 < 3 -> last (fst run) = Some (Get 2)).
Proof.
  apply (C5_all_faults_exhaust_retries 3 1 (fun _ => ConnectionFault));
    [lia | reflexivity].
Defined.

(** ** Rate limiting *)






(** After a rate-limited first attempt the rest of the run is fixed: the
    attempts left meet the closed session. *)
Lemma rate_limited_first_attempt max_retries retry_delay env h b :
  0 < max_retries ->
  env 0%nat = Response 429 h b ->
  h <> HeaderUnparsable ->
  make_api_request max_retries retry_delay env
  = (Get 0 :: Sleep (hinted_wait retry_delay h)
       :: backoff_schedule retry_delay (Z.to_nat max_retries - 1) 1,
     Raise (APIError MaxRetriesExceeded)).
Proof.
  intros Hpos Henv Hh. unfold make_api_request.
  destruct (Z.to_nat max_retries) as [|todo] eqn:Eb; [lia|].
  cbn [attempts]. rewrite met_first, Henv, outer_try_rate_limited by exact Hh.
  rewrite attempts_on_closed_session by lia.
  replace (S todo - 1)%nat with todo by lia. reflexivity.
Qed.

(** An unreadable [Retry-After] makes [int] raise inside the inner [try]:
    the outer handler takes it, so the wait is the backoff one. *)
Lemma unparsable_retry_after max_retries retry_delay attempt b :
  outer_try max_retries retry_delay attempt (Response 429 HeaderUnparsable b)
  = (backoff max_retries retry_delay attempt, Continue).
Proof. reflexivity. Qed.

(** ** Other statuses *)

(** C4, the code at the failing input: with the defaults a provider that
    answers 500 each time is asked three times, with the backoff waits of
    1 and 2 seconds, and the error raised is the one of exhausted retries.
    The [APIError] raised for the status is taken by the outer
    [except Exception] of the same iteration. *)
Theorem C4_status_error_is_retried :
  make_api_request 3 1 (fun _ => Response 500 HeaderAbsent (BodyJson JNull))
  = ([Get 0; Sleep 1; Get 1; Sleep 2; Get 2],
     Raise (APIError MaxRetriesExceeded)).
Proof. reflexivity. Qed.

(** The same for every provider whose answers are all neither 200 nor
    429. *)
Lemma bad_statuses_are_retried max_retries retry_delay env :
  0 <= max_retries ->
  (forall k, exists status h b,
      env k = Response status h b /\ status <> 200 /\ status <> 429) ->
  make_api_request max_retries retry_delay env
  = (backoff_schedule retry_delay (Z.to_nat max_retries) 0,
     Raise (APIError MaxRetriesExceeded)).
Proof.
  intros Hpos Henv. unfold make_api_request.
  apply attempts_never_succeeding; [|lia].
  intros a _. unfold met. destruct (a =? 0).
  - destruct (Henv (Z.to_nat a)) as (status & h & b & -> & H1 & H2).
    apply outer_try_bad_status; assumption.
  - apply outer_try_other_fault.
Qed.

End FetcherProofs.

(* ===================================================================== *)
(** * Properties of the favorites store                                   *)
(* ===================================================================== *)

Module DatabaseProofs.
Import Py Database DatabaseSpec.

Lemma select_insert_row db u m t p owner :
  select_rows (insert_row db u m t p) owner
  = select_rows db owner ++
    (if u =? owner
     then [{| row_id := last_id db + 1; user_id := u; movie_id := m;
              title := t; poster_path := p |}]
     else []).
Proof.
  unfold select_rows, insert_row. cbn [rows].
  rewrite List.filter_app. cbn [List.filter user_id].
  destruct (u =? owner); reflexivity.
Qed.

Lemma select_delete_rows db u m :
  select_rows (delete_rows db u m) u
  = List.filter (fun r => negb (movie_id r =? m)) (select_rows db u).
Proof.
  unfold select_rows, delete_rows. cbn [rows].
  induction (rows db) as [|r l IH]; [reflexivity|].
  cbn [List.filter].
  destruct (user_id r =? u) eqn:Eu, (movie_id r =? m) eqn:Em;
    cbn [andb negb List.filter]; rewrite ?Eu, ?Em; cbn [negb];
    rewrite IH; reflexivity.
Qed.

Lemma delete_rows_no_match db u m :
  (forall r, In r (rows db) -> ~ (user_id r = u /\ movie_id r = m)) ->
  delete_rows db u m = db.
Proof.
  intros Hno. destruct db as [l n]. unfold delete_rows. cbn [rows last_id] in *.
  f_equal. induction l as [|r l IH]; [reflexivity|].
  cbn [List.filter].
  destruct (Z.eqb_spec (user_id r) u) as [Hu|Hu];
    destruct (Z.eqb_spec (movie_id r) m) as [Hm|Hm]; cbn [andb negb];
    try (f_equal; apply IH; intros r' Hr'; apply Hno; right; exact Hr').
  exfalso. apply (Hno r); [left; reflexivity | split; assumption].
Qed.

(** A writing operation answers [True] only when none of its steps met a
    fault, and then its statement took effect. *)
Lemma write_ok f db db' db1 conn r :
  write_block f db db' = (db1, conn, r) ->
  finally_close f conn (except_return false r) = Ok true ->
  db1 = db' /\ connect_fails f = false /\ execute_fails f = false /\
  commit_fails f = false /\ close_fails f = false.
Proof.
  unfold write_block, get_db_connection, finally_close, except_return.
  destruct (connect_fails f), (execute_fails f), (commit_fails f),
    (close_fails f); intros [= <- <- <-]; cbn; intros H;
    try discriminate; auto.
Qed.

Lemma add_favorite_ok f db u m t p db1 :
  add_favorite f db u m t p = (db1, Ok true) ->
  db1 = insert_row db u m t p.
Proof.
  unfold add_favorite.
  destruct (write_block f db (insert_row db u m t p)) as [[d c] r] eqn:E.
  intros [= <- H]. apply (write_ok _ _ _ _ _ _ E H).
Qed.

Lemma remove_favorite_ok f db u m db1 :
  remove_favorite f db u m = (db1, Ok true) ->
  db1 = delete_rows db u m.
Proof.
  unfold remove_favorite.
  destruct (write_block f db (delete_rows db u m)) as [[d c] r] eqn:E.
  intros [= <- H]. apply (write_ok _ _ _ _ _ _ E H).
Qed.

(** With the handle opened and released, a fault of any other step comes
    out as the failure value. *)
Lemma add_favorite_fault_to_false f db u m t p :
  connect_fails f = false -> close_fails f = false ->
  execute_fails f = true \/ commit_fails f = true ->
  add_favorite f db u m t p = (db, Ok false).
Proof.
  unfold add_favorite, write_block, get_db_connection, finally_close.
  intros -> -> [-> | ->]; [reflexivity|].
  destruct (execute_fails f); reflexivity.
Qed.

Lemma remove_favorite_fault_to_false f db u m :
  connect_fails f = false -> close_fails f = false ->
  execute_fails f = true \/ commit_fails f = true ->
  remove_favorite f db u m = (db, Ok false).
Proof.
  unfold remove_favorite, write_block, get_db_connection, finally_close.
  intros -> -> [-> | ->]; [reflexivity|].
  destruct (execute_fails f); reflexivity.
Qed.

Lemma get_favorites_fault_to_empty f db u :
  connect_fails f = false -> close_fails f = false ->
  execute_fails f = true \/ fetch_fails f = true ->
  get_favorites f db u = Ok [].
Proof.
  unfold get_favorites, get_db_connection, finally_close.
  intros -> -> [-> | ->]; [reflexivity|].
  destruct (execute_fails f); reflexivity.
Qed.

(** C6, the code at the failing input: when [sqlite3.connect] raises, the
    handler of each operation has its failure value ready, and then
    [finally: conn.close()] reads the local [conn] that was never bound:
    the caller gets [UnboundLocalError], not [False] or [[]]. *)
Theorem C6_open_failure_escapes :
  snd (add_favorite cannot_open empty_db 1 550 (lit "Fight Club") None)
    = Raise UnboundLocalError /\
  snd (remove_favorite cannot_open empty_db 1 550) = Raise UnboundLocalError /\
  get_favorites cannot_open empty_db 1 = Raise UnboundLocalError.
Proof. repeat split. Qed.

(** The same on every store and every argument. *)
Lemma open_failure_escapes f db u m t p :
  connect_fails f = true ->
  snd (add_favorite f db u m t p) = Raise UnboundLocalError /\
  snd (remove_favorite f db u m) = Raise UnboundLocalError /\
  get_favorites f db u = Raise UnboundLocalError.
Proof.
  unfold add_favorite, remove_favorite, get_favorites, write_block,
    get_db_connection.
  intros ->. repeat split.
Qed.

(** ** Add, list, remove, list *)

Lemma select_rows_none db owner :
  (forall r, In r (rows db) -> user_id r <> owner) ->
  select_rows db owner = [].
Proof.
  unfold select_rows. induction (rows db) as [|r l IH]; intros H;
    [reflexivity|].
  cbn [List.filter].
  destruct (Z.eqb_spec (user_id r) owner) as [E|_].
  - exfalso. exact (H r (or_introl eq_refl) E).
  - apply IH. intros r' Hr'. apply H. right. exact Hr'.
Qed.

(** C7. From a store whose table holds no row of the owner, whatever rows
    of other users it holds, a successful add makes the owner's list
    exactly one entry, with that content id and title; a successful remove
    of it makes the list empty again. And remove answers success on a store
    where no row matches, which it leaves as it is. *)
Theorem C7_add_list_remove_list
    (db db1 db2 : database) (owner content_id : Z) (t : pystr)
    (poster : option pystr) (f g : faults) :
  (forall r, In r (rows db) -> user_id r <> owner) ->
  add_favorite f db owner content_id t poster = (db1, Ok true) ->
  remove_favorite g db1 owner content_id = (db2, Ok true) ->
  (exists r, get_favorites no_faults db1 owner = Ok [r] /\
             movie_id r = content_id /\ title r = t /\
             user_id r = owner /\ poster_path r = poster) /\
  get_favorites no_faults db2 owner = Ok [] /\
  (forall (d : database) (u m : Z),
      (forall r, In r (rows d) -> ~ (user_id r = u /\ movie_id r = m)) ->
      remove_favorite no_faults d u m = (d, Ok true)).
Proof.
  intros Hnone Hadd Hrem.
  apply add_favorite_ok in Hadd. apply remove_favorite_ok in Hrem.
  subst db1 db2.
  change (get_favorites no_faults ?d ?u) with (Ok (select_rows d u)) in *.
  apply select_rows_none in Hnone.
  assert (Hone : select_rows (insert_row db owner content_id t poster) owner
                 = [{| row_id := last_id db + 1; user_id := owner;
                       movie_id := content_id; title := t;
                       poster_path := poster |}]).
  { rewrite select_insert_row, Hnone, Z.eqb_refl. reflexivity. }
  assert (Hgone : select_rows
                    (delete_rows (insert_row db owner content_id t poster)
                       owner content_id) owner = []).
  { rewrite select_delete_rows, Hone. cbn. rewrite Z.eqb_refl. reflexivity. }
  split; [|split].
  - eexists. rewrite Hone. repeat split.
  - rewrite Hgone. reflexivity.
  - intros d u m Hno.
    change (remove_favorite no_faults d u m) with (delete_rows d u m, Ok true).
    f_equal. apply delete_rows_no_match. exact Hno.
Qed.

Lemma C7_add_list_remove_list_witness :
  let db := insert_row empty_db 8 603 (lit "The Matrix") None in
  let db1 := insert_row db 7 550 (lit "Fight Club") None in
  let db2 := {| rows := rows db; last_id := 2 |} in
  (exists r, get_favorites no_faults db1 7 = Ok [r] /\
             movie_id r = 550 /\ title r = lit "Fight Club" /\
             user_id r = 7 /\ poster_path r = None) /\
  get_favorites no_faults db2 7 = Ok [] /\
  (forall (d : database) (u m : Z),
      (forall r, In r (rows d) -> ~ (user_id r = u /\ movie_id r = m)) ->
      remove_favorite no_faults d u m = (d, Ok true)).
Proof.
  intros db db1 db2.
  apply (C7_add_list_remove_list db db1 db2 7 550
           (lit "Fight Club") None no_faults no_faults);
    [|reflexivity|reflexivity].
  intros r [<- | []]. cbn. lia.
Defined.

(** Remove answers success whatever the table holds. *)
Lemma remove_favorite_always_succeeds db u m :
  snd (remove_favorite no_faults db u m) = Ok true.
Proof. reflexivity. Qed.

End DatabaseProofs.

(* ===================================================================== *)
(** * Properties of the handlers                                          *)
(* ===================================================================== *)

Module BotProofs.
Import Py Bot BotSpec.

(** ** Rendering leaves the session alone *)

Lemma emit_spec o w :
  emit o w = ({| fsm := fsm w; db := db w; sent := sent w ++ [o] |}, Ok tt).
Proof. reflexivity. Qed.

Lemma show_card_keeps h title_of year_of actions prev next chat item cp tp w :
  fsm (fst (show_card h title_of year_of actions prev next chat item cp tp w))
    = fsm w /\
  db (fst (show_card h title_of year_of actions prev next chat item cp tp w))
    = db w.
Proof.
  unfold show_card. destruct item; try (split; reflexivity).
  destruct (negb (truthy (obj_get o (lit "id") JNull))); [split; reflexivity|].
  unfold bind, lift. destruct (year_of o); split; reflexivity.
Qed.

Lemma call_show_keeps f chat item ct cp tp w :
  fsm (fst (call_show f chat item ct cp tp w)) = fsm w.
Proof.
  destruct f; cbn [call_show]; try reflexivity;
    unfold show_search_results, show_popular_content; apply show_card_keeps.
Qed.

(** What a card shows when the item passes the guard and its date can be
    cut. *)
Lemma show_card_sends h title_of year_of actions prev next chat o cp tp w y :
  truthy (obj_get o (lit "id") JNull) = true ->
  year_of o = Ok y ->
  exists c kb ph,
    show_card h title_of year_of actions prev next chat (JObj o) cp tp w
    = ({| fsm := fsm w; db := db w; sent := sent w ++ [SendCard chat c kb ph] |},
       Ok tt) /\
    card_year c = y /\ card_index c = cp + 1 /\ card_total c = tp /\
    card_title c = title_of o.
Proof.
  intros Hid Hy. unfold show_card. rewrite Hid. cbn [negb].
  unfold bind, lift. rewrite Hy. rewrite emit_spec.
  do 3 eexists. split; [reflexivity|]. repeat split.
Qed.

(** ** The release year *)

Lemma release_year_of_date o s :
  date_string o = Some s -> release_year o = Ok (JStr (take 4 s)).
Proof.
  unfold date_string, release_year, obj_get.
  destruct (obj_lookup o (lit "release_date")) as [[]|];
    try discriminate.
  - intros [= ->]. reflexivity.
  - destruct (obj_lookup o (lit "first_air_date")) as [[]|];
      try discriminate.
    intros [= ->]. reflexivity.
Qed.

(** The claim as stated fails where no well-formed date is at hand: the
    card of an item without any date shows the first four letters of the
    placeholder, the card of a favorite (whose date is the empty string)
    shows nothing, and a two-letter date is shown as it is. *)
Lemma C9_counterexample :
  shown_year (fst (show_search_results 1 (JObj [(lit "id", JInt 603)])
                     (VStr (lit "search")) 0 1 blank))
    = Some (JStr (take 4 unknown)) /\
  take 4 unknown <> unknown /\
  shown_year (fst (show_favorites_page 1
                     (favorite_dict {| row_id := 1; user_id := 1;
                                       movie_id := 603;
                                       title := lit "The Matrix";
                                       poster_path := None |}) 0 1 blank))
    = Some (JStr []) /\
  shown_year (fst (show_search_results 1
                     (JObj [(lit "id", JInt 603);
                            (lit "release_date", JStr (lit "19"))])
                     (VStr (lit "search")) 0 1 blank))
    = Some (JStr (lit "19")) /\
  JStr [] <> JStr unknown /\ JStr (lit "19") <> JStr unknown.
Proof. repeat split; discriminate. Qed.

Lemma release_year_similar_of_date o s :
  release_date_string o = Some s ->
  release_year_similar o = Ok (JStr (take 4 s)).
Proof.
  unfold release_date_string, release_year_similar, obj_get.
  destruct (obj_lookup o (lit "release_date")) as [[]|]; try discriminate.
  intros [= ->]. reflexivity.
Qed.

(** C9, amended. The year a card shows is the date string of the item cut
    to its first four characters: the first four of a date of four
    characters or more, and the whole string, unchanged, when it is shorter
    (the empty string included); no placeholder is put in its place. The
    date string is the [release_date] of the item, else its
    [first_air_date], on the search, popular and favorites cards, and its
    [release_date] on the card of similar films. *)
Theorem C9_year_is_date_prefix
    (chat : Z) (o : list (pystr * json)) (ct : value) (cp tp : Z)
    (w : world) :
  truthy (obj_get o (lit "id") JNull) = true ->
  let shows (s : pystr) (r : world * result unit) :=
    snd r = Ok tt /\
    shown_year (fst r) = Some (JStr (take 4 s)) /\
    (length s < 4 -> shown_year (fst r) = Some (JStr s))%nat /\
    (4 <= length s -> exists y, shown_year (fst r) = Some (JStr y) /\
                                length y = 4%nat /\ y `prefix_of` s)%nat in
  (forall s, date_string o = Some s ->
     shows s (show_search_results chat (JObj o) ct cp tp w) /\
     shows s (show_popular_content chat (JObj o) ct cp tp w) /\
     shows s (show_favorites_page chat (JObj o) cp tp w)) /\
  (forall s, release_date_string o = Some s ->
     shows s (show_similar_content chat (JObj o) cp tp w)).
Proof.
  intros Hid shows.
  assert (Hcard : forall s h title_of year_of actions prev next,
             year_of o = Ok (JStr (take 4 s)) ->
             shows s (show_card h title_of year_of actions prev next
                        chat (JObj o) cp tp w)).
  { intros s h title_of year_of actions prev next Hyear.
    destruct (show_card_sends h title_of year_of actions prev next
                chat o cp tp w _ Hid Hyear)
      as (c & kb & ph & -> & Hy & _).
    assert (Hshown : shown_year
              {| fsm := fsm w; db := db w;
                 sent := sent w ++ [SendCard chat c kb ph] |}
            = Some (JStr (take 4 s))).
    { unfold shown_year. cbn [sent]. rewrite last_snoc, Hy. reflexivity. }
    unfold shows. cbn [fst snd]. rewrite Hshown. repeat split.
    - intros Hlen. rewrite take_ge by lia. reflexivity.
    - intros Hlen. exists (take 4 s). repeat split.
      + rewrite length_take. lia.
      + apply prefix_take. }
  split.
  - intros s Hdate. pose proof (release_year_of_date o s Hdate) as Hyear.
    split; [|split]; apply (Hcard s); exact Hyear.
  - intros s Hdate. apply Hcard. apply release_year_similar_of_date.
    exact Hdate.
Qed.

Lemma C9_year_is_date_prefix_witness :
  let o := [(lit "id", JInt 603); (lit "release_date", JStr (lit "1999-03-31"))] in
  let shows (r : world * result unit) :=
    snd r = Ok tt /\
    shown_year (fst r) = Some (JStr (lit "1999")) /\
    (10 < 4 -> shown_year (fst r) = Some (JStr (lit "1999-03-31")))%nat /\
    (4 <= 10 -> exists y, shown_year (fst r) = Some (JStr y) /\
                          length y = 4%nat /\ y `prefix_of` lit "1999-03-31")%nat in
  (shows (show_search_results 1 (JObj o) (VStr (lit "search")) 0 1 blank) /\
   shows (show_popular_content 1 (JObj o) (VStr (lit "search")) 0 1 blank) /\
   shows (show_favorites_page 1 (JObj o) 0 1 blank)) /\
  shows (show_similar_content 1 (JObj o) 0 1 blank).
Proof.
  intros o.
  destruct (C9_year_is_date_prefix 1 o (VStr (lit "search")) 0 1 blank
              eq_refl) as [Hthree Hsimilar].
  split.
  - exact (Hthree (lit "1999-03-31") eq_refl).
  - exact (Hsimilar (lit "1999-03-31") eq_refl).
Defined.

(** ** Search results *)

Lemma movie_or_tv_dict o :
  movie_or_tv (JObj o) = Ok (is_movie_or_tv (JObj o)).
Proof.
  unfold movie_or_tv, is_movie_or_tv, media_type_of, get1, obj_get, rbind.
  f_equal. destruct (obj_lookup o (lit "media_type")) as [[]|]; try reflexivity.
  unfold in_strs, eq_str. cbn [existsb]. rewrite orb_false_r.
  repeat case_bool_decide; try reflexivity; tauto.
Qed.

Lemma filterM_movie_or_tv items :
  Forall (fun it => is_dict it = true) items ->
  filterM movie_or_tv items = Ok (List.filter is_movie_or_tv items).
Proof.
  induction 1 as [|it items Hit _ IH]; [reflexivity|].
  destruct it; try discriminate.
  cbn [filterM List.filter]. rewrite movie_or_tv_dict, IH. reflexivity.
Qed.

Lemma update_data_spec kvs w :
  update_data kvs w
  = ({| fsm := foldl (fun m kv => <[kv.1 := kv.2]> m) (fsm w) kvs;
        db := db w; sent := sent w |}, Ok tt).
Proof. reflexivity. Qed.

Lemma show_search_results_keeps chat item ct cp tp w :
  fsm (fst (show_search_results chat item ct cp tp w)) = fsm w.
Proof. apply show_card_keeps. Qed.

Lemma show_favorites_page_keeps chat item cp tp w :
  fsm (fst (show_favorites_page chat item cp tp w)) = fsm w.
Proof. apply show_card_keeps. Qed.

(** C8. When the provider answers a search with a dict whose [results] is
    a non-empty array of entries, the list stored for browsing is exactly
    the entries whose media type is "movie" or "tv", in the order of the
    answer (it is the answer filtered: a sublist of it, holding an entry
    if and only if the answer holds it with one of the two types), and the
    cursor is 0. *)
Theorem C8_search_keeps_movies_and_tv
    (env : Fetcher.provider) (msg : message) (w : world) (text : string)
    (o : list (pystr * json)) (items : list json) :
  msg_text msg = Some text ->
  text <> ""%string ->
  snd (Fetcher.make_api_request 3 1 env) = Ok (JObj o) ->
  obj_lookup o (lit "results") = Some (JArr items) ->
  items <> [] ->
  Forall (fun it => is_dict it = true) items ->
  let w' := fst (process_search_query env msg w) in
  let kept := List.filter is_movie_or_tv items in
  fsm w' !! k_search_results = Some (VList kept) /\
  fsm w' !! k_current_page = Some (VInt 0) /\
  sublist kept items /\
  (forall it, In it kept <-> In it items /\ is_movie_or_tv it = true).
Proof.
  intros Htext Hne Hfetch Hres Hitems Hdicts w' kept.
  assert (Hw' : fsm w'
            = <[k_content_type := VStr (lit "search")]>
                (<[k_total_pages := VInt (Z.of_nat (length kept))]>
                   (<[k_current_page := VInt 0]>
                      (<[k_search_results := VList kept]> (fsm w))))).
  { subst w'. unfold process_search_query. rewrite Htext.
    destruct (String.eqb_spec text ""); [contradiction|].
    unfold bind at 1. unfold lift at 1. rewrite Hfetch.
    unfold obj_get. rewrite Hres.
    destruct items as [|it0 items0]; [contradiction|].
    cbn [truthy negb iter_json].
    unfold bind at 1. unfold lift at 1.
    unfold bind at 1. unfold lift at 1.
    rewrite (filterM_movie_or_tv _ Hdicts). fold kept.
    unfold bind at 1. rewrite update_data_spec.
    unfold bind, lift. cbn [fsm].
    destruct (index kept 0); [|reflexivity].
    rewrite show_search_results_keeps. reflexivity. }
  rewrite Hw'. split; [|split; [|split]].
  - rewrite !lookup_insert_ne by discriminate. apply lookup_insert_eq.
  - rewrite !lookup_insert_ne by discriminate. apply lookup_insert_eq.
  - subst kept. clear. induction items as [|it items IH]; [constructor|].
    cbn [List.filter]. destruct (is_movie_or_tv it); constructor; exact IH.
  - intros it. subst kept. apply List.filter_In.
Qed.

Lemma C8_search_keeps_movies_and_tv_witness :
  let items := [entry 603 "movie"; entry 6384 "person"; entry 1399 "tv"] in
  let w' := fst (process_search_query mixed_answer
                   {| msg_chat := 1; msg_text := Some "matrix"%string |}
                   blank) in
  let kept := [entry 603 "movie"; entry 1399 "tv"] in
  fsm w' !! k_search_results = Some (VList kept) /\
  fsm w' !! k_current_page = Some (VInt 0) /\
  sublist kept items /\
  (forall it, In it kept <-> In it items /\ is_movie_or_tv it = true).
Proof.
  intros items.
  apply (C8_search_keeps_movies_and_tv mixed_answer
           {| msg_chat := 1; msg_text := Some "matrix"%string |} blank
           "matrix"%string
           [(lit "page", JInt 1); (lit "results", JArr items)] items);
    try reflexivity; try discriminate.
  repeat constructor.
Defined.

(** ** Navigation *)

Lemma dispatch_prev v cb :
  cb_data cb = prev_data v ->
  dispatch_navigation cb
  = handle_navigation cb (list_key v) (renderer v) (prev_data v) (next_data v).
Proof.
  intros H. unfold dispatch_navigation. rewrite H. destruct v; reflexivity.
Qed.

Lemma dispatch_next v cb :
  cb_data cb = next_data v ->
  dispatch_navigation cb
  = handle_navigation cb (list_key v) (renderer v) (prev_data v) (next_data v).
Proof.
  intros H. unfold dispatch_navigation. rewrite H. destruct v; reflexivity.
Qed.

Lemma prev_is_not_next v : String.eqb (next_data v) (prev_data v) = false.
Proof. destruct v; reflexivity. Qed.

Lemma list_key_is_not_cursor v : k_current_page <> list_key v.
Proof. destruct v; discriminate. Qed.

Lemma move_to_fsm chat results ct f p w :
  fsm (fst (move_to chat results ct f p w))
  = <[k_current_page := VInt p]> (fsm w).
Proof.
  unfold move_to. unfold bind at 1. rewrite update_data_spec.
  unfold bind, lift. destruct (getitem results p); [|reflexivity].
  destruct (len results); [|reflexivity].
  rewrite call_show_keeps. reflexivity.
Qed.

(** A press without a message is dropped. *)
Lemma handle_navigation_no_message cb key f prev next w :
  cb_message cb = None ->
  handle_navigation cb key f prev next w = (w, Ok tt).
Proof. intros H. unfold handle_navigation. rewrite H. reflexivity. Qed.

(** A "previous" press: a move to [c - 1] when the cursor [c] is positive,
    nothing otherwise. *)
Lemma handle_navigation_prev v cb chat w c :
  cb_message cb = Some chat ->
  cb_data cb = prev_data v ->
  data_get (fsm w) k_current_page (VInt 0) = VInt c ->
  handle_navigation cb (list_key v) (renderer v) (prev_data v) (next_data v) w
  = if 0 <? c
    then move_to chat (data_get (fsm w) (list_key v) (VList []))
           (data_get (fsm w) k_content_type (VStr (lit "movie")))
           (renderer v) (c - 1) w
    else (w, Ok tt).
Proof.
  intros Hm Hd Hc. unfold handle_navigation. rewrite Hm, Hd.
  unfold bind at 1. unfold get_data. rewrite Hc.
  rewrite String.eqb_refl. cbn [gt_int].
  unfold bind at 1. unfold lift at 1.
  destruct (0 <? c).
  - reflexivity.
  - assert (E : String.eqb (prev_data v) (next_data v) = false)
      by (destruct v; reflexivity).
    rewrite E. reflexivity.
Qed.

(** A "next" press on a stored list: a move to [c + 1] when the cursor [c]
    is before the last index, nothing otherwise. *)
Lemma handle_navigation_next v cb chat w c items :
  cb_message cb = Some chat ->
  cb_data cb = next_data v ->
  data_get (fsm w) k_current_page (VInt 0) = VInt c ->
  data_get (fsm w) (list_key v) (VList []) = VList items ->
  handle_navigation cb (list_key v) (renderer v) (prev_data v) (next_data v) w
  = if c <? Z.of_nat (length items) - 1
    then move_to chat (VList items)
           (data_get (fsm w) k_content_type (VStr (lit "movie")))
           (renderer v) (c + 1) w
    else (w, Ok tt).
Proof.
  intros Hm Hd Hc Hl. unfold handle_navigation. rewrite Hm, Hd.
  unfold bind at 1. unfold get_data. rewrite Hc, Hl.
  rewrite prev_is_not_next, String.eqb_refl.
  unfold bind at 1. unfold lift at 1.
  cbn [len rbind lt_int].
  unfold bind at 1. unfold lift at 1.
  destruct (c <? Z.of_nat (length items) - 1); reflexivity.
Qed.

Lemma data_get_some (m : gmap string value) k d x :
  m !! k = Some x -> data_get m k d = x.
Proof. intros H. unfold data_get. rewrite H. reflexivity. Qed.

Lemma data_get_none (m : gmap string value) k d :
  m !! k = None -> data_get m k d = d.
Proof. intros H. unfold data_get. rewrite H. reflexivity. Qed.

(** One press keeps the session of its view well formed. *)
Lemma nav_press_keeps_session v items c w cb :
  in_session v items c w ->
  0 <= c < Z.of_nat (length items) ->
  nav_press v cb ->
  exists c', in_session v items c' (fst (dispatch_navigation cb w)) /\
             0 <= c' < Z.of_nat (length items).
Proof.
  intros [Hl Hc] Hrange Hpress.
  assert (Hmoved : forall chat results ct p,
             in_session v items p
               (fst (move_to chat results ct (renderer v) p w))).
  { intros chat results ct p. unfold in_session. rewrite move_to_fsm. split.
    - rewrite lookup_insert_ne by apply list_key_is_not_cursor. exact Hl.
    - apply lookup_insert_eq. }
  destruct (cb_message cb) as [chat|] eqn:Hm.
  - destruct Hpress as [Hd|Hd].
    + rewrite (dispatch_prev v cb Hd).
      rewrite (handle_navigation_prev v cb chat w c Hm Hd
                 (data_get_some _ _ _ _ Hc)).
      destruct (Z.ltb_spec 0 c).
      * exists (c - 1). split; [apply Hmoved | lia].
      * exists c. split; [split; assumption | lia].
    + rewrite (dispatch_next v cb Hd).
      rewrite (handle_navigation_next v cb chat w c items Hm Hd
                 (data_get_some _ _ _ _ Hc) (data_get_some _ _ _ _ Hl)).
      destruct (Z.ltb_spec c (Z.of_nat (length items) - 1)).
      * exists (c + 1). split; [apply Hmoved | lia].
      * exists c. split; [split; assumption | lia].
  - exists c. split; [|lia].
    destruct Hpress as [Hd|Hd];
      [rewrite (dispatch_prev v cb Hd) | rewrite (dispatch_next v cb Hd)];
      rewrite handle_navigation_no_message by exact Hm;
      split; assumption.
Qed.

(** The claim as stated fails for a sequence that mixes the buttons of two
    views: the lists of the views are held side by side and share the one
    cursor.  A search has found two entries and the popular films, five of
    them, have been opened afterwards; three presses of the popular "next"
    button, each routed through [handle_navigation], leave the cursor at 3,
    outside the search list, and a press of the search "previous" button,
    still on screen, then stores 2 and raises [IndexError]. *)
Lemma C1_counterexample :
  let items := [entry 603 "movie"; entry 1399 "tv"] in
  let w := ExtraSpec.search_then_popular in
  let cbs := [press "next_popular"; press "next_popular";
              press "next_popular"] in
  in_session Search items 0 w /\
  in_session Search items 3 (run_presses cbs w) /\
  snd (dispatch_navigation (press "prev_page") (run_presses cbs w))
    = Raise IndexError /\
  in_session Search items 2
    (fst (dispatch_navigation (press "prev_page") (run_presses cbs w))).
Proof. vm_compute. repeat split; reflexivity. Qed.

(** C1, amended. In the session of any of the four views, with a non-empty
    list of length [n] and the cursor in [0, n-1], after any sequence of
    presses of that view's own "previous" and "next" buttons the list is
    the same and the cursor is still in [0, n-1]; a "next" press with the
    cursor at [n-1] and a "previous" press with the cursor at 0 return at
    once and leave the world, session included, exactly as it was. *)
Theorem C1_cursor_stays_in_range
    (v : view) (items : list json) (c : Z) (w : world) (cbs : list callback) :
  items <> [] ->
  in_session v items c w ->
  0 <= c < Z.of_nat (length items) ->
  Forall (nav_press v) cbs ->
  (exists c', in_session v items c' (run_presses cbs w) /\
              0 <= c' < Z.of_nat (length items)) /\
  (forall cb, cb_data cb = next_data v -> c = Z.of_nat (length items) - 1 ->
              dispatch_navigation cb w = (w, Ok tt)) /\
  (forall cb, cb_data cb = prev_data v -> c = 0 ->
              dispatch_navigation cb w = (w, Ok tt)).
Proof.
  intros _ Hs Hrange Hpresses. split; [|split].
  - revert c w Hs Hrange.
    induction Hpresses as [|cb cbs Hcb _ IH]; intros c w Hs Hrange.
    + exists c. split; assumption.
    + cbn [run_presses].
      destruct (nav_press_keeps_session v items c w cb Hs Hrange Hcb)
        as (c1 & Hs1 & Hr1).
      exact (IH c1 _ Hs1 Hr1).
  - intros cb Hd Hlast. destruct Hs as [Hl Hc].
    rewrite (dispatch_next v cb Hd).
    destruct (cb_message cb) as [chat|] eqn:Hm;
      [|apply handle_navigation_no_message; exact Hm].
    rewrite (handle_navigation_next v cb chat w c items Hm Hd
               (data_get_some _ _ _ _ Hc) (data_get_some _ _ _ _ Hl)).
    destruct (Z.ltb_spec c (Z.of_nat (length items) - 1)); [lia | reflexivity].
  - intros cb Hd Hfirst. destruct Hs as [Hl Hc].
    rewrite (dispatch_prev v cb Hd).
    destruct (cb_message cb) as [chat|] eqn:Hm;
      [|apply handle_navigation_no_message; exact Hm].
    rewrite (handle_navigation_prev v cb chat w c Hm Hd
               (data_get_some _ _ _ _ Hc)).
    destruct (Z.ltb_spec 0 c); [lia | reflexivity].
Qed.

Lemma C1_cursor_stays_in_range_witness :
  let items := [entry 603 "movie"; entry 1399 "tv"] in
  let cbs := [press "next_page"; press "next_page"; press "prev_page";
              press "prev_page"; press "next_page"] in
  (exists c', in_session Search items c' (run_presses cbs after_search) /\
              0 <= c' < Z.of_nat (length items)) /\
  (forall cb, cb_data cb = next_data Search ->
              0 = Z.of_nat (length items) - 1 ->
              dispatch_navigation cb after_search = (after_search, Ok tt)) /\
  (forall cb, cb_data cb = prev_data Search -> 0 = 0 ->
              dispatch_navigation cb after_search = (after_search, Ok tt)).
Proof.
  intros items cbs.
  apply (C1_cursor_stays_in_range Search items 0 after_search cbs).
  - discriminate.
  - split; reflexivity.
  - cbn; lia.
  - repeat (constructor; [(left; reflexivity) || (right; reflexivity)|]).
    constructor.
Defined.

(** Between the ends a press moves the cursor by one. *)
Lemma nav_press_moves v items c w cb chat :
  in_session v items c w ->
  cb_message cb = Some chat ->
  (cb_data cb = prev_data v -> 0 < c ->
     in_session v items (c - 1) (fst (dispatch_navigation cb w))) /\
  (cb_data cb = next_data v -> c < Z.of_nat (length items) - 1 ->
     in_session v items (c + 1) (fst (dispatch_navigation cb w))).
Proof.
  intros [Hl Hc] Hm.
  assert (Hmoved : forall results ct p,
             in_session v items p
               (fst (move_to chat results ct (renderer v) p w))).
  { intros results ct p. unfold in_session. rewrite move_to_fsm. split.
    - rewrite lookup_insert_ne by apply list_key_is_not_cursor. exact Hl.
    - apply lookup_insert_eq. }
  split; intros Hd Hlt.
  - rewrite (dispatch_prev v cb Hd).
    rewrite (handle_navigation_prev v cb chat w c Hm Hd
               (data_get_some _ _ _ _ Hc)).
    destruct (Z.ltb_spec 0 c); [apply Hmoved | lia].
  - rewrite (dispatch_next v cb Hd).
    rewrite (handle_navigation_next v cb chat w c items Hm Hd
               (data_get_some _ _ _ _ Hc) (data_get_some _ _ _ _ Hl)).
    destruct (Z.ltb_spec c (Z.of_nat (length items) - 1)); [apply Hmoved | lia].
Qed.

(** The favorites and similar views are moved by [handle_navigation] but
    not rendered: their renderers take four arguments and are given five,
    so a move ends in [TypeError] once the cursor is stored. *)
Lemma favorites_move_raises :
  let w := {| fsm := {[ k_favorites :=
                          VList [favorite_dict {| row_id := 1; user_id := 7;
                                   movie_id := 603; title := lit "The Matrix";
                                   poster_path := None |};
                                 favorite_dict {| row_id := 2; user_id := 7;
                                   movie_id := 550; title := lit "Fight Club";
                                   poster_path := None |}];
                        k_current_page := VInt 0 ]};
              db := empty_db; sent := [] |} in
  snd (dispatch_navigation (press "next_favorite") w) = Raise TypeError /\
  fsm (fst (dispatch_navigation (press "next_favorite") w)) !! k_current_page
    = Some (VInt 1) /\
  sent (fst (dispatch_navigation (press "next_favorite") w)) = [].
Proof. repeat split. Qed.

(** ** Navigation without a session *)

(** The claim as stated fails in both of its cases. With the list of the
    view missing while a cursor is stored ([update_data] merges, so the
    cursor of a search outlives the search), a "previous" press of the
    popular view finds cursor 1 and no popular list, stores cursor 0 and
    reads [results[0]] of the empty default. With the cursor missing while
    a list of two is stored, a "next" press takes the default cursor 0,
    stores cursor 1 and shows the second entry. *)
Lemma C10_counterexample :
  let w := run_presses [press "next_page"] after_search in
  let r := dispatch_navigation (press "prev_popular") w in
  let r' := dispatch_navigation (press "next_page") list_without_cursor in
  (fsm w !! k_popular_results = None /\
   fsm w !! k_current_page = Some (VInt 1) /\
   snd r = Raise IndexError /\
   fsm (fst r) !! k_current_page = Some (VInt 0) /\
   fst r <> w) /\
  (fsm list_without_cursor !! k_current_page = None /\
   snd r' = Ok tt /\
   fsm (fst r') !! k_current_page = Some (VInt 1) /\
   length (sent (fst r')) = 1%nat /\
   fst r' <> list_without_cursor).
Proof.
  split; repeat split; try reflexivity;
    intros H; apply (f_equal (fun x => fsm x !! k_current_page)) in H;
    discriminate H.
Qed.

(** C10, amended. When the FSM data hold no list for the view (or an
    empty one) and no cursor (or cursor 0), a press of either navigation
    button returns at once: nothing is indexed, nothing is raised and the
    world is unchanged. On a stored list with a cursor [c >= 0], a "next"
    press reads the list only at [c + 1] and only after the check
    [c < length - 1], so inside [0, length - 1], where the read succeeds;
    otherwise it returns at once. *)
Theorem C10_navigation_without_session
    (v : view) (cb : callback) (w : world) :
  nav_press v cb ->
  ((fsm w !! list_key v = None \/ fsm w !! list_key v = Some (VList [])) ->
   (fsm w !! k_current_page = None \/
    fsm w !! k_current_page = Some (VInt 0)) ->
   dispatch_navigation cb w = (w, Ok tt)) /\
  (forall items c,
      cb_data cb = next_data v -> in_session v items c w -> 0 <= c ->
      (c + 1 <= Z.of_nat (length items) - 1 /\
       (exists item, getitem (VList items) (c + 1) = Ok item) /\
       in_session v items (c + 1) (fst (dispatch_navigation cb w)) /\
       snd (dispatch_navigation cb w) <> Raise IndexError) \/
      dispatch_navigation cb w = (w, Ok tt)).
Proof.
  intros Hpress. split.
  - intros Hlist Hcur.
    assert (Hc : data_get (fsm w) k_current_page (VInt 0) = VInt 0).
    { destruct Hcur as [H|H];
        [apply data_get_none | apply data_get_some]; exact H. }
    assert (Hl : data_get (fsm w) (list_key v) (VList []) = VList []).
    { destruct Hlist as [H|H];
        [apply data_get_none | apply data_get_some]; exact H. }
    destruct (cb_message cb) as [chat|] eqn:Hm.
    + destruct Hpress as [Hd|Hd].
      * rewrite (dispatch_prev v cb Hd).
        rewrite (handle_navigation_prev v cb chat w 0 Hm Hd Hc). reflexivity.
      * rewrite (dispatch_next v cb Hd).
        rewrite (handle_navigation_next v cb chat w 0 [] Hm Hd Hc Hl).
        reflexivity.
    + destruct Hpress as [Hd|Hd];
        [rewrite (dispatch_prev v cb Hd) | rewrite (dispatch_next v cb Hd)];
        apply handle_navigation_no_message; exact Hm.
  - intros items c Hd [Hl Hc] Hpos.
    rewrite (dispatch_next v cb Hd).
    destruct (cb_message cb) as [chat|] eqn:Hm.
    + rewrite (handle_navigation_next v cb chat w c items Hm Hd
                 (data_get_some _ _ _ _ Hc) (data_get_some _ _ _ _ Hl)).
      destruct (Z.ltb_spec c (Z.of_nat (length items) - 1)) as [Hlt|Hge].
      * left.
        assert (Hitem : exists item, getitem (VList items) (c + 1) = Ok item).
        { cbn [getitem]. unfold index.
          destruct (Z.ltb_spec (c + 1) 0); [lia|].
          destruct (Z.leb_spec 0 (c + 1)); [|lia].
          destruct (Z.ltb_spec (c + 1) (Z.of_nat (length items))); [|lia].
          cbn [andb].
          destruct (lookup_lt_is_Some_2 items (Z.to_nat (c + 1)) ltac:(lia))
            as [item Hitem].
          rewrite Hitem. eexists. reflexivity. }
        split; [lia|]. split; [exact Hitem|]. split.
        -- unfold in_session. rewrite move_to_fsm. split.
           ++ rewrite lookup_insert_ne by apply list_key_is_not_cursor.
              exact Hl.
           ++ apply lookup_insert_eq.
        -- destruct Hitem as [item Hitem].
           unfold move_to. unfold bind at 1. rewrite update_data_spec.
           unfold bind at 1. unfold lift at 1. rewrite Hitem.
           unfold bind at 1. unfold lift at 1. cbn [len].
           destruct v; cbn [renderer call_show]; try discriminate;
             unfold show_search_results, show_popular_content, show_card;
             destruct item; try discriminate;
             (destruct (negb (truthy (obj_get o (lit "id") JNull)));
              [discriminate|]);
             unfold bind, lift, release_year, slice_to;
             destruct (obj_get o (lit "release_date")
                         (obj_get o (lit "first_air_date") (JStr unknown)));
             discriminate.
      * right. reflexivity.
    + right. apply handle_navigation_no_message. exact Hm.
Qed.

Lemma C10_navigation_without_session_witness :
  let cb := press "next_popular" in
  ((fsm blank !! list_key Popular = None \/
    fsm blank !! list_key Popular = Some (VList [])) ->
   (fsm blank !! k_current_page = None \/
    fsm blank !! k_current_page = Some (VInt 0)) ->
   dispatch_navigation cb blank = (blank, Ok tt)) /\
  (forall items c,
      cb_data cb = next_data Popular -> in_session Popular items c blank ->
      0 <= c ->
      (c + 1 <= Z.of_nat (length items) - 1 /\
       (exists item, getitem (VList items) (c + 1) = Ok item) /\
       in_session Popular items (c + 1) (fst (dispatch_navigation cb blank)) /\
       snd (dispatch_navigation cb blank) <> Raise IndexError) \/
      dispatch_navigation cb blank = (blank, Ok tt)).
Proof.
  intros cb.
  apply (C10_navigation_without_session Popular cb blank).
  right. reflexivity.
Defined.

(** ** Removing the favorite on display *)

Lemma other_id_favorite mid r :
  other_id mid (favorite_dict r) = Ok (negb (movie_id r =? mid)).
Proof. reflexivity. Qed.

Lemma filterM_other_id mid favs :
  filterM (other_id mid) (map favorite_dict favs)
  = Ok (map favorite_dict (kept_rows mid favs)).
Proof.
  unfold kept_rows. induction favs as [|r favs IH]; [reflexivity|].
  cbn [map filterM List.filter]. rewrite other_id_favorite, IH.
  cbn [rbind]. destruct (negb (movie_id r =? mid)); reflexivity.
Qed.

Lemma kept_and_copies mid favs :
  (length (kept_rows mid favs) + copies mid favs = length favs)%nat.
Proof.
  unfold kept_rows, copies. induction favs as [|r favs IH]; [reflexivity|].
  cbn [List.filter]. destruct (movie_id r =? mid); cbn [negb length]; lia.
Qed.

Lemma copies_positive mid favs i r :
  favs !! i = Some r -> movie_id r = mid -> (1 <= copies mid favs)%nat.
Proof.
  intros Hi Hr. unfold copies.
  assert (Hin : In r (List.filter (fun r => movie_id r =? mid) favs)).
  { apply List.filter_In. split.
    - apply list_elem_of_In. eapply list_elem_of_lookup_2. exact Hi.
    - apply Z.eqb_eq. exact Hr. }
  destruct (List.filter (fun r => movie_id r =? mid) favs);
    [destruct Hin | cbn; lia].
Qed.

Lemma show_favorites_page_favorite chat r p n w :
  snd (show_favorites_page chat (favorite_dict r) p n w) = Ok tt.
Proof.
  unfold show_favorites_page, show_card, favorite_dict.
  change (obj_get _ (lit "id") JNull) with (JInt (movie_id r)).
  destruct (negb (truthy (JInt (movie_id r)))); reflexivity.
Qed.

Lemma index_map_in_range {A B} (g : A -> B) (l : list A) (p : Z) :
  0 <= p < Z.of_nat (length l) ->
  exists x, l !! Z.to_nat p = Some x /\ index (map g l) p = Ok (g x).
Proof.
  intros Hp. unfold index. rewrite length_map.
  destruct (Z.ltb_spec p 0); [lia|].
  destruct (Z.leb_spec 0 p); [|lia].
  destruct (Z.ltb_spec p (Z.of_nat (length l))); [|lia].
  cbn [andb].
  destruct (lookup_lt_is_Some_2 l (Z.to_nat p) ltac:(lia)) as [x Hx].
  exists x. split; [exact Hx|].
  rewrite list_lookup_fmap, Hx. reflexivity.
Qed.

Lemma remove_from_favorites_unfold f cb w chat favs c mid :
  cb_message cb = Some chat ->
  py_int (last_segment (cb_data cb)) = Some mid ->
  snd (remove_favorite f (db w) (cb_from_user cb) mid) = Ok true ->
  fsm w !! k_favorites = Some (VList (map favorite_dict favs)) ->
  fsm w !! k_current_page = Some (VInt c) ->
  remove_from_favorites f cb w
  = rerender chat c (map favorite_dict (kept_rows mid favs))
      {| fsm := fsm w;
         db := delete_rows (db w) (cb_from_user cb) mid;
         sent := sent w ++ [Answer RemovedFromFavorites] |}.
Proof.
  intros Hm Hparse Hrem Hl Hc.
  unfold remove_from_favorites. rewrite Hm.
  destruct (String.eqb_spec (cb_data cb) "") as [E|_].
  { rewrite E in Hparse. discriminate Hparse. }
  rewrite Hparse.
  unfold bind at 1. unfold db_step.
  destruct (remove_favorite f (db w) (cb_from_user cb) mid) as [d r] eqn:Erem.
  cbn [snd] in Hrem. subst r.
  apply DatabaseProofs.remove_favorite_ok in Erem. subst d.
  unfold bind at 1. rewrite emit_spec. cbn [fsm db sent].
  unfold bind at 1. unfold get_data. cbn [fsm].
  rewrite (data_get_some _ _ _ _ Hl), (data_get_some _ _ _ _ Hc).
  unfold bind at 1. unfold lift at 1. cbn [iter].
  unfold bind at 1. unfold lift at 1. rewrite filterM_other_id.
  unfold rerender.
  destruct (map favorite_dict (kept_rows mid favs)) as [|j js]; [reflexivity|].
  cbn [ge_int]. unfold bind at 1. unfold lift at 1.
  destruct (Z.of_nat (length (j :: js)) <=? c); reflexivity.
Qed.

(** The run of [remove_from_favorites] on a favorites session, once the
    store has answered [True]. *)
Lemma remove_from_favorites_run f cb w chat favs c mid :
  cb_message cb = Some chat ->
  py_int (last_segment (cb_data cb)) = Some mid ->
  snd (remove_favorite f (db w) (cb_from_user cb) mid) = Ok true ->
  fsm w !! k_favorites = Some (VList (map favorite_dict favs)) ->
  fsm w !! k_current_page = Some (VInt c) ->
  0 <= c ->
  let kept := kept_rows mid favs in
  let n := Z.of_nat (length kept) in
  let out := remove_from_favorites f cb w in
  snd out = Ok tt /\
  db (fst out) = delete_rows (db w) (cb_from_user cb) mid /\
  match kept with
  | [] =>
      fsm (fst out) = fsm w /\
      sent (fst out)
      = sent w ++ [Answer RemovedFromFavorites;
                   SendNotice chat NoFavoritesYet back_keyboard]
  | _ :: _ =>
      fsm (fst out)
      = <[k_current_page := VInt (Z.min c (n - 1))]>
          (<[k_favorites := VList (map favorite_dict kept)]> (fsm w))
  end.
Proof.
  intros Hm Hparse Hrem Hl Hc Hpos kept n out. subst out.
  rewrite (remove_from_favorites_unfold f cb w chat favs c mid
             Hm Hparse Hrem Hl Hc).
  fold kept. unfold rerender.
  destruct kept as [|r0 kept'] eqn:Ekept.
  - cbn [map]. rewrite emit_spec. cbn [fst snd fsm db sent].
    rewrite <- app_assoc. repeat split.
  - assert (Hn : 0 < n) by (subst n; cbn [length]; lia).
    cbn [map]. cbv iota. cbv zeta.
    change (favorite_dict r0 :: map favorite_dict kept')
      with (map favorite_dict (r0 :: kept')).
    rewrite length_map. fold n.
    replace (if n <=? c then n - 1 else c) with (Z.min c (n - 1))
      by (destruct (Z.leb_spec n c); lia).
    destruct (index_map_in_range favorite_dict (r0 :: kept') (Z.min c (n - 1))
                ltac:(fold n; lia)) as (x & _ & Hx).
    match goal with
    | |- context [bind ?m ?k ?w1] =>
        assert (Hrun : bind m k w1
                = show_favorites_page chat (favorite_dict x)
                    (Z.min c (n - 1)) n
                    {| fsm := <[k_current_page := VInt (Z.min c (n - 1))]>
                                (<[k_favorites :=
                                     VList (map favorite_dict (r0 :: kept'))]>
                                   (fsm w));
                       db := delete_rows (db w) (cb_from_user cb) mid;
                       sent := sent w ++ [Answer RemovedFromFavorites] |})
          by (unfold bind, lift; rewrite update_data_spec, Hx; reflexivity);
        rewrite Hrun
    end.
    rewrite show_favorites_page_favorite.
    split; [reflexivity|]. split.
    + apply show_card_keeps.
    + rewrite show_favorites_page_keeps. reflexivity.
Qed.

(** The claim as stated fails on a list with the same content twice, which
    the store allows: adding film 550 twice and opening the favorites gives
    a session of length 2; removing the film on display drops both entries
    and ends in the empty-state notice instead of a session of length 1. *)
Lemma C2_counterexample :
  let w := favorites_opened [550; 550] in
  let out := remove_from_favorites no_faults (press "remove_favorite_550") w in
  (exists i1 i2, in_session Favorites [i1; i2] 0 w) /\
  snd out = Ok tt /\
  last (sent (fst out)) = Some (SendNotice 1 NoFavoritesYet back_keyboard) /\
  rows (db (fst out)) = [] /\
  (forall i c, ~ in_session Favorites [i] c (fst out)).
Proof.
  split; [|split; [|split; [|split]]]; try reflexivity.
  - do 2 eexists. split; reflexivity.
  - intros i c [H _]. discriminate H.
Qed.

(** C2, amended. In a favorites session of [n] entries with the cursor on
    an entry whose content id the list holds [k] times, removing the entry
    on display (the store answering success) deletes the rows of that
    content from the store and all [k] entries from the list. When
    [k < n] the session that results has [n - k] entries, the others in
    their order, and its cursor is the old one clamped to the new last
    index, so in [0, n-k-1]: for a content held once, length [n - 1] and a
    cursor in [0, n-2]. When [k = n], in particular when [n = 1], the
    handler ends with the empty-state notice. *)
Theorem C2_remove_current
    (f : faults) (cb : callback) (w : world) (chat : Z)
    (favs : list row) (c : Z) (cur : row) :
  cb_message cb = Some chat ->
  py_int (last_segment (cb_data cb)) = Some (movie_id cur) ->
  snd (remove_favorite f (db w) (cb_from_user cb) (movie_id cur)) = Ok true ->
  in_session Favorites (map favorite_dict favs) c w ->
  0 <= c ->
  favs !! Z.to_nat c = Some cur ->
  let kept := kept_rows (movie_id cur) favs in
  let n := Z.of_nat (length favs) in
  let k := Z.of_nat (copies (movie_id cur) favs) in
  let out := remove_from_favorites f cb w in
  snd out = Ok tt /\
  db (fst out) = delete_rows (db w) (cb_from_user cb) (movie_id cur) /\
  1 <= k <= n /\
  Z.of_nat (length kept) = n - k /\
  if k <? n
  then in_session Favorites (map favorite_dict kept)
         (Z.min c (n - k - 1)) (fst out) /\
       0 <= Z.min c (n - k - 1) <= n - k - 1
  else last (sent (fst out))
       = Some (SendNotice chat NoFavoritesYet back_keyboard).
Proof.
  intros Hm Hparse Hrem [Hl Hc] Hpos Hcur kept n k out.
  pose proof (kept_and_copies (movie_id cur) favs) as Hsum.
  pose proof (copies_positive (movie_id cur) favs _ cur Hcur eq_refl) as Hk.
  fold kept in Hsum.
  destruct (remove_from_favorites_run f cb w chat favs c (movie_id cur)
              Hm Hparse Hrem Hl Hc Hpos) as (Hres & Hdb & Hstate).
  fold kept out in Hres, Hdb, Hstate.
  split; [exact Hres|]. split; [exact Hdb|].
  split; [subst k n; lia|]. split; [subst k n; lia|].
  destruct (Z.ltb_spec k n) as [Hlt|Hge].
  - destruct kept as [|r0 kept'] eqn:Ekept.
    + cbn [length] in Hsum. subst k n. lia.
    + replace (n - k - 1) with (Z.of_nat (length (r0 :: kept')) - 1)
        by (subst k n; lia).
      split; [|lia].
      unfold in_session. rewrite Hstate. split.
      * rewrite lookup_insert_ne by discriminate. apply lookup_insert_eq.
      * apply lookup_insert_eq.
  - destruct kept as [|r0 kept'] eqn:Ekept.
    + destruct Hstate as [_ Hsent]. rewrite Hsent.
      change [Answer RemovedFromFavorites;
              SendNotice chat NoFavoritesYet back_keyboard]
        with ([Answer RemovedFromFavorites]
              ++ [SendNotice chat NoFavoritesYet back_keyboard]).
      rewrite app_assoc. apply last_snoc.
    + cbn [length] in Hsum. subst k n. lia.
Qed.

Lemma C2_remove_current_witness :
  let favs := [{| row_id := 1; user_id := 7; movie_id := 603;
                  title := lit "title"; poster_path := None |};
               {| row_id := 2; user_id := 7; movie_id := 550;
                  title := lit "title"; poster_path := None |}] in
  let kept := [{| row_id := 1; user_id := 7; movie_id := 603;
                  title := lit "title"; poster_path := None |}] in
  let out := remove_from_favorites no_faults (press "remove_favorite_550")
               on_second_favorite in
  snd out = Ok tt /\
  db (fst out) = delete_rows (db on_second_favorite) 7 550 /\
  1 <= 1 <= 2 /\
  Z.of_nat (length kept) = 2 - 1 /\
  (in_session Favorites (map favorite_dict kept) 0 (fst out) /\
   0 <= 0 <= 2 - 1 - 1).
Proof.
  intros favs kept.
  apply (C2_remove_current no_faults (press "remove_favorite_550")
           on_second_favorite 1 favs 1
           {| row_id := 2; user_id := 7; movie_id := 550;
              title := lit "title"; poster_path := None |});
    try reflexivity.
  - split; reflexivity.
  - lia.
Defined.

(** In the empty case nothing is written to the session: the list and the
    cursor stored before the removal stay in the FSM data. *)
Lemma remove_last_keeps_fsm f cb w chat favs c mid :
  cb_message cb = Some chat ->
  py_int (last_segment (cb_data cb)) = Some mid ->
  snd (remove_favorite f (db w) (cb_from_user cb) mid) = Ok true ->
  fsm w !! k_favorites = Some (VList (map favorite_dict favs)) ->
  fsm w !! k_current_page = Some (VInt c) ->
  0 <= c ->
  kept_rows mid favs = [] ->
  fsm (fst (remove_from_favorites f cb w)) = fsm w.
Proof.
  intros Hm Hparse Hrem Hl Hc Hpos Hkept.
  destruct (remove_from_favorites_run f cb w chat favs c mid
              Hm Hparse Hrem Hl Hc Hpos) as (_ & _ & Hstate).
  rewrite Hkept in Hstate. apply Hstate.
Qed.

End BotProofs.

(* ===================================================================== *)
(** * Further properties of the fetcher                                   *)
(* ===================================================================== *)

Module FetcherExtra.
Import Py Fetcher FetcherSpec ExtraSpec.

Lemma outer_try_by_outcome max_retries retry_delay a o :
  match succeeds o with
  | Some v => outer_try max_retries retry_delay a o = ([], Return v)
  | None =>
      exists evs, outer_try max_retries retry_delay a o = (evs, Continue) /\
                  requests evs = 0%nat
  end.
Proof.
  assert (Hb : requests (backoff max_retries retry_delay a) = 0%nat).
  { unfold backoff. destruct (a <? max_retries - 1); reflexivity. }
  unfold succeeds, outer_try, inner_try, on_response.
  destruct o as [status h b| |]; cbn.
  - destruct (status =? 200).
    + destruct b; [reflexivity | eexists; split; [reflexivity|exact Hb] ..].
    + destruct b; (destruct (status =? 429);
        [destruct h|]; eexists; (split; [reflexivity|]));
        try exact Hb; reflexivity.
  - eexists. split; [reflexivity | exact Hb].
  - eexists. split; [reflexivity | exact Hb].
Qed.

Lemma requests_step a evs rest :
  requests evs = 0%nat ->
  requests (Get a :: evs ++ rest) = S (requests rest).
Proof.
  intros H. rewrite FetcherProofs.requests_cons_get, FetcherProofs.requests_app, H.
  reflexivity.
Qed.

Lemma succeeds_met env (i : nat) :
  succeeds (met env (Z.of_nat i))
  = match i with O => succeeds (env 0%nat) | S _ => None end.
Proof.
  destruct i as [|i]; [reflexivity|].
  rewrite FetcherProofs.met_later by lia. reflexivity.
Qed.

(** A run whose first attempt, when it is still to be made, does not
    succeed: no later attempt does. *)
Lemma attempts_after_failure max_retries retry_delay env :
  forall (todo i : nat),
    (i = 0%nat -> todo <> 0%nat -> succeeds (env 0%nat) = None) ->
    snd (attempts max_retries retry_delay env todo (Z.of_nat i))
      = Raise (APIError MaxRetriesExceeded) /\
    requests (fst (attempts max_retries retry_delay env todo (Z.of_nat i)))
      = todo.
Proof.
  induction todo as [|todo IH]; intros i Hnone; [split; reflexivity|].
  cbn [attempts].
  pose proof (outer_try_by_outcome max_retries retry_delay (Z.of_nat i)
                (met env (Z.of_nat i))) as Hstep.
  rewrite succeeds_met in Hstep.
  assert (Hi : match i with O => succeeds (env 0%nat) | S _ => None end = None).
  { destruct i; [apply Hnone; [reflexivity | discriminate] | reflexivity]. }
  rewrite Hi in Hstep. destruct Hstep as (evs & -> & Hevs).
  replace (Z.of_nat i + 1) with (Z.of_nat (S i)) by lia.
  destruct (IH (S i) ltac:(discriminate)) as [Hres Hreq].
  destruct (attempts max_retries retry_delay env todo (Z.of_nat (S i)))
    as [rest r].
  cbn [fst snd] in *. split; [exact Hres|].
  rewrite requests_step by exact Hevs. f_equal. exact Hreq.
Qed.

(** A run on a provider none of whose next [todo] attempts succeeds. *)
Lemma attempts_without_success max_retries retry_delay env :
  forall (todo i : nat),
    (forall j, (i <= j < i + todo)%nat -> succeeds (env j) = None) ->
    snd (attempts max_retries retry_delay env todo (Z.of_nat i))
      = Raise (APIError MaxRetriesExceeded) /\
    requests (fst (attempts max_retries retry_delay env todo (Z.of_nat i)))
      = todo.
Proof.
  intros todo i Hnone. apply attempts_after_failure.
  intros -> Htodo. apply Hnone. lia.
Qed.

(** X1. [make_api_request] returns a body exactly when [max_retries] is
    positive and the first attempt is answered 200 with a body that parses,
    and then it has called [session.get] once and slept nothing.  A retry
    never succeeds: the connector built before the loop is closed with the
    session of the first iteration, so when the first attempt does not
    succeed the run makes its [max_retries] attempts and raises
    [APIError("Max retries exceeded")], whatever the provider would answer
    to a later request. *)
Theorem fetch_succeeds_on_first_attempt_only
    (max_retries retry_delay : Z) (env : provider) :
  let run := make_api_request max_retries retry_delay env in
  (forall v, snd run = Ok v <->
             0 < max_retries /\ succeeds (env 0%nat) = Some v) /\
  (forall v, snd run = Ok v -> fst run = [Get 0]) /\
  (succeeds (env 0%nat) = None ->
   snd run = Raise (APIError MaxRetriesExceeded) /\
   requests (fst run) = Z.to_nat max_retries).
Proof.
  intros run. subst run. unfold make_api_request.
  destruct (Z.to_nat max_retries) as [|todo] eqn:Eb.
  - cbn [attempts fst snd]. repeat split; try discriminate.
    intros [Hpos _]. lia.
  - assert (Hpos : 0 < max_retries) by lia.
    destruct (succeeds (env 0%nat)) as [v0|] eqn:Es.
    + cbn [attempts]. rewrite FetcherProofs.met_first.
      pose proof (outer_try_by_outcome max_retries retry_delay 0 (env 0%nat))
        as Hstep.
      rewrite Es in Hstep. rewrite Hstep. cbn [fst snd].
      repeat split; try discriminate; try congruence.
      intros [_ H]. congruence.
    + destruct (attempts_after_failure max_retries retry_delay env (S todo) 0
                  ltac:(intros _ _; exact Es)) as [Hres Hreq].
      change (Z.of_nat 0) with 0 in Hres, Hreq.
      rewrite Hres. repeat split; try discriminate; try assumption.
      intros [_ H]. discriminate.
Qed.

(** X2. When none of the first [max_retries] attempts is answered 200 with
    a body that parses, [make_api_request] makes exactly [max_retries]
    attempts and raises [APIError("Max retries exceeded")], whatever mix of
    faults, statuses and rate limits the attempts met. *)
Theorem fetch_exhausts_without_success
    (max_retries retry_delay : Z) (env : provider) :
  (forall j, Z.of_nat j < max_retries -> succeeds (env j) = None) ->
  snd (make_api_request max_retries retry_delay env)
    = Raise (APIError MaxRetriesExceeded) /\
  requests (fst (make_api_request max_retries retry_delay env))
    = Z.to_nat max_retries.
Proof.
  intros Hnone. unfold make_api_request.
  apply (attempts_without_success max_retries retry_delay env
           (Z.to_nat max_retries) 0).
  intros j Hj. apply Hnone. lia.
Qed.

Lemma fetch_exhausts_without_success_witness :
  let env : provider := fun n =>
    match n with
    | O => Response 404 HeaderAbsent (BodyJson JNull)
    | S O => Response 429 (HeaderInt 5) (BodyJson JNull)
    | _ => Response 200 HeaderAbsent BodyOtherError
    end in
  snd (make_api_request 3 1 env) = Raise (APIError MaxRetriesExceeded) /\
  requests (fst (make_api_request 3 1 env)) = 3%nat.
Proof.
  intros env. apply (fetch_exhausts_without_success 3 1 env).
  intros j Hj. destruct j as [|[|j]]; reflexivity.
Defined.

(** X3. Whatever the provider does and whatever the parameters are,
    [make_api_request] ends in one of two ways, a parsed body or
    [APIError("Max retries exceeded")]; the error raised for a status, an
    aiohttp error or a [ValueError] never reaches the caller. It never makes
    more than [max_retries] attempts, and none at all when [max_retries] is
    not positive. *)
Theorem fetch_outcomes_and_bound
    (max_retries retry_delay : Z) (env : provider) :
  ((exists v, snd (make_api_request max_retries retry_delay env) = Ok v) \/
   snd (make_api_request max_retries retry_delay env)
     = Raise (APIError MaxRetriesExceeded)) /\
  (requests (fst (make_api_request max_retries retry_delay env))
     <= Z.to_nat max_retries)%nat.
Proof.
  unfold make_api_request. generalize (Z.to_nat max_retries) as todo.
  change 0 with (Z.of_nat 0). generalize 0%nat as i.
  intros i todo. revert i. induction todo as [|todo IH]; intros i.
  - split; [right; reflexivity | reflexivity].
  - cbn [attempts].
    pose proof (outer_try_by_outcome max_retries retry_delay (Z.of_nat i)
                  (met env (Z.of_nat i))) as Hstep.
    destruct (succeeds (met env (Z.of_nat i))) as [v|].
    + rewrite Hstep. split; [left; eexists; reflexivity | cbn; lia].
    + destruct Hstep as (evs & -> & Hevs).
      replace (Z.of_nat i + 1) with (Z.of_nat (S i)) by lia.
      destruct (IH (S i)) as [Hres Hreq].
      destruct (attempts max_retries retry_delay env todo (Z.of_nat (S i)))
        as [rest r].
      cbn [fst snd] in *. split; [exact Hres|].
      rewrite requests_step by exact Hevs. lia.
Qed.

Lemma outer_try_backs_off max_retries retry_delay a o :
  backs_off o = true ->
  outer_try max_retries retry_delay a o
  = (backoff max_retries retry_delay a, Continue).
Proof.
  intros Hb. unfold outer_try, inner_try, on_response.
  destruct o as [status h b| |]; cbn in *; try reflexivity.
  destruct (status =? 200).
  - destruct b; [discriminate | reflexivity | reflexivity].
  - destruct (status =? 429); [|reflexivity].
    destruct h; [discriminate | discriminate | reflexivity].
Qed.

Lemma total_sleep_backoff_schedule d todo (i : nat) :
  total_sleep (backoff_schedule d (S todo) (Z.of_nat i))
  = d * 2 ^ Z.of_nat i * (2 ^ Z.of_nat todo - 1).
Proof.
  revert i. induction todo as [|todo IH]; intros i.
  - cbn. lia.
  - change (backoff_schedule d (S (S todo)) (Z.of_nat i))
      with (Get (Z.of_nat i) :: Sleep (d * 2 ^ Z.of_nat i)
              :: backoff_schedule d (S todo) (Z.of_nat i + 1)).
    change (total_sleep (Get ?a :: Sleep ?s :: ?t)) with (s + total_sleep t).
    replace (Z.of_nat i + 1) with (Z.of_nat (S i)) by lia.
    rewrite IH.
    replace (Z.of_nat (S i)) with (Z.of_nat i + 1) by lia.
    replace (Z.of_nat (S todo)) with (Z.of_nat todo + 1) by lia.
    rewrite !Z.pow_add_r by lia. change (2 ^ 1) with 2. ring.
Qed.

(** X4. When the first attempt fails in a way that is retried with backoff
    (a fault, a status that is neither 200 nor 429, a 200 whose body does
    not parse, a 429 whose [Retry-After] is unreadable), the rest of the
    run is fixed, whatever the provider would answer to a later request:
    [max_retries] attempts, the wait [retry_delay * 2^j] after attempt [j]
    for each [j] up to [max_retries - 2], nothing after the last, and
    [APIError("Max retries exceeded")].  The time slept is
    [retry_delay * (2^(max_retries - 1) - 1)]. *)
Theorem fetch_backoff_after_first_failure
    (max_retries retry_delay : Z) (env : provider) :
  0 < max_retries ->
  backs_off (env 0%nat) = true ->
  make_api_request max_retries retry_delay env
    = (backoff_schedule retry_delay (Z.to_nat max_retries) 0,
       Raise (APIError MaxRetriesExceeded)) /\
  sleeps (fst (make_api_request max_retries retry_delay env))
    = map (fun j => retry_delay * 2 ^ j) (seqZ 0 (max_retries - 1)) /\
  total_sleep (fst (make_api_request max_retries retry_delay env))
    = retry_delay * (2 ^ (max_retries - 1) - 1).
Proof.
  intros Hpos Hback.
  assert (Hrun : make_api_request max_retries retry_delay env
                 = (backoff_schedule retry_delay (Z.to_nat max_retries) 0,
                    Raise (APIError MaxRetriesExceeded))).
  { unfold make_api_request.
    apply FetcherProofs.attempts_never_succeeding; [|lia].
    intros a _. unfold met. destruct (Z.eqb_spec a 0) as [->|Ha].
    - apply outer_try_backs_off. exact Hback.
    - apply FetcherProofs.outer_try_other_fault. }
  rewrite Hrun. cbn [fst]. split; [reflexivity|].
  destruct (Z.to_nat max_retries) as [|todo] eqn:Eb; [lia|].
  split.
  - rewrite FetcherProofs.sleeps_backoff_schedule. do 2 f_equal. lia.
  - change 0 with (Z.of_nat 0) at 1.
    rewrite total_sleep_backoff_schedule.
    replace (max_retries - 1) with (Z.of_nat todo) by lia.
    change (Z.of_nat 0) with 0. change (2 ^ 0) with 1. ring.
Qed.

Lemma fetch_backoff_after_first_failure_witness :
  let env : provider := fun n =>
    match n with
    | O => Response 503 HeaderAbsent (BodyJson JNull)
    | S _ => Response 200 HeaderAbsent (BodyJson (JObj []))
    end in
  make_api_request 3 1 env
    = ([Get 0; Sleep 1; Get 1; Sleep 2; Get 2],
       Raise (APIError MaxRetriesExceeded)) /\
  sleeps (fst (make_api_request 3 1 env)) = [1; 2] /\
  total_sleep (fst (make_api_request 3 1 env)) = 3.
Proof.
  intros env.
  apply (fetch_backoff_after_first_failure 3 1 env); [lia | reflexivity].
Defined.

End FetcherExtra.

(* ===================================================================== *)
(** * Further properties of the favorites store                           *)
(* ===================================================================== *)

Module DatabaseExtra.
Import Py Database DatabaseSpec ExtraSpec.

Lemma increasing_keys_weaken b b' l :
  b' <= b -> increasing_keys b l -> increasing_keys b' l.
Proof. destruct l as [|r l]; cbn; [trivial | intros Hb [H1 H2]; split; [lia | exact H2]]. Qed.

Lemma increasing_keys_filter p b l :
  increasing_keys b l -> increasing_keys b (List.filter p l).
Proof.
  revert b. induction l as [|r l IH]; intros b; cbn; [trivial|].
  intros [H1 H2]. destruct (p r); cbn.
  - split; [exact H1 | apply IH; exact H2].
  - apply IH. apply (increasing_keys_weaken (row_id r)); [lia | exact H2].
Qed.

Lemma increasing_keys_snoc b l r :
  increasing_keys b l ->
  (forall x, In x l -> row_id x < row_id r) ->
  b < row_id r ->
  increasing_keys b (l ++ [r]).
Proof.
  revert b. induction l as [|x l IH]; intros b; cbn.
  - intros _ _ Hb. split; [exact Hb | exact I].
  - intros [H1 H2] Hall Hb. split; [exact H1|].
    apply IH; [exact H2 | intros y Hy; apply Hall; right; exact Hy |].
    apply Hall. left. reflexivity.
Qed.

Lemma increasing_keys_above b l :
  increasing_keys b l -> forall r, In r l -> b < row_id r.
Proof.
  revert b. induction l as [|x l IH]; intros b; cbn; [intros _ r []|].
  intros [H1 H2] r [<-|Hr]; [exact H1|].
  pose proof (IH _ H2 r Hr). lia.
Qed.

Lemma increasing_keys_nodup b l :
  increasing_keys b l -> NoDup (map row_id l).
Proof.
  revert b. induction l as [|x l IH]; intros b; cbn; [constructor|].
  intros [H1 H2]. constructor; [|apply (IH _ H2)].
  intros Hin. apply list_elem_of_In, in_map_iff in Hin.
  destruct Hin as (r & Hr & Hin).
  pose proof (increasing_keys_above _ _ H2 r Hin). lia.
Qed.

(** What a writing operation can leave behind: the store it found, or the
    store with its statement applied. *)
Lemma add_favorite_store f d u m t p :
  fst (add_favorite f d u m t p) = d \/
  fst (add_favorite f d u m t p) = insert_row d u m t p.
Proof.
  unfold add_favorite, write_block, get_db_connection.
  destruct (connect_fails f), (execute_fails f), (commit_fails f); cbn; auto.
Qed.

Lemma remove_favorite_store f d u m :
  fst (remove_favorite f d u m) = d \/
  fst (remove_favorite f d u m) = delete_rows d u m.
Proof.
  unfold remove_favorite, write_block, get_db_connection.
  destruct (connect_fails f), (execute_fails f), (commit_fails f); cbn; auto.
Qed.

Lemma keyed_insert d u m t p : keyed d -> keyed (insert_row d u m t p).
Proof.
  intros (Hinc & Hle & H0). unfold keyed, insert_row. cbn [rows last_id].
  split; [|split].
  - apply increasing_keys_snoc; cbn [row_id]; [exact Hinc | | lia].
    intros x Hx. pose proof (Hle x Hx). lia.
  - intros r Hr. apply in_app_or in Hr. destruct Hr as [Hr|[<-|[]]].
    + pose proof (Hle r Hr). lia.
    + cbn. lia.
  - lia.
Qed.

Lemma keyed_delete d u m : keyed d -> keyed (delete_rows d u m).
Proof.
  intros (Hinc & Hle & H0). unfold keyed, delete_rows. cbn [rows last_id].
  split; [|split].
  - apply increasing_keys_filter. exact Hinc.
  - intros r Hr. apply List.filter_In in Hr. apply Hle. tauto.
  - exact H0.
Qed.

Lemma keyed_after o d : keyed d -> keyed (store_after o d).
Proof.
  intros H. destruct o as [f u m t p|f u m]; cbn [store_after].
  - destruct (add_favorite_store f d u m t p) as [-> | ->];
      [exact H | apply keyed_insert; exact H].
  - destruct (remove_favorite_store f d u m) as [-> | ->];
      [exact H | apply keyed_delete; exact H].
Qed.

Lemma last_id_after o d : last_id d <= last_id (store_after o d).
Proof.
  destruct o as [f u m t p|f u m]; cbn [store_after].
  - destruct (add_favorite_store f d u m t p) as [-> | ->]; cbn; lia.
  - destruct (remove_favorite_store f d u m) as [-> | ->]; cbn; lia.
Qed.

Lemma keyed_after_all ops d : keyed d -> keyed (store_after_all ops d).
Proof.
  revert d. induction ops as [|o ops IH]; intros d H; [exact H|].
  apply IH, keyed_after, H.
Qed.

Lemma last_id_after_all ops d : last_id d <= last_id (store_after_all ops d).
Proof.
  revert d. induction ops as [|o ops IH]; intros d; [cbn; lia|].
  cbn [store_after_all foldl]. pose proof (last_id_after o d).
  pose proof (IH (store_after o d)). unfold store_after_all in *. lia.
Qed.

(** X5. In the store reached from the empty one by any sequence of adds
    and removes, whatever faults they meet, the keys of the rows are
    positive, pairwise distinct and grow along the table, none exceeds the
    last key given, and the last key given never goes down as more calls
    follow: a new row always gets a key above every key given before, that
    of a deleted row included. *)
Theorem store_keys_are_fresh (ops more : list store_op) :
  let d := store_after_all ops empty_db in
  increasing_keys 0 (rows d) /\
  NoDup (map row_id (rows d)) /\
  (forall r, In r (rows d) -> 0 < row_id r <= last_id d) /\
  last_id d <= last_id (store_after_all (ops ++ more) empty_db) /\
  (forall u m t p r,
      In r (rows d) ->
      row_id r < last_id (insert_row d u m t p)).
Proof.
  intros d.
  assert (Hk : keyed d).
  { apply keyed_after_all. split; [exact I|].
    split; [intros r [] | cbn; lia]. }
  destruct Hk as (Hinc & Hle & H0).
  split; [exact Hinc|]. split; [apply (increasing_keys_nodup 0), Hinc|].
  split; [|split].
  - intros r Hr. split; [apply (increasing_keys_above 0 _ Hinc r Hr)|].
    apply Hle, Hr.
  - unfold store_after_all. rewrite foldl_app.
    apply (last_id_after_all more).
  - intros u m t p r Hr. cbn. pose proof (Hle r Hr). lia.
Qed.

Lemma select_delete_other d u m v :
  u <> v -> select_rows (delete_rows d u m) v = select_rows d v.
Proof.
  intros Huv. unfold select_rows, delete_rows. cbn [rows].
  induction (rows d) as [|r l IH]; [reflexivity|].
  cbn [List.filter].
  destruct (Z.eqb_spec (user_id r) u) as [Hu|Hu]; cbn [andb].
  - destruct (movie_id r =? m); cbn [negb List.filter].
    + destruct (Z.eqb_spec (user_id r) v); [congruence | exact IH].
    + rewrite IH. reflexivity.
  - cbn [negb List.filter]. rewrite IH. reflexivity.
Qed.

Lemma select_after_other o d v :
  op_user o <> v -> select_rows (store_after o d) v = select_rows d v.
Proof.
  intros Hv. destruct o as [f u m t p|f u m]; cbn [store_after op_user] in *.
  - destruct (add_favorite_store f d u m t p) as [-> | ->]; [reflexivity|].
    rewrite DatabaseProofs.select_insert_row.
    destruct (Z.eqb_spec u v); [contradiction | apply app_nil_r].
  - destruct (remove_favorite_store f d u m) as [-> | ->]; [reflexivity|].
    apply select_delete_other. exact Hv.
Qed.

Lemma get_favorites_by_selection g d1 d2 v :
  select_rows d1 v = select_rows d2 v ->
  get_favorites g d1 v = get_favorites g d2 v.
Proof. intros H. unfold get_favorites. rewrite H. reflexivity. Qed.

(** X6. The favorites of a user are out of reach of the calls made for
    other users: after any sequence of adds and removes for users other
    than [v], whatever faults they meet, listing the favorites of [v] gives
    what it gave before. *)
Theorem favorites_are_per_user
    (ops : list store_op) (d : database) (v : Z) (g : faults) :
  Forall (fun o => op_user o <> v) ops ->
  get_favorites g (store_after_all ops d) v = get_favorites g d v.
Proof.
  intros Hops. apply get_favorites_by_selection.
  revert d. induction Hops as [|o ops Ho _ IH]; intros d; [reflexivity|].
  cbn [store_after_all foldl]. unfold store_after_all in IH. rewrite IH.
  apply select_after_other. exact Ho.
Qed.

Lemma favorites_are_per_user_witness :
  let mine := insert_row empty_db 7 550 (lit "Fight Club") None in
  let ops := [AddOp no_faults 8 550 (lit "Fight Club") None;
              RemoveOp no_faults 9 550;
              RemoveOp no_faults 8 603] in
  get_favorites no_faults (store_after_all ops mine) 7
  = get_favorites no_faults mine 7.
Proof.
  intros mine ops.
  apply (favorites_are_per_user ops mine 7 no_faults).
  repeat (constructor; [cbn; lia|]). constructor.
Defined.

(** X7. The boolean the writing operations return tells the truth about
    the store: when [add_favorite] returns [True] the row has been appended
    with the next key, when [remove_favorite] returns [True] the matching
    rows are gone, and when either returns [False] the store is as it
    was. *)
Theorem store_answer_is_truthful
    (f : faults) (d : database) (u m : Z) (t : pystr) (p : option pystr) :
  match snd (add_favorite f d u m t p) with
  | Ok true => fst (add_favorite f d u m t p) = insert_row d u m t p
  | Ok false => fst (add_favorite f d u m t p) = d
  | Raise _ => True
  end /\
  match snd (remove_favorite f d u m) with
  | Ok true => fst (remove_favorite f d u m) = delete_rows d u m
  | Ok false => fst (remove_favorite f d u m) = d
  | Raise _ => True
  end.
Proof.
  unfold add_favorite, remove_favorite, write_block, get_db_connection,
    finally_close, except_return.
  destruct (connect_fails f), (execute_fails f), (commit_fails f),
    (close_fails f); cbn; split; reflexivity.
Qed.

(** X8. An exception from a writing operation does not mean that nothing
    was written: when every step goes well and [conn.close()] then raises,
    the caller gets the exception of [close] although the insert, or the
    delete, has been committed. *)
Theorem close_fault_after_commit
    (d : database) (u m : Z) (t : pystr) (p : option pystr) :
  add_favorite close_raises d u m t p
    = (insert_row d u m t p, Raise SqliteError) /\
  remove_favorite close_raises d u m
    = (delete_rows d u m, Raise SqliteError) /\
  get_favorites no_faults (fst (add_favorite close_raises d u m t p)) u
    = Ok (select_rows d u ++
          [{| row_id := last_id d + 1; user_id := u; movie_id := m;
              title := t; poster_path := p |}]).
Proof.
  split; [reflexivity|]. split; [reflexivity|].
  change (get_favorites no_faults ?x ?y) with (Ok (select_rows x y)).
  cbn [fst add_favorite]. f_equal.
  change (fst (add_favorite close_raises d u m t p))
    with (insert_row d u m t p).
  rewrite DatabaseProofs.select_insert_row, Z.eqb_refl. reflexivity.
Qed.

(** X9. The store keeps no row unique: adding the same content for the
    same user twice succeeds twice and lists two entries after the earlier
    ones, alike but for their keys; a single remove of that content then
    deletes both, and leaves the user's other entries in their order. *)
Theorem duplicates_are_stored_and_removed_together
    (d : database) (u m : Z) (t t' : pystr) (p p' : option pystr) :
  let d1 := fst (add_favorite no_faults d u m t p) in
  let d2 := fst (add_favorite no_faults d1 u m t' p') in
  let d3 := fst (remove_favorite no_faults d2 u m) in
  snd (add_favorite no_faults d u m t p) = Ok true /\
  snd (add_favorite no_faults d1 u m t' p') = Ok true /\
  get_favorites no_faults d2 u
    = Ok (select_rows d u ++
          [{| row_id := last_id d + 1; user_id := u; movie_id := m;
              title := t; poster_path := p |};
           {| row_id := last_id d + 2; user_id := u; movie_id := m;
              title := t'; poster_path := p' |}]) /\
  snd (remove_favorite no_faults d2 u m) = Ok true /\
  get_favorites no_faults d3 u
    = Ok (List.filter (fun r => negb (movie_id r =? m)) (select_rows d u)).
Proof.
  intros d1 d2 d3.
  change d1 with (insert_row d u m t p) in *.
  change d2 with (insert_row (insert_row d u m t p) u m t' p') in *.
  change d3 with (delete_rows (insert_row (insert_row d u m t p) u m t' p')
                    u m).
  change (get_favorites no_faults ?x ?y) with (Ok (select_rows x y)).
  split; [reflexivity|]. split; [reflexivity|].
  assert (H2 : select_rows (insert_row (insert_row d u m t p) u m t' p') u
               = select_rows d u ++
                 [{| row_id := last_id d + 1; user_id := u; movie_id := m;
                     title := t; poster_path := p |};
                  {| row_id := last_id d + 2; user_id := u; movie_id := m;
                     title := t'; poster_path := p' |}]).
  { rewrite !DatabaseProofs.select_insert_row, Z.eqb_refl, <- app_assoc.
    cbn [insert_row last_id app]. do 4 f_equal. lia. }
  split; [rewrite H2; reflexivity|]. split; [reflexivity|].
  rewrite DatabaseProofs.select_delete_rows, H2, List.filter_app.
  cbn [List.filter movie_id]. rewrite Z.eqb_refl. cbn [negb].
  rewrite app_nil_r. reflexivity.
Qed.

(** X10. Removing is idempotent: after a remove that went well no entry
    of that user has that content, the user's other entries are listed in
    their order, and removing the same content again answers [True] and
    leaves the store as it is. *)
Theorem remove_is_idempotent (d : database) (u m : Z) :
  let d1 := fst (remove_favorite no_faults d u m) in
  get_favorites no_faults d1 u
    = Ok (List.filter (fun r => negb (movie_id r =? m)) (select_rows d u)) /\
  (forall r, In r (select_rows d1 u) -> movie_id r <> m) /\
  remove_favorite no_faults d1 u m = (d1, Ok true).
Proof.
  intros d1. change d1 with (delete_rows d u m).
  change (get_favorites no_faults ?x ?y) with (Ok (select_rows x y)).
  rewrite DatabaseProofs.select_delete_rows.
  split; [reflexivity|]. split.
  - intros r Hr. apply List.filter_In in Hr. destruct Hr as [_ Hr].
    intros Hm. rewrite Hm, Z.eqb_refl in Hr. discriminate.
  - change (remove_favorite no_faults ?x ?y ?z) with (delete_rows x y z, Ok true).
    f_equal. apply DatabaseProofs.delete_rows_no_match.
    intros r Hr [Hu Hm]. unfold delete_rows in Hr. cbn [rows] in Hr.
    apply List.filter_In in Hr. destruct Hr as [_ Hr].
    rewrite Hu, Hm, !Z.eqb_refl in Hr. discriminate.
Qed.

End DatabaseExtra.

(* ===================================================================== *)
(** * Further properties of rendering and navigation                      *)
(* ===================================================================== *)

Module BotExtra.
Import Py Bot Browse BotSpec ExtraSpec.
Import BotProofs.

(** A move on a stored list, when the new cursor is an index of it. *)
Lemma move_to_in_range chat items ct f p w item :
  0 <= p ->
  items !! Z.to_nat p = Some item ->
  move_to chat (VList items) ct f p w
  = call_show f chat item ct p (Z.of_nat (length items))
      {| fsm := <[k_current_page := VInt p]> (fsm w);
         db := db w; sent := sent w |}.
Proof.
  intros Hp Hitem.
  assert (Hlt : (Z.to_nat p < length items)%nat)
    by (eapply lookup_lt_Some; exact Hitem).
  unfold move_to. unfold bind at 1. rewrite update_data_spec.
  unfold bind at 1. unfold lift at 1. cbn [getitem]. unfold index.
  destruct (Z.ltb_spec p 0); [lia|].
  destruct (Z.leb_spec 0 p); [|lia].
  destruct (Z.ltb_spec p (Z.of_nat (length items))); [|lia].
  cbn [andb]. rewrite Hitem.
  unfold bind at 1. unfold lift at 1. cbn [len]. reflexivity.
Qed.

(** A press that moves, on a session whose cursor is in range. *)
Lemma dispatch_moving v cb chat w items c p :
  in_session v items c w ->
  0 <= c < Z.of_nat (length items) ->
  cb_message cb = Some chat ->
  moves_to v cb c (Z.of_nat (length items)) p ->
  0 <= p < Z.of_nat (length items) /\
  exists item,
    items !! Z.to_nat p = Some item /\
    dispatch_navigation cb w
    = call_show (renderer v) chat item
        (data_get (fsm w) k_content_type (VStr (lit "movie")))
        p (Z.of_nat (length items))
        {| fsm := <[k_current_page := VInt p]> (fsm w);
           db := db w; sent := sent w |}.
Proof.
  intros [Hl Hc] Hrange Hm Hmove.
  assert (Hp : 0 <= p < Z.of_nat (length items))
    by (destruct Hmove as [(_ & ? & ->)|(_ & ? & ->)]; lia).
  split; [exact Hp|].
  destruct (lookup_lt_is_Some_2 items (Z.to_nat p) ltac:(lia)) as [item Hitem].
  exists item. split; [exact Hitem|].
  destruct Hmove as [(Hd & Hlt & ->)|(Hd & Hlt & ->)].
  - rewrite (dispatch_prev v cb Hd).
    rewrite (handle_navigation_prev v cb chat w c Hm Hd
               (data_get_some _ _ _ _ Hc)).
    destruct (Z.ltb_spec 0 c); [|lia].
    rewrite (data_get_some _ _ _ _ Hl).
    apply move_to_in_range; [lia | exact Hitem].
  - rewrite (dispatch_next v cb Hd).
    rewrite (handle_navigation_next v cb chat w c items Hm Hd
               (data_get_some _ _ _ _ Hc) (data_get_some _ _ _ _ Hl)).
    destruct (Z.ltb_spec c (Z.of_nat (length items) - 1)); [|lia].
    apply move_to_in_range; [lia | exact Hitem].
Qed.

Lemma in_session_moved v items p w :
  fsm w !! list_key v = Some (VList items) ->
  in_session v items p
    {| fsm := <[k_current_page := VInt p]> (fsm w); db := db w;
       sent := sent w |}.
Proof.
  intros Hl. split; cbn [fsm].
  - rewrite lookup_insert_ne by apply list_key_is_not_cursor. exact Hl.
  - apply lookup_insert_eq.
Qed.

(** X11. In the favorites and similar views every press that moves the
    cursor ends in [TypeError]: [handle_navigation] stores the new cursor
    and then calls a renderer of four parameters with five arguments, so
    nothing is sent while the cursor has moved. *)
Theorem favorites_and_similar_moves_raise
    (v : view) (cb : callback) (chat : Z) (w : world)
    (items : list json) (c p : Z) :
  five_argument_view v = false ->
  in_session v items c w ->
  0 <= c < Z.of_nat (length items) ->
  cb_message cb = Some chat ->
  moves_to v cb c (Z.of_nat (length items)) p ->
  snd (dispatch_navigation cb w) = Raise TypeError /\
  in_session v items p (fst (dispatch_navigation cb w)) /\
  sent (fst (dispatch_navigation cb w)) = sent w.
Proof.
  intros Hv Hs Hrange Hm Hmove.
  destruct (dispatch_moving v cb chat w items c p Hs Hrange Hm Hmove)
    as (_ & item & _ & ->).
  destruct Hs as [Hl _].
  destruct v; try discriminate Hv; cbn [renderer call_show raise fst snd];
    (split; [reflexivity|]); (split; [|reflexivity]);
    apply in_session_moved; exact Hl.
Qed.

Lemma favorites_and_similar_moves_raise_witness :
  let items := map favorite_dict
                 [{| row_id := 1; user_id := 7; movie_id := 603;
                     title := lit "title"; poster_path := None |};
                  {| row_id := 2; user_id := 7; movie_id := 550;
                     title := lit "title"; poster_path := None |}] in
  let w := favorites_opened [603; 550] in
  let cb := press "next_favorite" in
  snd (dispatch_navigation cb w) = Raise TypeError /\
  in_session Favorites items 1 (fst (dispatch_navigation cb w)) /\
  sent (fst (dispatch_navigation cb w)) = sent w.
Proof.
  intros items w cb.
  apply (favorites_and_similar_moves_raise Favorites cb 1 w items 0 1).
  - reflexivity.
  - split; reflexivity.
  - cbn; lia.
  - reflexivity.
  - right. split; [reflexivity|]. split; [cbn; lia | reflexivity].
Defined.

Lemma show_card_run h title_of year_of actions prev next chat o cp tp w y :
  renderable (JObj o) = true ->
  year_of o = Ok y ->
  show_card h title_of year_of actions prev next chat (JObj o) cp tp w
  = ({| fsm := fsm w; db := db w;
        sent := sent w ++
          [SendCard chat
             {| card_heading := h; card_index := cp + 1; card_total := tp;
                card_title := title_of o; card_year := y;
                card_rating := obj_get o (lit "vote_average") (JStr no_rating);
                card_overview := obj_get o (lit "overview") (JStr no_overview) |}
             (actions (obj_get o (lit "id") JNull)
                ++ [nav_buttons prev next cp tp])
             (if truthy (obj_get o (lit "poster_path") JNull)
              then Some (obj_get o (lit "poster_path") JNull) else None)] |},
     Ok tt).
Proof.
  intros Hid Hy. unfold show_card. cbn [renderable] in Hid. rewrite Hid.
  cbn [negb]. unfold bind, lift. rewrite Hy. reflexivity.
Qed.

Lemma show_card_skips h title_of year_of actions prev next chat item cp tp w :
  renderable item = false ->
  show_card h title_of year_of actions prev next chat item cp tp w = (w, Ok tt).
Proof.
  intros Hid. unfold show_card. destruct item; try reflexivity.
  cbn [renderable] in Hid. rewrite Hid. reflexivity.
Qed.

Lemma show_card_raises h title_of year_of actions prev next chat o cp tp w e :
  renderable (JObj o) = true ->
  year_of o = Raise e ->
  show_card h title_of year_of actions prev next chat (JObj o) cp tp w
  = (w, Raise e).
Proof.
  intros Hid Hy. unfold show_card. cbn [renderable] in Hid. rewrite Hid.
  cbn [negb]. unfold bind, lift. rewrite Hy. reflexivity.
Qed.

Lemma release_year_unsliceable o :
  sliceable (date_value o) = false -> release_year o = Raise TypeError.
Proof.
  unfold release_year. fold (date_value o).
  destruct (date_value o); cbn; intros H; try discriminate H; reflexivity.
Qed.

Lemma nav_buttons_offer prev next cp tp :
  prev <> next ->
  (In (NavButton prev) (nav_buttons prev next cp tp) <-> 0 < cp) /\
  (In (NavButton next) (nav_buttons prev next cp tp) <-> cp < tp - 1) /\
  In MainMenuButton (nav_buttons prev next cp tp).
Proof.
  intros Hne. unfold nav_buttons.
  destruct (Z.ltb_spec 0 cp), (Z.ltb_spec cp (tp - 1)); cbn;
    (split; [|split]); try (split; intros H'); try lia; try tauto;
    repeat match goal with
    | H' : _ \/ _ |- _ => destruct H' as [H'|H']
    | H' : NavButton _ = NavButton _ |- _ => injection H' as H'
    | H' : NavButton _ = MainMenuButton |- _ => discriminate H'
    | H' : MainMenuButton = NavButton _ |- _ => discriminate H'
    | H' : False |- _ => destruct H'
    end; try congruence; try lia.
Qed.

Lemma prev_next_differ v : prev_data v <> next_data v.
Proof. destruct v; discriminate. Qed.

(** The renderer [handle_navigation] calls for the search and popular
    views is a card with the buttons of the view. *)
Lemma call_show_five v chat item ct cp tp :
  five_argument_view v = true ->
  exists h actions,
    call_show (renderer v) chat item ct cp tp
    = show_card h display_title release_year actions
        (prev_data v) (next_data v) chat item cp tp.
Proof.
  intros Hv. destruct v; try discriminate Hv; do 2 eexists; reflexivity.
Qed.

(** X12. In the search and popular views a press that moves the cursor
    onto an entry that can be shown sends exactly one card, and the card is
    that of the entry under the new cursor [p]: numbered [p + 1] of [n],
    with the entry's title and year, offering "previous" exactly when
    [p > 0], "next" exactly when [p < n - 1], and the way back to the menu
    always. *)
Theorem move_shows_entry_under_cursor
    (v : view) (cb : callback) (chat : Z) (w : world)
    (items : list json) (c p : Z) (o : list (pystr * json)) (y : json) :
  five_argument_view v = true ->
  in_session v items c w ->
  0 <= c < Z.of_nat (length items) ->
  cb_message cb = Some chat ->
  moves_to v cb c (Z.of_nat (length items)) p ->
  items !! Z.to_nat p = Some (JObj o) ->
  renderable (JObj o) = true ->
  release_year o = Ok y ->
  let out := dispatch_navigation cb w in
  snd out = Ok tt /\
  in_session v items p (fst out) /\
  exists card keyboard photo,
    sent (fst out) = sent w ++ [SendCard chat card keyboard photo] /\
    card_index card = p + 1 /\
    card_total card = Z.of_nat (length items) /\
    card_title card = display_title o /\
    card_year card = y /\
    (In (NavButton (prev_data v)) (nav_row keyboard) <-> 0 < p) /\
    (In (NavButton (next_data v)) (nav_row keyboard)
     <-> p < Z.of_nat (length items) - 1) /\
    In MainMenuButton (nav_row keyboard).
Proof.
  intros Hv Hs Hrange Hm Hmove Hitem Hid Hy out. subst out.
  destruct (dispatch_moving v cb chat w items c p Hs Hrange Hm Hmove)
    as (_ & item & Hitem' & ->).
  rewrite Hitem in Hitem'. injection Hitem' as <-.
  destruct (call_show_five v chat (JObj o)
              (data_get (fsm w) k_content_type (VStr (lit "movie")))
              p (Z.of_nat (length items)) Hv) as (h & actions & ->).
  rewrite (show_card_run _ _ _ _ _ _ _ _ _ _ _ y Hid Hy).
  cbn [fst snd fsm sent]. split; [reflexivity|]. split.
  - apply in_session_moved. apply Hs.
  - do 3 eexists. split; [reflexivity|]. cbn [card_index card_total
      card_title card_year]. repeat (split; [reflexivity|]).
    unfold nav_row. rewrite last_snoc. cbn [default].
    apply nav_buttons_offer, prev_next_differ.
Qed.

Lemma move_shows_entry_under_cursor_witness :
  let items := [entry 603 "movie"; entry 1399 "tv"] in
  let cb := press "next_page" in
  let out := dispatch_navigation cb after_search in
  snd out = Ok tt /\
  in_session Search items 1 (fst out) /\
  exists card keyboard photo,
    sent (fst out) = sent after_search ++ [SendCard 1 card keyboard photo] /\
    card_index card = 1 + 1 /\
    card_total card = Z.of_nat (length items) /\
    card_title card
      = display_title [(lit "id", JInt 1399); (lit "media_type", JStr (lit "tv"))] /\
    card_year card = JStr (take 4 unknown) /\
    (In (NavButton (prev_data Search)) (nav_row keyboard) <-> 0 < 1) /\
    (In (NavButton (next_data Search)) (nav_row keyboard)
     <-> 1 < Z.of_nat (length items) - 1) /\
    In MainMenuButton (nav_row keyboard).
Proof.
  intros items cb.
  apply (move_shows_entry_under_cursor Search cb 1 after_search items 0 1
           [(lit "id", JInt 1399); (lit "media_type", JStr (lit "tv"))]
           (JStr (take 4 unknown))); try reflexivity.
  - split; reflexivity.
  - cbn; lia.
  - right. split; [reflexivity|]. split; [cbn; lia | reflexivity].
Defined.

(** X13. In the search and popular views a press that moves the cursor
    onto an entry that cannot be shown (not a dict, without a truthy [id],
    or with a date that is neither text nor list, such as [null]) sends
    nothing, yet the cursor has moved: the handler returns quietly when the
    renderer turns the entry down and ends in [TypeError] when slicing the
    date fails. *)
Theorem move_onto_unshowable_entry
    (v : view) (cb : callback) (chat : Z) (w : world)
    (items : list json) (c p : Z) (item : json) :
  five_argument_view v = true ->
  in_session v items c w ->
  0 <= c < Z.of_nat (length items) ->
  cb_message cb = Some chat ->
  moves_to v cb c (Z.of_nat (length items)) p ->
  items !! Z.to_nat p = Some item ->
  unshowable item = true ->
  let out := dispatch_navigation cb w in
  snd out = (if renderable item then Raise TypeError else Ok tt) /\
  in_session v items p (fst out) /\
  sent (fst out) = sent w.
Proof.
  intros Hv Hs Hrange Hm Hmove Hitem Hun out. subst out.
  destruct (dispatch_moving v cb chat w items c p Hs Hrange Hm Hmove)
    as (_ & item' & Hitem' & ->).
  rewrite Hitem in Hitem'. injection Hitem' as <-.
  destruct (call_show_five v chat item
              (data_get (fsm w) k_content_type (VStr (lit "movie")))
              p (Z.of_nat (length items)) Hv) as (h & actions & ->).
  destruct (renderable item) eqn:Hid.
  - destruct item; try discriminate Hid.
    cbn [unshowable] in Hun. rewrite Hid in Hun. cbn [negb orb] in Hun.
    apply negb_true_iff in Hun.
    rewrite (show_card_raises _ _ _ _ _ _ _ _ _ _ _ TypeError Hid
               (release_year_unsliceable o Hun)).
    cbn [fst snd sent]. split; [reflexivity|]. split; [|reflexivity].
    apply in_session_moved. apply Hs.
  - rewrite (show_card_skips _ _ _ _ _ _ _ _ _ _ _ Hid).
    cbn [fst snd sent]. split; [reflexivity|]. split; [|reflexivity].
    apply in_session_moved. apply Hs.
Qed.

Lemma move_onto_unshowable_entry_witness :
  let undated := JObj [(lit "id", JInt 11); (lit "release_date", JNull)] in
  let items := [entry 603 "movie"; undated] in
  let w := session_of Search items 0 in
  let out := dispatch_navigation (press "next_page") w in
  snd out = Raise TypeError /\
  in_session Search items 1 (fst out) /\
  sent (fst out) = sent w.
Proof.
  intros undated items w.
  apply (move_onto_unshowable_entry Search (press "next_page") 1 w items 0 1
           undated); try reflexivity.
  - split; reflexivity.
  - cbn; lia.
  - right. split; [reflexivity|]. split; [cbn; lia | reflexivity].
Defined.

(** ** Search *)

(** The run of [process_search_query] once the provider has answered with
    a dict whose [results] is a non-empty array of dicts. *)
Lemma search_run env msg w text o items :
  msg_text msg = Some text ->
  text <> ""%string ->
  snd (Fetcher.make_api_request 3 1 env) = Ok (JObj o) ->
  obj_lookup o (lit "results") = Some (JArr items) ->
  items <> [] ->
  Forall (fun it => is_dict it = true) items ->
  let kept := List.filter is_movie_or_tv items in
  let n := Z.of_nat (length kept) in
  process_search_query env msg w
  = (let* item := lift (index kept 0) in
     show_search_results (msg_chat msg) item (VStr (lit "search")) 0 n)
      {| fsm := <[k_content_type := VStr (lit "search")]>
                  (<[k_total_pages := VInt n]>
                     (<[k_current_page := VInt 0]>
                        (<[k_search_results := VList kept]> (fsm w))));
         db := db w; sent := sent w |}.
Proof.
  intros Htext Hne Hfetch Hres Hitems Hdicts kept n.
  unfold process_search_query. rewrite Htext.
  destruct (String.eqb_spec text ""); [contradiction|].
  unfold bind at 1. unfold lift at 1. rewrite Hfetch.
  unfold obj_get. rewrite Hres.
  destruct items as [|it0 items0]; [contradiction|].
  cbn [truthy negb iter_json].
  unfold bind at 1. unfold lift at 1.
  unfold bind at 1. unfold lift at 1.
  rewrite (filterM_movie_or_tv _ Hdicts). fold kept. fold n.
  unfold bind at 1. rewrite update_data_spec. reflexivity.
Qed.

(** X14. When the provider's answer to a search holds entries but none of
    type "movie" or "tv", [process_search_query] stores an empty list with
    cursor 0 and then reads [results[0]]: it ends in [IndexError] and the
    user is sent nothing, not even the notice that nothing was found. *)
Theorem search_with_no_movie_or_tv
    (env : Fetcher.provider) (msg : message) (w : world) (text : string)
    (o : list (pystr * json)) (items : list json) :
  msg_text msg = Some text ->
  text <> ""%string ->
  snd (Fetcher.make_api_request 3 1 env) = Ok (JObj o) ->
  obj_lookup o (lit "results") = Some (JArr items) ->
  items <> [] ->
  Forall (fun it => is_dict it = true) items ->
  List.filter is_movie_or_tv items = [] ->
  let out := process_search_query env msg w in
  snd out = Raise IndexError /\
  in_session Search [] 0 (fst out) /\
  sent (fst out) = sent w /\
  db (fst out) = db w.
Proof.
  intros Htext Hne Hfetch Hres Hitems Hdicts Hnone out. subst out.
  rewrite (search_run env msg w text o items Htext Hne Hfetch Hres Hitems
             Hdicts).
  rewrite Hnone. unfold bind, lift.
  change (index (@nil json) 0) with (@Raise json IndexError).
  cbn [fst snd fsm db sent].
  split; [reflexivity|]. split; [|split; reflexivity].
  split; cbn [fsm list_key].
  - rewrite !lookup_insert_ne by discriminate. apply lookup_insert_eq.
  - rewrite !lookup_insert_ne by discriminate. apply lookup_insert_eq.
Qed.

Lemma search_with_no_movie_or_tv_witness :
  let env : Fetcher.provider := fun _ =>
    Fetcher.Response 200 Fetcher.HeaderAbsent
      (Fetcher.BodyJson
         (JObj [(lit "results", JArr [entry 6384 "person"])])) in
  let out := process_search_query env
               {| msg_chat := 1; msg_text := Some "keanu"%string |} blank in
  snd out = Raise IndexError /\
  in_session Search [] 0 (fst out) /\
  sent (fst out) = sent blank /\
  db (fst out) = db blank.
Proof.
  intros env.
  apply (search_with_no_movie_or_tv env
           {| msg_chat := 1; msg_text := Some "keanu"%string |} blank
           "keanu"%string
           [(lit "results", JArr [entry 6384 "person"])]
           [entry 6384 "person"]); try reflexivity; try discriminate.
  repeat constructor.
Defined.

(** X15. When the provider's answer to a search is not a dict, or has no
    [results], or has [results] that are empty or otherwise falsy,
    [process_search_query] sends the notice that nothing was found, with the
    way back to the menu, and leaves the FSM data and the store as they
    were. *)
Theorem search_finds_nothing
    (env : Fetcher.provider) (msg : message) (w : world) (text : string)
    (data : json) :
  msg_text msg = Some text ->
  text <> ""%string ->
  snd (Fetcher.make_api_request 3 1 env) = Ok data ->
  truthy (Browse.found_results data) = false ->
  process_search_query env msg w
  = ({| fsm := fsm w; db := db w;
        sent := sent w ++
                [SendNotice (msg_chat msg) NothingFound back_keyboard] |},
     Ok tt).
Proof.
  intros Htext Hne Hfetch Hfalsy.
  unfold process_search_query. rewrite Htext.
  destruct (String.eqb_spec text ""); [contradiction|].
  unfold bind at 1. unfold lift at 1. rewrite Hfetch.
  unfold Browse.found_results in Hfalsy. rewrite Hfalsy. reflexivity.
Qed.

Lemma search_finds_nothing_witness :
  let env : Fetcher.provider := fun _ =>
    Fetcher.Response 200 Fetcher.HeaderAbsent
      (Fetcher.BodyJson (JObj [(lit "results", JArr [])])) in
  process_search_query env
    {| msg_chat := 1; msg_text := Some "zzz"%string |} blank
  = ({| fsm := fsm blank; db := db blank;
        sent := sent blank ++ [SendNotice 1 NothingFound back_keyboard] |},
     Ok tt).
Proof.
  intros env.
  apply (search_finds_nothing env
           {| msg_chat := 1; msg_text := Some "zzz"%string |} blank
           "zzz"%string (JObj [(lit "results", JArr [])]));
    try reflexivity; discriminate.
Defined.

(** ** Favorites *)

Lemma get_favorites_nonempty f d u r l :
  get_favorites f d u = Ok (r :: l) -> r :: l = select_rows d u.
Proof.
  unfold get_favorites, get_db_connection, finally_close, except_return.
  destruct (connect_fails f), (execute_fails f), (fetch_fails f),
    (close_fails f); cbn; intros H; try discriminate H;
    injection H as H; symmetry; exact H.
Qed.

Lemma favorite_dict_renderable r :
  renderable (favorite_dict r) = negb (movie_id r =? 0).
Proof. reflexivity. Qed.

(** X16. Opening the favorites: when the store lists no row (the user has
    none, or the query met a fault that [get_favorites] turned into an empty
    list), the handler sends the notice that there are no favorites and
    writes nothing to the FSM data. Otherwise it stores one dict per row, in
    the order of the table, with cursor 0 and the number of rows as page
    count, so that the session mirrors the store, and it shows the first
    row as card 1 of [n], with no "previous" button, a "next" button exactly
    when [n > 1] and the button that removes that content. *)
Theorem favorites_view_opens
    (f : faults) (cb : callback) (w : world) (chat : Z) (favs : list row) :
  cb_message cb = Some chat ->
  get_favorites f (db w) (cb_from_user cb) = Ok favs ->
  let out := show_favorites f cb w in
  let n := Z.of_nat (length favs) in
  match favs with
  | [] =>
      out = ({| fsm := fsm w; db := db w;
                sent := sent w ++ [SendNotice chat NoFavoritesYet back_keyboard] |},
             Ok tt)
  | first :: _ =>
      snd out = Ok tt /\
      in_session Favorites (map favorite_dict favs) 0 (fst out) /\
      fsm (fst out) !! k_total_pages = Some (VInt n) /\
      db (fst out) = db w /\
      mirrors (cb_from_user cb) (fst out) /\
      (movie_id first <> 0 ->
       exists card keyboard photo,
         sent (fst out) = sent w ++ [SendCard chat card keyboard photo] /\
         card_index card = 1 /\ card_total card = n /\
         card_title card = JStr (title first) /\
         keyboard = [[RemoveFavoriteButton (JInt (movie_id first))];
                     nav_buttons "prev_favorite" "next_favorite" 0 n] /\
         ~ In (NavButton "prev_favorite") (nav_row keyboard) /\
         (In (NavButton "next_favorite") (nav_row keyboard) <-> 1 < n))
  end.
Proof.
  intros Hm Hget out n.
  destruct favs as [|first rest].
  { subst out. unfold show_favorites. rewrite Hm.
    unfold bind, db_step. rewrite Hget. reflexivity. }
  pose proof (get_favorites_nonempty _ _ _ _ _ Hget) as Hsel.
  set (favs := first :: rest) in *.
  assert (Hout : out
            = show_favorites_page chat (favorite_dict first) 0 n
                {| fsm := <[k_total_pages := VInt n]>
                            (<[k_current_page := VInt 0]>
                               (<[k_favorites := VList (map favorite_dict favs)]>
                                  (fsm w)));
                   db := db w; sent := sent w |}).
  { subst out. unfold show_favorites. rewrite Hm.
    unfold bind, db_step. rewrite Hget. subst n favs.
    cbn [map length]. rewrite length_map. reflexivity. }
  rewrite Hout. clear Hout.
  rewrite show_favorites_page_favorite.
  split; [reflexivity|].
  assert (Hfsm : fsm (fst (show_favorites_page chat (favorite_dict first) 0 n
                   {| fsm := <[k_total_pages := VInt n]>
                               (<[k_current_page := VInt 0]>
                                  (<[k_favorites := VList (map favorite_dict favs)]>
                                     (fsm w)));
                      db := db w; sent := sent w |}))
                 = <[k_total_pages := VInt n]>
                     (<[k_current_page := VInt 0]>
                        (<[k_favorites := VList (map favorite_dict favs)]>
                           (fsm w)))).
  { rewrite show_favorites_page_keeps. reflexivity. }
  assert (Hdb : db (fst (show_favorites_page chat (favorite_dict first) 0 n
                   {| fsm := <[k_total_pages := VInt n]>
                               (<[k_current_page := VInt 0]>
                                  (<[k_favorites := VList (map favorite_dict favs)]>
                                     (fsm w)));
                      db := db w; sent := sent w |})) = db w).
  { unfold show_favorites_page.
    match goal with
    | |- db (fst (show_card ?h ?t ?y ?a ?p ?nx ?c ?i ?cp ?tp ?w0)) = _ =>
        exact (proj2 (show_card_keeps h t y a p nx c i cp tp w0))
    end. }
  split; [|split; [|split; [|split]]].
  - split; rewrite Hfsm; cbn [list_key].
    + rewrite !lookup_insert_ne by discriminate. apply lookup_insert_eq.
    + rewrite !lookup_insert_ne by discriminate. apply lookup_insert_eq.
  - rewrite Hfsm. apply lookup_insert_eq.
  - exact Hdb.
  - unfold mirrors. rewrite Hfsm, Hdb, <- Hsel.
    rewrite !lookup_insert_ne by discriminate. apply lookup_insert_eq.
  - intros Hid. unfold show_favorites_page, favorite_dict.
    rewrite (show_card_run _ _ _ _ _ _ _ _ _ _ _ (JStr []));
      [|change (negb (movie_id first =? 0) = true);
        destruct (Z.eqb_spec (movie_id first) 0); [contradiction|reflexivity]
       |reflexivity].
    cbn [fst sent]. do 3 eexists. split; [reflexivity|].
    cbn [card_index card_total card_title].
    split; [reflexivity|]. split; [reflexivity|]. split; [reflexivity|].
    split; [reflexivity|].
    unfold nav_row. cbn [last default app].
    destruct (nav_buttons_offer "prev_favorite" "next_favorite" 0 n
                ltac:(discriminate)) as (Hp & Hn & _).
    split; [rewrite Hp; lia | rewrite Hn; lia].
Qed.

Lemma favorites_view_opens_witness :
  let w := {| fsm := ∅; db := favorites_of [603; 550]; sent := [] |} in
  let out := show_favorites no_faults (press "favorites") w in
  snd out = Ok tt /\
  in_session Favorites
    (map favorite_dict (select_rows (favorites_of [603; 550]) 7)) 0 (fst out) /\
  fsm (fst out) !! k_total_pages = Some (VInt 2) /\
  db (fst out) = db w /\
  mirrors 7 (fst out) /\
  (603 <> 0 ->
   exists card keyboard photo,
     sent (fst out) = sent w ++ [SendCard 1 card keyboard photo] /\
     card_index card = 1 /\ card_total card = 2 /\
     card_title card = JStr (lit "title") /\
     keyboard = [[RemoveFavoriteButton (JInt 603)];
                 nav_buttons "prev_favorite" "next_favorite" 0 2] /\
     ~ In (NavButton "prev_favorite") (nav_row keyboard) /\
     (In (NavButton "next_favorite") (nav_row keyboard) <-> 1 < 2)).
Proof.
  intros w.
  apply (favorites_view_opens no_faults (press "favorites") w 1
           (select_rows (favorites_of [603; 550]) 7)); reflexivity.
Defined.

(** X17. Removing keeps the session in step with the store: when the
    favorites list of the session mirrors the store and the press (of the
    button of the entry on display or of any other entry) removes content
    [mid], then, as long as another entry is left, the list of the session
    after the removal mirrors the store after it, and the cursor is an index
    of the new list. *)
Theorem removal_keeps_session_and_store_in_step
    (f : faults) (cb : callback) (w : world) (chat c mid : Z) :
  cb_message cb = Some chat ->
  py_int (last_segment (cb_data cb)) = Some mid ->
  snd (remove_favorite f (db w) (cb_from_user cb) mid) = Ok true ->
  mirrors (cb_from_user cb) w ->
  fsm w !! k_current_page = Some (VInt c) ->
  0 <= c ->
  kept_rows mid (select_rows (db w) (cb_from_user cb)) <> [] ->
  let out := remove_from_favorites f cb w in
  let left := select_rows (db (fst out)) (cb_from_user cb) in
  snd out = Ok tt /\
  mirrors (cb_from_user cb) (fst out) /\
  left = kept_rows mid (select_rows (db w) (cb_from_user cb)) /\
  exists c', fsm (fst out) !! k_current_page = Some (VInt c') /\
             0 <= c' < Z.of_nat (length left).
Proof.
  intros Hm Hparse Hrem Hl Hc Hpos Hleft out left.
  destruct (remove_from_favorites_run f cb w chat
              (select_rows (db w) (cb_from_user cb)) c mid
              Hm Hparse Hrem Hl Hc Hpos) as (Hres & Hdb & Hstate).
  fold out in Hres, Hdb, Hstate.
  assert (Hsel : left = kept_rows mid (select_rows (db w) (cb_from_user cb))).
  { subst left. rewrite Hdb. apply DatabaseProofs.select_delete_rows. }
  destruct (kept_rows mid (select_rows (db w) (cb_from_user cb)))
    as [|r0 kept'] eqn:Ekept; [contradiction|].
  split; [exact Hres|]. split; [|split; [exact Hsel|]].
  - unfold mirrors. fold left. rewrite Hstate, Hsel.
    rewrite lookup_insert_ne by discriminate. apply lookup_insert_eq.
  - eexists. split; [rewrite Hstate; apply lookup_insert_eq|].
    rewrite Hsel. cbn [length]. lia.
Qed.

Lemma removal_keeps_session_and_store_in_step_witness :
  let w := favorites_opened [603; 550] in
  let out := remove_from_favorites no_faults (press "remove_favorite_603") w in
  let left := select_rows (db (fst out)) 7 in
  snd out = Ok tt /\
  mirrors 7 (fst out) /\
  left = kept_rows 603 (select_rows (db w) 7) /\
  exists c', fsm (fst out) !! k_current_page = Some (VInt c') /\
             0 <= c' < Z.of_nat (length left).
Proof.
  intros w.
  apply (removal_keeps_session_and_store_in_step no_faults
           (press "remove_favorite_603") w 1 0 603);
    try reflexivity; discriminate.
Defined.

(** X18. When the store answers [False] to the removal (a fault of the
    statement or of the commit, the handle opened and released), the handler
    only answers the press with the failure text: the FSM data, the store
    and the card on display stay as they were. *)
Theorem removal_failure_is_answered
    (f : faults) (cb : callback) (w : world) (chat mid : Z) :
  cb_message cb = Some chat ->
  py_int (last_segment (cb_data cb)) = Some mid ->
  connect_fails f = false ->
  close_fails f = false ->
  execute_fails f = true \/ commit_fails f = true ->
  remove_from_favorites f cb w
  = ({| fsm := fsm w; db := db w; sent := sent w ++ [Answer RemoveFailed] |},
     Ok tt).
Proof.
  intros Hm Hparse Hconn Hclose Hfault.
  unfold remove_from_favorites. rewrite Hm.
  destruct (String.eqb_spec (cb_data cb) "") as [E|_].
  { rewrite E in Hparse. discriminate Hparse. }
  rewrite Hparse. unfold bind, db_step.
  rewrite (DatabaseProofs.remove_favorite_fault_to_false f (db w)
             (cb_from_user cb) mid Hconn Hclose Hfault).
  reflexivity.
Qed.

Lemma removal_failure_is_answered_witness :
  let f := {| connect_fails := false; execute_fails := true;
              commit_fails := false; fetch_fails := false;
              close_fails := false |} in
  let w := favorites_opened [603; 550] in
  remove_from_favorites f (press "remove_favorite_603") w
  = ({| fsm := fsm w; db := db w; sent := sent w ++ [Answer RemoveFailed] |},
     Ok tt).
Proof.
  intros f w.
  apply (removal_failure_is_answered f (press "remove_favorite_603") w 1 603);
    try reflexivity.
  left. reflexivity.
Defined.

(** ** The data of the buttons *)

Lemma digit_char_facts d :
  0 <= d <= 9 ->
  digit_of (digit_char d) = Some d /\
  is_space (digit_char d) = false /\
  Ascii.eqb (digit_char d) "_" = false /\
  Ascii.eqb (digit_char d) "-" = false /\
  Ascii.eqb (digit_char d) "+" = false.
Proof.
  intros Hd.
  assert (H : d = 0 \/ d = 1 \/ d = 2 \/ d = 3 \/ d = 4 \/ d = 5 \/ d = 6 \/
              d = 7 \/ d = 8 \/ d = 9) by lia.
  repeat (destruct H as [-> | H]; [repeat split|]). subst d. repeat split.
Qed.

Lemma digits_of_spec fuel :
  forall n acc,
    0 <= n < Z.of_nat fuel ->
    exists ds,
      digits_of fuel n acc = ds ++ acc /\
      ds <> [] /\
      Forall decimal_digit ds /\
      forall a rest,
        digits_value a (ds ++ rest)
        = digits_value (a * 10 ^ Z.of_nat (length ds) + n) rest.
Proof.
  induction fuel as [|fuel IH]; intros n acc Hn; [lia|].
  cbn [digits_of]. destruct (Z.ltb_spec n 10) as [Hlt|Hge].
  - exists [digit_char n]. split; [reflexivity|]. split; [discriminate|].
    split; [repeat constructor; exists n; split; [lia | reflexivity]|].
    intros a rest. cbn [app digits_value length].
    destruct (digit_char_facts n ltac:(lia)) as (-> & _).
    f_equal. change (10 ^ Z.of_nat 1) with 10. lia.
  - assert (Hq : 0 <= n / 10 < Z.of_nat fuel).
    { split; [apply Z.div_pos; lia|].
      assert (n / 10 < n) by (apply Z.div_lt; lia). lia. }
    assert (Hr : 0 <= n mod 10 <= 9)
      by (pose proof (Z.mod_pos_bound n 10 ltac:(lia)); lia).
    destruct (IH (n / 10) (digit_char (n mod 10) :: acc) Hq)
      as (ds & Hds & Hne & Hall & Hval).
    exists (ds ++ [digit_char (n mod 10)]).
    split; [rewrite Hds, <- app_assoc; reflexivity|].
    split; [destruct ds; discriminate|].
    split.
    { apply Forall_app. split; [exact Hall|].
      repeat constructor. exists (n mod 10). split; [lia | reflexivity]. }
    intros a rest. rewrite <- app_assoc. cbn [app]. rewrite Hval.
    cbn [digits_value].
    destruct (digit_char_facts (n mod 10) Hr) as (-> & _).
    f_equal. rewrite length_app. cbn [length].
    rewrite Nat2Z.inj_add, Z.pow_add_r by lia.
    change (10 ^ Z.of_nat 1) with 10.
    pose proof (Z.div_mod n 10 ltac:(lia)). lia.
Qed.

Lemma lstrip_no_space c s : is_space c = false -> lstrip (c :: s) = c :: s.
Proof. intros H. cbn [lstrip]. rewrite H. reflexivity. Qed.

Lemma decimal_digit_facts c :
  decimal_digit c ->
  is_space c = false /\ Ascii.eqb c "_" = false /\
  Ascii.eqb c "-" = false /\ Ascii.eqb c "+" = false.
Proof.
  intros (d & Hd & ->). destruct (digit_char_facts d Hd) as (_ & H). exact H.
Qed.

(** A text whose first and last characters are not blank is left as it is
    by the stripping of [int]. *)
Lemma strip_both_ends c s cl r :
  is_space c = false ->
  rev (c :: s) = cl :: r ->
  is_space cl = false ->
  rev (lstrip (rev (lstrip (c :: s)))) = c :: s.
Proof.
  intros Hc Hrev Hcl. rewrite (lstrip_no_space c s Hc), Hrev.
  rewrite (lstrip_no_space cl r Hcl), <- Hrev. apply rev_involutive.
Qed.

(** [int] reads back the digits [str] wrote. *)
Lemma py_int_of_digits ds n :
  ds <> [] ->
  Forall decimal_digit ds ->
  (forall a rest,
      digits_value a (ds ++ rest)
      = digits_value (a * 10 ^ Z.of_nat (length ds) + n) rest) ->
  py_int ds = Some n /\ py_int ("-"%char :: ds) = Some (- n).
Proof.
  intros Hne Hall Hval.
  assert (Hvalue : unsigned_value ds = Some n).
  { unfold unsigned_value. destruct ds as [|c ds']; [contradiction|].
    pose proof (Hval 0 []) as H. rewrite app_nil_r in H. rewrite H.
    cbn [digits_value]. f_equal; lia. }
  assert (Hlast : exists c r, rev ds = c :: r /\ decimal_digit c).
  { destruct (rev ds) as [|c r] eqn:Er.
    - apply (f_equal (@rev ascii)) in Er. rewrite rev_involutive in Er.
      contradiction.
    - exists c, r. split; [reflexivity|].
      assert (Hin : In c (rev ds)) by (rewrite Er; left; reflexivity).
      apply in_rev in Hin. rewrite Forall_forall in Hall.
      apply Hall. apply list_elem_of_In. exact Hin. }
  destruct Hlast as (cl & r & Hrev & Hcl).
  destruct (decimal_digit_facts cl Hcl) as (Hsp & _).
  destruct ds as [|c ds'] eqn:Eds; [contradiction|].
  assert (Hc : decimal_digit c) by (inversion Hall; assumption).
  destruct (decimal_digit_facts c Hc) as (Hcs & _ & Hcm & Hcp).
  split.
  - unfold py_int. rewrite (strip_both_ends c ds' cl r Hcs Hrev Hsp).
    rewrite Hcm, Hcp. exact Hvalue.
  - unfold py_int.
    rewrite (strip_both_ends "-"%char (c :: ds') cl (r ++ ["-"%char])
               eq_refl); [| |exact Hsp].
    + change (Ascii.eqb "-" "-") with true. cbv iota.
      rewrite Hvalue. reflexivity.
    + change (rev ("-"%char :: c :: ds')) with (rev (c :: ds') ++ ["-"%char]).
      rewrite Hrev. reflexivity.
Qed.

Lemma py_int_str_of_int n : py_int (str_of_int n) = Some n.
Proof.
  unfold str_of_int. destruct (Z.ltb_spec n 0) as [Hneg|Hpos].
  - destruct (digits_of_spec (S (Z.to_nat (- n))) (- n) [] ltac:(lia))
      as (ds & Hds & Hne & Hall & Hval).
    rewrite Hds, app_nil_r.
    destruct (py_int_of_digits ds (- n) Hne Hall Hval) as [_ H].
    rewrite H. f_equal. lia.
  - destruct (digits_of_spec (S (Z.to_nat n)) n [] ltac:(lia))
      as (ds & Hds & Hne & Hall & Hval).
    rewrite Hds, app_nil_r.
    apply (py_int_of_digits ds n Hne Hall Hval).
Qed.

Lemma str_of_int_no_underscore n :
  Forall (fun c => Ascii.eqb c "_" = false) (str_of_int n).
Proof.
  assert (Hds : forall ds, Forall decimal_digit ds ->
                           Forall (fun c => Ascii.eqb c "_" = false) ds).
  { intros ds H. eapply Forall_impl; [exact H|].
    intros c Hc. apply (decimal_digit_facts c Hc). }
  unfold str_of_int. destruct (Z.ltb_spec n 0) as [Hneg|Hpos].
  - destruct (digits_of_spec (S (Z.to_nat (- n))) (- n) [] ltac:(lia))
      as (ds & -> & _ & Hall & _).
    rewrite app_nil_r. constructor; [reflexivity | apply Hds, Hall].
  - destruct (digits_of_spec (S (Z.to_nat n)) n [] ltac:(lia))
      as (ds & -> & _ & Hall & _).
    rewrite app_nil_r. apply Hds, Hall.
Qed.

Lemma last_segment_from_plain cur t :
  Forall (fun c => Ascii.eqb c "_" = false) t ->
  last_segment_from cur t = cur ++ t.
Proof.
  intros H. revert cur. induction H as [|c t Hc _ IH]; intros cur.
  - cbn. rewrite app_nil_r. reflexivity.
  - cbn [last_segment_from]. rewrite Hc, IH, <- app_assoc. reflexivity.
Qed.

Lemma last_segment_from_underscore s t cur :
  last_segment_from cur (s ++ "_"%char :: t) = last_segment_from [] t.
Proof.
  revert cur. induction s as [|c s IH]; intros cur.
  - reflexivity.
  - cbn [app last_segment_from]. destruct (Ascii.eqb c "_"); apply IH.
Qed.

(** X19. The data a renderer puts on a button for an [int] id,
    [f"{prefix}_{id}"], are read back exactly by the handlers:
    [int(data.split("_")[-1])] is the id, for every id, negative ones
    included, and every prefix. So a press of the remove button of a card
    removes the content that card shows. *)
Theorem button_data_round_trip (prefix : string) (id : Z) :
  py_int (last_segment (Browse.button_data prefix id)) = Some id.
Proof.
  unfold last_segment, Browse.button_data.
  rewrite list_ascii_of_string_of_list_ascii.
  rewrite last_segment_from_underscore.
  rewrite last_segment_from_plain by apply str_of_int_no_underscore.
  apply py_int_str_of_int.
Qed.

End BotExtra.

(* ===================================================================== *)
(** * Properties of the other handlers                                    *)
(* ===================================================================== *)

Module BrowseProofs.
Import Py Bot Browse BotSpec ExtraSpec.
Import BotProofs.

Lemma via_world_keeps {A} (m : M A) s :
  c_state (fst (via_world m s)) = c_state s.
Proof.
  unfold via_world. destruct (m _) as [w r]. reflexivity.
Qed.

Lemma via_world_show_card h title_of year_of actions prev next chat item cp tp s :
  c_fsm (fst (via_world (show_card h title_of year_of actions prev next
                           chat item cp tp) s)) = c_fsm s /\
  c_db (fst (via_world (show_card h title_of year_of actions prev next
                          chat item cp tp) s)) = c_db s /\
  c_state (fst (via_world (show_card h title_of year_of actions prev next
                             chat item cp tp) s)) = c_state s.
Proof.
  unfold via_world.
  pose proof (show_card_keeps h title_of year_of actions prev next chat item
                cp tp {| fsm := c_fsm s; db := c_db s; sent := [] |}) as [H1 H2].
  destruct (show_card _ _ _ _ _ _ _ _ _ _ _) as [w r].
  cbn [fst fsm db c_fsm c_db c_state] in *. auto.
Qed.

Lemma take_ten_length {A} (l : list A) :
  l <> [] ->
  0 < Z.of_nat (length (take 10 l)) <= 10 /\
  Z.of_nat (length (take 10 l)) = Z.min 10 (Z.of_nat (length l)).
Proof.
  intros Hne. rewrite length_take.
  destruct l; [contradiction|]. cbn [length]. lia.
Qed.

(** The run of the body of the popular handlers on an answer whose
    [results] is a non-empty array. *)
Lemma show_popular_run failed ct env cb s chat data first rest :
  cb_message cb = Some chat ->
  snd (Fetcher.make_api_request 3 1 env) = Ok data ->
  found_results data = JArr (first :: rest) ->
  show_popular failed ct env cb s
  = via_world
      (show_popular_content chat first (VStr ct) 0
         (Z.of_nat (length (take 10 (first :: rest)))))
      {| c_state := c_state s;
         c_fsm := <[k_content_type := VStr ct]>
                    (<[k_total_pages :=
                         VInt (Z.of_nat (length (take 10 (first :: rest))))]>
                       (<[k_current_page := VInt 0]>
                          (<[k_popular_results :=
                               VList (take 10 (first :: rest))]> (c_fsm s))));
         c_db := c_db s; c_sent := c_sent s |}.
Proof.
  intros Hm Hfetch Hfound. unfold show_popular. rewrite Hm.
  unfold cbind at 1. unfold fetch. rewrite Hfetch, Hfound.
  cbn [truthy negb first_ten]. reflexivity.
Qed.

Lemma popular_opened failed ct env cb s chat data first rest :
  cb_message cb = Some chat ->
  snd (Fetcher.make_api_request 3 1 env) = Ok data ->
  found_results data = JArr (first :: rest) ->
  let out := show_popular failed ct env cb s in
  let shown := take 10 (first :: rest) in
  let n := Z.of_nat (length shown) in
  in_session Popular shown 0 (world_of (fst out)) /\
  c_fsm (fst out) !! k_total_pages = Some (VInt n) /\
  c_fsm (fst out) !! k_content_type = Some (VStr ct) /\
  (0 < n <= 10 /\ n = Z.min 10 (Z.of_nat (length (first :: rest)))) /\
  (forall k, ~ In k popular_keys -> c_fsm (fst out) !! k = c_fsm s !! k) /\
  c_db (fst out) = c_db s /\
  c_state (fst out) = c_state s /\
  (forall o y, first = JObj o -> renderable first = true ->
               release_year o = Ok y ->
     snd out = Ok tt /\
     exists card keyboard photo,
       c_sent (fst out)
       = c_sent s ++ [FromHandlers (SendCard chat card keyboard photo)] /\
       card_heading card = Top (VStr ct) /\
       card_index card = 1 /\ card_total card = n /\
       card_title card = display_title o /\ card_year card = y) /\
  (unshowable first = true -> c_sent (fst out) = c_sent s).
Proof.
  intros Hm Hfetch Hfound out shown n. subst out.
  rewrite (show_popular_run failed ct env cb s chat data first rest
             Hm Hfetch Hfound).
  fold shown. fold n. unfold show_popular_content.
  match goal with
  | |- context [via_world (show_card ?h ?t ?y ?a ?p ?nx ?c ?i ?cp ?tp) ?s0] =>
      destruct (via_world_show_card h t y a p nx c i cp tp s0)
        as (Hfsm & Hdb & Hst)
  end.
  cbn [c_fsm c_db c_state] in Hfsm, Hdb, Hst.
  split; [|split; [|split; [|split; [|split; [|split; [|split; [|split]]]]]]].
  - split; cbn [world_of fsm list_key]; rewrite Hfsm.
    + rewrite !lookup_insert_ne by discriminate. apply lookup_insert_eq.
    + rewrite !lookup_insert_ne by discriminate. apply lookup_insert_eq.
  - rewrite Hfsm. rewrite !lookup_insert_ne by discriminate.
    apply lookup_insert_eq.
  - rewrite Hfsm. apply lookup_insert_eq.
  - subst n shown. apply take_ten_length. discriminate.
  - intros k Hk. rewrite Hfsm. unfold popular_keys in Hk. cbn [In] in Hk.
    rewrite !lookup_insert_ne by tauto. reflexivity.
  - exact Hdb.
  - exact Hst.
  - intros o y -> Hid Hy. unfold via_world.
    rewrite (BotExtra.show_card_run _ _ _ _ _ _ _ _ _ _ _ y Hid Hy).
    cbn [fst snd sent c_sent map app]. split; [reflexivity|].
    do 3 eexists. split; [reflexivity|]. repeat split.
  - intros Hun. unfold via_world. destruct (renderable first) eqn:Hid.
    + destruct first; try discriminate Hid.
      cbn [unshowable] in Hun. rewrite Hid in Hun. cbn [negb orb] in Hun.
      apply negb_true_iff in Hun.
      rewrite (BotExtra.show_card_raises _ _ _ _ _ _ _ _ _ _ _ TypeError Hid
                 (BotExtra.release_year_unsliceable o Hun)).
      cbn [fst sent c_sent map]. apply app_nil_r.
    + rewrite (BotExtra.show_card_skips _ _ _ _ _ _ _ _ _ _ _ Hid).
      cbn [fst sent c_sent map]. apply app_nil_r.
Qed.

(** X20. Opening a popular list: when the provider answers with a dict
    whose [results] is a non-empty array, [show_popular_movies] and
    [show_popular_tv] store its first ten entries at most, in order, with
    cursor 0, the number of stored entries as page count and the content
    type ("movie", "tv"); the FSM data under every other key, the lists of
    the other views among them, stay as they were, and so do the store and
    the FSM state. The first entry is shown as card 1 of [n], or nothing is
    sent when it cannot be shown. *)
Theorem popular_list_opens
    (env : Fetcher.provider) (cb : callback) (s : conversation) (chat : Z)
    (data first : json) (rest : list json) :
  cb_message cb = Some chat ->
  snd (Fetcher.make_api_request 3 1 env) = Ok data ->
  found_results data = JArr (first :: rest) ->
  let shown := take 10 (first :: rest) in
  let n := Z.of_nat (length shown) in
  let opened (ct : pystr) (out : conversation * result unit) :=
    in_session Popular shown 0 (world_of (fst out)) /\
    c_fsm (fst out) !! k_total_pages = Some (VInt n) /\
    c_fsm (fst out) !! k_content_type = Some (VStr ct) /\
    (0 < n <= 10 /\ n = Z.min 10 (Z.of_nat (length (first :: rest)))) /\
    (forall k, ~ In k popular_keys -> c_fsm (fst out) !! k = c_fsm s !! k) /\
    c_db (fst out) = c_db s /\
    c_state (fst out) = c_state s /\
    (forall o y, first = JObj o -> renderable first = true ->
                 release_year o = Ok y ->
       snd out = Ok tt /\
       exists card keyboard photo,
         c_sent (fst out)
         = c_sent s ++ [FromHandlers (SendCard chat card keyboard photo)] /\
         card_heading card = Top (VStr ct) /\
         card_index card = 1 /\ card_total card = n /\
         card_title card = display_title o /\ card_year card = y) /\
    (unshowable first = true -> c_sent (fst out) = c_sent s) in
  opened (lit "movie") (show_popular_movies env cb s) /\
  opened (lit "tv") (show_popular_tv env cb s).
Proof.
  intros Hm Hfetch Hfound shown n opened. split.
  - apply (popular_opened PopularMoviesFailed (lit "movie") env cb s chat
             data first rest Hm Hfetch Hfound).
  - apply (popular_opened PopularTvFailed (lit "tv") env cb s chat
             data first rest Hm Hfetch Hfound).
Qed.

Lemma popular_list_opens_witness :
  let s := fresh in
  let first := entry 603 "movie" in
  let rest := [entry 6384 "person"; entry 1399 "tv"] in
  let shown := take 10 (first :: rest) in
  let n := Z.of_nat (length shown) in
  let opened (ct : pystr) (out : conversation * result unit) :=
    in_session Popular shown 0 (world_of (fst out)) /\
    c_fsm (fst out) !! k_total_pages = Some (VInt n) /\
    c_fsm (fst out) !! k_content_type = Some (VStr ct) /\
    (0 < n <= 10 /\ n = Z.min 10 (Z.of_nat (length (first :: rest)))) /\
    (forall k, ~ In k popular_keys -> c_fsm (fst out) !! k = c_fsm s !! k) /\
    c_db (fst out) = c_db s /\
    c_state (fst out) = c_state s /\
    (forall o y, first = JObj o -> renderable first = true ->
                 release_year o = Ok y ->
       snd out = Ok tt /\
       exists card keyboard photo,
         c_sent (fst out)
         = c_sent s ++ [FromHandlers (SendCard 1 card keyboard photo)] /\
         card_heading card = Top (VStr ct) /\
         card_index card = 1 /\ card_total card = n /\
         card_title card = display_title o /\ card_year card = y) /\
    (unshowable first = true -> c_sent (fst out) = c_sent s) in
  opened (lit "movie")
    (show_popular_movies mixed_answer (press "popular_movies") s) /\
  opened (lit "tv") (show_popular_tv mixed_answer (press "popular_tv") s).
Proof.
  intros s first rest.
  split.
  - apply (proj1 (popular_list_opens mixed_answer (press "popular_movies")
                    s 1 mixed_body first rest eq_refl eq_refl eq_refl)).
  - apply (proj2 (popular_list_opens mixed_answer (press "popular_tv")
                    s 1 mixed_body first rest eq_refl eq_refl eq_refl)).
Defined.

Lemma presses_keep_session v items cbs :
  Forall (nav_press v) cbs ->
  forall c w,
    in_session v items c w ->
    0 <= c < Z.of_nat (length items) ->
    exists c', in_session v items c' (run_presses cbs w) /\
               0 <= c' < Z.of_nat (length items).
Proof.
  induction 1 as [|cb cbs Hcb _ IH]; intros c w Hs Hrange.
  - exists c. split; assumption.
  - cbn [run_presses].
    destruct (nav_press_keeps_session v items c w cb Hs Hrange Hcb)
      as (c1 & Hs1 & Hr1).
    exact (IH c1 _ Hs1 Hr1).
Qed.

(** X21. Browsing a popular list stays inside it: after
    [show_popular_movies] or [show_popular_tv] has opened a list on a
    non-empty answer, any sequence of presses of the popular "previous" and
    "next" buttons leaves the stored list as it is, the first ten entries of
    the answer at most, and the cursor an index of it. *)
Theorem popular_browsing_stays_in_range
    (env : Fetcher.provider) (cb : callback) (s : conversation) (chat : Z)
    (data first : json) (rest : list json) (cbs : list callback) :
  cb_message cb = Some chat ->
  snd (Fetcher.make_api_request 3 1 env) = Ok data ->
  found_results data = JArr (first :: rest) ->
  Forall (nav_press Popular) cbs ->
  let shown := take 10 (first :: rest) in
  let bound := Z.min 10 (Z.of_nat (length (first :: rest))) in
  (exists c, in_session Popular shown c
               (run_presses cbs
                  (world_of (fst (show_popular_movies env cb s)))) /\
             0 <= c < bound) /\
  (exists c, in_session Popular shown c
               (run_presses cbs
                  (world_of (fst (show_popular_tv env cb s)))) /\
             0 <= c < bound).
Proof.
  intros Hm Hfetch Hfound Hcbs shown bound.
  assert (Hany : forall failed ct,
             exists c, in_session Popular shown c
                         (run_presses cbs
                            (world_of (fst (show_popular failed ct env cb s)))) /\
                       0 <= c < bound).
  { intros failed ct.
    destruct (popular_opened failed ct env cb s chat data first rest
                Hm Hfetch Hfound) as (Hs & _ & _ & (Hn & Hmin) & _).
    fold shown in Hs, Hn, Hmin.
    destruct (presses_keep_session Popular shown cbs Hcbs 0 _ Hs
                ltac:(lia)) as (c & Hc & Hr).
    exists c. split; [exact Hc|]. subst bound. lia. }
  split; apply Hany.
Qed.

Lemma popular_browsing_stays_in_range_witness :
  let cbs := [press "next_popular"; press "next_popular";
              press "next_popular"; press "prev_popular"] in
  let shown := take 10 mixed_entries in
  let bound := Z.min 10 (Z.of_nat (length mixed_entries)) in
  (exists c, in_session Popular shown c
               (run_presses cbs
                  (world_of (fst (show_popular_movies mixed_answer
                                    (press "popular_movies") fresh)))) /\
             0 <= c < bound) /\
  (exists c, in_session Popular shown c
               (run_presses cbs
                  (world_of (fst (show_popular_tv mixed_answer
                                    (press "popular_tv") fresh)))) /\
             0 <= c < bound).
Proof.
  intros cbs.
  assert (Hcbs : Forall (nav_press Popular) cbs).
  { repeat (constructor; [(left; reflexivity) || (right; reflexivity)|]).
    constructor. }
  split.
  - apply (proj1 (popular_browsing_stays_in_range mixed_answer
                    (press "popular_movies") fresh 1 mixed_body
                    (entry 603 "movie")
                    [entry 6384 "person"; entry 1399 "tv"] cbs
                    eq_refl eq_refl eq_refl Hcbs)).
  - apply (proj2 (popular_browsing_stays_in_range mixed_answer
                    (press "popular_tv") fresh 1 mixed_body
                    (entry 603 "movie")
                    [entry 6384 "person"; entry 1399 "tv"] cbs
                    eq_refl eq_refl eq_refl Hcbs)).
Defined.

(** A press of a navigation button on empty FSM data does nothing. *)
Lemma dispatch_on_empty cb w :
  fsm w = ∅ -> dispatch_navigation cb w = (w, Ok tt).
Proof.
  intros Hempty.
  assert (Hview : forall v, nav_press v cb -> dispatch_navigation cb w = (w, Ok tt)).
  { intros v Hpress.
    assert (Hc : data_get (fsm w) k_current_page (VInt 0) = VInt 0)
      by (rewrite Hempty; reflexivity).
    assert (Hl : data_get (fsm w) (list_key v) (VList []) = VList [])
      by (rewrite Hempty; reflexivity).
    destruct (cb_message cb) as [chat|] eqn:Hm.
    - destruct Hpress as [Hd|Hd].
      + rewrite (dispatch_prev v cb Hd).
        rewrite (handle_navigation_prev v cb chat w 0 Hm Hd Hc). reflexivity.
      + rewrite (dispatch_next v cb Hd).
        rewrite (handle_navigation_next v cb chat w 0 [] Hm Hd Hc Hl).
        reflexivity.
    - destruct Hpress as [Hd|Hd];
        [rewrite (dispatch_prev v cb Hd) | rewrite (dispatch_next v cb Hd)];
        apply handle_navigation_no_message; exact Hm. }
  destruct (String.eqb_spec (cb_data cb) "prev_page") as [E|N1];
    [apply (Hview Search); left; exact E|].
  destruct (String.eqb_spec (cb_data cb) "next_page") as [E|N2];
    [apply (Hview Search); right; exact E|].
  destruct (String.eqb_spec (cb_data cb) "prev_popular") as [E|N3];
    [apply (Hview Popular); left; exact E|].
  destruct (String.eqb_spec (cb_data cb) "next_popular") as [E|N4];
    [apply (Hview Popular); right; exact E|].
  destruct (String.eqb_spec (cb_data cb) "prev_similar") as [E|N5];
    [apply (Hview Similar); left; exact E|].
  destruct (String.eqb_spec (cb_data cb) "next_similar") as [E|N6];
    [apply (Hview Similar); right; exact E|].
  destruct (String.eqb_spec (cb_data cb) "prev_favorite") as [E|N7];
    [apply (Hview Favorites); left; exact E|].
  destruct (String.eqb_spec (cb_data cb) "next_favorite") as [E|N8];
    [apply (Hview Favorites); right; exact E|].
  unfold dispatch_navigation.
  apply String.eqb_neq in N1, N2, N3, N4, N5, N6, N7, N8.
  rewrite N1, N2, N3, N4, N5, N6, N7, N8. reflexivity.
Qed.

(** X22. Going back to the main menu ends the session: [back_to_main]
    clears the FSM state and all FSM data, sends the menu and leaves the
    store alone; whatever was being browsed, every press of a navigation
    button that arrives afterwards (from a card still on screen) does
    nothing at all. *)
Theorem back_to_main_ends_the_session
    (cb : callback) (s : conversation) (chat : Z) (cbs : list callback) :
  cb_message cb = Some chat ->
  let out := back_to_main cb s in
  snd out = Ok tt /\
  c_state (fst out) = None /\
  c_fsm (fst out) = ∅ /\
  c_db (fst out) = c_db s /\
  c_sent (fst out) = c_sent s ++ [SendText chat ChooseAction main_menu] /\
  run_presses cbs (world_of (fst out)) = world_of (fst out) /\
  (forall late, dispatch_navigation late (world_of (fst out))
                = (world_of (fst out), Ok tt)).
Proof.
  intros Hm out. subst out. unfold back_to_main. rewrite Hm.
  cbn [cbind clear send_text fst snd c_state c_fsm c_db c_sent].
  repeat (split; [reflexivity|]). split.
  - induction cbs as [|late cbs IH]; [reflexivity|].
    cbn [run_presses]. rewrite dispatch_on_empty by reflexivity.
    exact IH.
  - intros late. apply dispatch_on_empty. reflexivity.
Qed.

Lemma back_to_main_ends_the_session_witness :
  let s := fst (show_popular_movies mixed_answer (press "popular_movies")
                  fresh) in
  let cbs := [press "next_popular"; press "prev_page"] in
  let out := back_to_main (press "back_to_main") s in
  snd out = Ok tt /\
  c_state (fst out) = None /\
  c_fsm (fst out) = ∅ /\
  c_db (fst out) = c_db s /\
  c_sent (fst out) = c_sent s ++ [SendText 1 ChooseAction main_menu] /\
  run_presses cbs (world_of (fst out)) = world_of (fst out) /\
  (forall late, dispatch_navigation late (world_of (fst out))
                = (world_of (fst out), Ok tt)).
Proof.
  intros s cbs.
  apply (back_to_main_ends_the_session (press "back_to_main") s 1 cbs).
  reflexivity.
Defined.

Lemma fetch_without_success env :
  (forall j, (j < 3)%nat -> ExtraSpec.succeeds (env j) = None) ->
  snd (Fetcher.make_api_request 3 1 env) = Raise (APIError MaxRetriesExceeded).
Proof.
  intros Hnone. unfold Fetcher.make_api_request.
  apply (FetcherExtra.attempts_without_success 3 1 env 3 0).
  intros j Hj. apply Hnone. lia.
Qed.

(** X23. When none of the three attempts of the fetch succeeds, every
    handler that fetches ends in [APIError("Max retries exceeded")] with
    the conversation exactly as it was: neither the notice that nothing was
    found nor any of the "try again later" notices is sent, nothing is
    stored, and the press is not answered. This holds for each handler on
    its own event: a press with a message for the two popular lists, a
    press with a message whose data ends in a number for the similar list
    and for the adding of a favorite, a message with a text for the
    search. *)
Theorem fetch_failure_escapes_the_handlers
    (env : Fetcher.provider) (s : conversation) :
  (forall j, (j < 3)%nat -> succeeds (env j) = None) ->
  (forall cb chat, cb_message cb = Some chat ->
     show_popular_movies env cb s
     = (s, Raise (APIError MaxRetriesExceeded))) /\
  (forall cb chat, cb_message cb = Some chat ->
     show_popular_tv env cb s = (s, Raise (APIError MaxRetriesExceeded))) /\
  (forall cb chat mid,
     cb_message cb = Some chat ->
     py_int (last_segment (cb_data cb)) = Some mid ->
     show_similar_movies env cb s
     = (s, Raise (APIError MaxRetriesExceeded))) /\
  (forall sqlite_text f cb chat mid,
     cb_message cb = Some chat ->
     py_int (last_segment (cb_data cb)) = Some mid ->
     add_to_favorites sqlite_text f env cb s
     = (s, Raise (APIError MaxRetriesExceeded))) /\
  (forall msg text w,
     msg_text msg = Some text ->
     text <> ""%string ->
     process_search_query env msg w
     = (w, Raise (APIError MaxRetriesExceeded))).
Proof.
  intros Hnone.
  pose proof (fetch_without_success env Hnone) as Hfetch.
  assert (Hdata : forall cb mid,
             py_int (last_segment (cb_data cb)) = Some mid ->
             cb_data cb <> ""%string).
  { intros cb mid Hparse E. rewrite E in Hparse. discriminate Hparse. }
  split; [|split; [|split; [|split]]].
  - intros cb chat Hm. unfold show_popular_movies, show_popular. rewrite Hm.
    unfold cbind, fetch. rewrite Hfetch. reflexivity.
  - intros cb chat Hm. unfold show_popular_tv, show_popular. rewrite Hm.
    unfold cbind, fetch. rewrite Hfetch. reflexivity.
  - intros cb chat mid Hm Hparse. unfold show_similar_movies. rewrite Hm.
    destruct (String.eqb_spec (cb_data cb) "");
      [exfalso; exact (Hdata cb mid Hparse ltac:(assumption))|].
    rewrite Hparse. unfold cbind, fetch. rewrite Hfetch. reflexivity.
  - intros sqlite_text f cb chat mid Hm Hparse. unfold add_to_favorites.
    rewrite Hm.
    destruct (String.eqb_spec (cb_data cb) "");
      [exfalso; exact (Hdata cb mid Hparse ltac:(assumption))|].
    rewrite Hparse. unfold cbind, fetch. rewrite Hfetch. reflexivity.
  - intros msg text w Htext Hne. unfold process_search_query. rewrite Htext.
    destruct (String.eqb_spec text ""); [contradiction|].
    unfold bind, lift. rewrite Hfetch. reflexivity.
Qed.

Lemma fetch_failure_escapes_the_handlers_witness :
  let env : Fetcher.provider := fun _ => Fetcher.ConnectionFault in
  let msg := {| msg_chat := 1; msg_text := Some "matrix"%string |} in
  let none : json -> option (option pystr) := fun _ => None in
  show_popular_movies env (press "popular_movies") fresh
    = (fresh, Raise (APIError MaxRetriesExceeded)) /\
  show_popular_tv env (press "popular_tv") fresh
    = (fresh, Raise (APIError MaxRetriesExceeded)) /\
  show_similar_movies env (press "similar_603") fresh
    = (fresh, Raise (APIError MaxRetriesExceeded)) /\
  add_to_favorites none no_faults env (press "add_favorite_603") fresh
    = (fresh, Raise (APIError MaxRetriesExceeded)) /\
  process_search_query env msg blank
    = (blank, Raise (APIError MaxRetriesExceeded)).
Proof.
  intros env msg none.
  destruct (fetch_failure_escapes_the_handlers env fresh
              ltac:(intros j _; reflexivity))
    as (Hmovies & Htv & Hsimilar & Hadd & Hsearch).
  split; [|split; [|split; [|split]]].
  - exact (Hmovies (press "popular_movies") 1 eq_refl).
  - exact (Htv (press "popular_tv") 1 eq_refl).
  - exact (Hsimilar (press "similar_603") 1 603 eq_refl eq_refl).
  - exact (Hadd none no_faults (press "add_favorite_603") 1 603
             eq_refl eq_refl).
  - apply (Hsearch msg "matrix"%string blank eq_refl). discriminate.
Defined.

Lemma show_similar_run env cb s chat mid data first rest :
  cb_message cb = Some chat ->
  py_int (last_segment (cb_data cb)) = Some mid ->
  snd (Fetcher.make_api_request 3 1 env) = Ok data ->
  found_results data = JArr (first :: rest) ->
  show_similar_movies env cb s
  = via_world
      (show_similar_content chat first 0
         (Z.of_nat (length (take 10 (first :: rest)))))
      {| c_state := c_state s;
         c_fsm := <[k_total_pages :=
                      VInt (Z.of_nat (length (take 10 (first :: rest))))]>
                    (<[k_current_page := VInt 0]>
                       (<[k_similar_results :=
                            VList (take 10 (first :: rest))]> (c_fsm s)));
         c_db := c_db s; c_sent := c_sent s |}.
Proof.
  intros Hm Hparse Hfetch Hfound. unfold show_similar_movies. rewrite Hm.
  destruct (String.eqb_spec (cb_data cb) "") as [E|_].
  { rewrite E in Hparse. discriminate Hparse. }
  rewrite Hparse. unfold cbind at 1. unfold fetch. rewrite Hfetch, Hfound.
  cbn [truthy negb first_ten]. reflexivity.
Qed.

(** X24. Opening a similar list: on an answer whose [results] is a
    non-empty array, [show_similar_movies] stores its first ten entries at
    most with cursor 0 and the number of stored entries as page count, and
    shows the first entry as card 1 of [n]; it writes no content type, so
    the one of the view browsed before stays, as does everything under the
    other keys. The list cannot be paged: when it has more than one entry, a
    press of its "next" button stores cursor 1 and ends in [TypeError]
    without sending anything. *)
Theorem similar_list_opens
    (env : Fetcher.provider) (cb late : callback) (s : conversation)
    (chat mid : Z) (data first : json) (rest : list json) :
  cb_message cb = Some chat ->
  py_int (last_segment (cb_data cb)) = Some mid ->
  snd (Fetcher.make_api_request 3 1 env) = Ok data ->
  found_results data = JArr (first :: rest) ->
  cb_message late = Some chat ->
  cb_data late = "next_similar"%string ->
  let out := show_similar_movies env cb s in
  let shown := take 10 (first :: rest) in
  let n := Z.of_nat (length shown) in
  in_session Similar shown 0 (world_of (fst out)) /\
  c_fsm (fst out) !! k_total_pages = Some (VInt n) /\
  (0 < n <= 10 /\ n = Z.min 10 (Z.of_nat (length (first :: rest)))) /\
  (forall k, ~ In k similar_keys -> c_fsm (fst out) !! k = c_fsm s !! k) /\
  c_db (fst out) = c_db s /\
  c_state (fst out) = c_state s /\
  (forall o y, first = JObj o -> renderable first = true ->
               release_year_similar o = Ok y ->
     snd out = Ok tt /\
     exists card keyboard photo,
       c_sent (fst out)
       = c_sent s ++ [FromHandlers (SendCard chat card keyboard photo)] /\
       card_heading card = SimilarMovies /\
       card_index card = 1 /\ card_total card = n /\ card_year card = y) /\
  (1 < n ->
   snd (dispatch_navigation late (world_of (fst out))) = Raise TypeError /\
   in_session Similar shown 1
     (fst (dispatch_navigation late (world_of (fst out)))) /\
   sent (fst (dispatch_navigation late (world_of (fst out)))) = []).
Proof.
  intros Hm Hparse Hfetch Hfound Hlm Hld out shown n. subst out.
  rewrite (show_similar_run env cb s chat mid data first rest
             Hm Hparse Hfetch Hfound).
  fold shown. fold n. unfold show_similar_content.
  match goal with
  | |- context [via_world (show_card ?h ?t ?y ?a ?p ?nx ?c ?i ?cp ?tp) ?s0] =>
      destruct (via_world_show_card h t y a p nx c i cp tp s0)
        as (Hfsm & Hdb & Hst)
  end.
  cbn [c_fsm c_db c_state] in Hfsm, Hdb, Hst.
  assert (Hsession : in_session Similar shown 0
            (world_of (fst (via_world
               (show_card SimilarMovies
                  (fun o => obj_get o (lit "title") (JStr no_title))
                  release_year_similar
                  (fun id => [[AddFavoriteButton id]])
                  "prev_similar" "next_similar" chat first 0 n)
               {| c_state := c_state s;
                  c_fsm := <[k_total_pages := VInt n]>
                             (<[k_current_page := VInt 0]>
                                (<[k_similar_results := VList shown]> (c_fsm s)));
                  c_db := c_db s; c_sent := c_sent s |})))).
  { split; cbn [world_of fsm list_key]; rewrite Hfsm.
    + rewrite !lookup_insert_ne by discriminate. apply lookup_insert_eq.
    + rewrite !lookup_insert_ne by discriminate. apply lookup_insert_eq. }
  assert (Hn : 0 < n <= 10 /\ n = Z.min 10 (Z.of_nat (length (first :: rest))))
    by (subst n shown; apply take_ten_length; discriminate).
  split; [exact Hsession|].
  split; [rewrite Hfsm; apply lookup_insert_eq|].
  split; [exact Hn|].
  split.
  { intros k Hk. rewrite Hfsm. unfold similar_keys in Hk. cbn [In] in Hk.
    rewrite !lookup_insert_ne by tauto. reflexivity. }
  split; [exact Hdb|]. split; [exact Hst|]. split.
  - intros o y -> Hid Hy. unfold via_world.
    rewrite (BotExtra.show_card_run _ _ _ _ _ _ _ _ _ _ _ y Hid Hy).
    cbn [fst snd sent c_sent map app]. split; [reflexivity|].
    do 3 eexists. split; [reflexivity|]. repeat split.
  - intros Hmany.
    match goal with
    | |- context [dispatch_navigation late ?w0] =>
        destruct (BotExtra.dispatch_moving Similar late chat w0 shown 0 1
                    Hsession ltac:(fold n; lia) Hlm
                    ltac:(right; fold n; repeat split; [exact Hld | lia]))
          as (_ & item & _ & Hrun)
    end.
    rewrite Hrun. cbn [renderer call_show raise fst snd sent].
    split; [reflexivity|]. split; [|reflexivity].
    apply BotExtra.in_session_moved. apply Hsession.
Qed.

Lemma similar_list_opens_witness :
  let s := fresh in
  let late := press "next_similar" in
  let first := entry 603 "movie" in
  let rest := [entry 6384 "person"; entry 1399 "tv"] in
  let out := show_similar_movies mixed_answer (press "similar_603") s in
  let shown := take 10 (first :: rest) in
  let n := Z.of_nat (length shown) in
  in_session Similar shown 0 (world_of (fst out)) /\
  c_fsm (fst out) !! k_total_pages = Some (VInt n) /\
  (0 < n <= 10 /\ n = Z.min 10 (Z.of_nat (length (first :: rest)))) /\
  (forall k, ~ In k similar_keys -> c_fsm (fst out) !! k = c_fsm s !! k) /\
  c_db (fst out) = c_db s /\
  c_state (fst out) = c_state s /\
  (forall o y, first = JObj o -> renderable first = true ->
               release_year_similar o = Ok y ->
     snd out = Ok tt /\
     exists card keyboard photo,
       c_sent (fst out)
       = c_sent s ++ [FromHandlers (SendCard 1 card keyboard photo)] /\
       card_heading card = SimilarMovies /\
       card_index card = 1 /\ card_total card = n /\ card_year card = y) /\
  (1 < n ->
   snd (dispatch_navigation late (world_of (fst out))) = Raise TypeError /\
   in_session Similar shown 1
     (fst (dispatch_navigation late (world_of (fst out)))) /\
   sent (fst (dispatch_navigation late (world_of (fst out)))) = []).
Proof.
  intros s late first rest.
  apply (similar_list_opens mixed_answer (press "similar_603") late s 1 603
           mixed_body first rest); reflexivity.
Defined.

(** ** Adding a favorite *)

Section AddingProofs.
Variable sqlite_text : json -> option (option pystr).

(** One press of an "add to favorites" button, when the detail answer is a
    non-empty dict and its title and poster can be bound. *)
Lemma add_to_favorites_run f env cb s chat mid o t p :
  cb_message cb = Some chat ->
  py_int (last_segment (cb_data cb)) = Some mid ->
  snd (Fetcher.make_api_request 3 1 env) = Ok (JObj o) ->
  o <> [] ->
  sqlite_text (obj_get o (lit "title") (JStr unknown_film)) = Some (Some t) ->
  sqlite_text (obj_get o (lit "poster_path") (JStr [])) = Some p ->
  add_to_favorites sqlite_text f env cb s
  = match add_favorite f (c_db s) (cb_from_user cb) mid t p with
    | (d, Ok added) =>
        ({| c_state := c_state s; c_fsm := c_fsm s; c_db := d;
            c_sent := c_sent s ++
                      [AnswerToast (if added then AddedToFavorites
                                    else AlreadyInFavorites)] |}, Ok tt)
    | (d, Raise e) =>
        ({| c_state := c_state s; c_fsm := c_fsm s; c_db := d;
            c_sent := c_sent s |}, Raise e)
    end.
Proof.
  intros Hm Hparse Hfetch Hne Ht Hp. unfold add_to_favorites. rewrite Hm.
  destruct (String.eqb_spec (cb_data cb) "") as [E|_].
  { rewrite E in Hparse. discriminate Hparse. }
  rewrite Hparse. unfold cbind at 1. unfold fetch. rewrite Hfetch.
  destruct o as [|kv o']; [contradiction|].
  unfold cbind, via_world, db_step, add_favorite_values.
  cbn [db fsm sent]. rewrite Ht, Hp.
  destruct (add_favorite f (c_db s) (cb_from_user cb) mid t p) as [d [[|]|e]];
    cbn [map]; rewrite ?app_nil_r; reflexivity.
Qed.

(** X25. Adding is not guarded against duplicates: two presses of the
    "add to favorites" button of the same content, with the store working,
    are both answered "added", and the store then lists two more rows for
    the user, both with that content, after the rows it had. The FSM data
    are not touched, so a favorites session that is open does not show
    them. *)
Theorem adding_twice_stores_twice
    (env : Fetcher.provider) (cb : callback) (s : conversation)
    (chat mid : Z) (o : list (pystr * json)) (t : pystr) (p : option pystr) :
  cb_message cb = Some chat ->
  py_int (last_segment (cb_data cb)) = Some mid ->
  snd (Fetcher.make_api_request 3 1 env) = Ok (JObj o) ->
  o <> [] ->
  sqlite_text (obj_get o (lit "title") (JStr unknown_film)) = Some (Some t) ->
  sqlite_text (obj_get o (lit "poster_path") (JStr [])) = Some p ->
  let once := add_to_favorites sqlite_text no_faults env cb s in
  let twice := add_to_favorites sqlite_text no_faults env cb (fst once) in
  snd once = Ok tt /\ snd twice = Ok tt /\
  c_sent (fst twice)
    = c_sent s ++ [AnswerToast AddedToFavorites; AnswerToast AddedToFavorites] /\
  get_favorites no_faults (c_db (fst twice)) (cb_from_user cb)
    = Ok (select_rows (c_db s) (cb_from_user cb) ++
          [{| row_id := last_id (c_db s) + 1; user_id := cb_from_user cb;
              movie_id := mid; title := t; poster_path := p |};
           {| row_id := last_id (c_db s) + 2; user_id := cb_from_user cb;
              movie_id := mid; title := t; poster_path := p |}]) /\
  c_fsm (fst twice) = c_fsm s.
Proof.
  intros Hm Hparse Hfetch Hne Ht Hp once twice.
  assert (Honce : once
            = ({| c_state := c_state s; c_fsm := c_fsm s;
                  c_db := insert_row (c_db s) (cb_from_user cb) mid t p;
                  c_sent := c_sent s ++ [AnswerToast AddedToFavorites] |},
               Ok tt)).
  { subst once.
    rewrite (add_to_favorites_run no_faults env cb s chat mid o t p
               Hm Hparse Hfetch Hne Ht Hp). reflexivity. }
  assert (Htwice : twice
            = ({| c_state := c_state s; c_fsm := c_fsm s;
                  c_db := insert_row
                            (insert_row (c_db s) (cb_from_user cb) mid t p)
                            (cb_from_user cb) mid t p;
                  c_sent := (c_sent s ++ [AnswerToast AddedToFavorites])
                            ++ [AnswerToast AddedToFavorites] |},
               Ok tt)).
  { subst twice. rewrite Honce. cbn [fst].
    rewrite (add_to_favorites_run no_faults env cb _ chat mid o t p
               Hm Hparse Hfetch Hne Ht Hp). reflexivity. }
  rewrite Honce, Htwice. cbn [fst snd c_sent c_db c_fsm].
  split; [reflexivity|]. split; [reflexivity|].
  split; [rewrite <- app_assoc; reflexivity|].
  split; [|reflexivity].
  change (get_favorites no_faults ?x ?y) with (Ok (select_rows x y)).
  rewrite !DatabaseProofs.select_insert_row, Z.eqb_refl, <- app_assoc.
  cbn [insert_row last_id app]. do 5 f_equal. lia.
Qed.

(** X26. The answer "already in favorites" reports a failed insert, not a
    duplicate: whenever the statement or the commit meets a fault, or a
    value of the detail answer cannot be stored (a title that is [null] or
    of a type sqlite3 refuses, such a poster), the handle being opened and
    released, the press is answered with that text and the store and the
    FSM data stay as they were. *)
Theorem already_in_favorites_means_failure
    (f : faults) (env : Fetcher.provider) (cb : callback) (s : conversation)
    (chat mid : Z) (o : list (pystr * json)) :
  cb_message cb = Some chat ->
  py_int (last_segment (cb_data cb)) = Some mid ->
  snd (Fetcher.make_api_request 3 1 env) = Ok (JObj o) ->
  o <> [] ->
  connect_fails f = false ->
  close_fails f = false ->
  execute_fails f = true \/ commit_fails f = true \/
  sqlite_text (obj_get o (lit "title") (JStr unknown_film)) = None \/
  sqlite_text (obj_get o (lit "title") (JStr unknown_film)) = Some None \/
  sqlite_text (obj_get o (lit "poster_path") (JStr [])) = None ->
  add_to_favorites sqlite_text f env cb s
  = ({| c_state := c_state s; c_fsm := c_fsm s; c_db := c_db s;
        c_sent := c_sent s ++ [AnswerToast AlreadyInFavorites] |}, Ok tt).
Proof.
  intros Hm Hparse Hfetch Hne Hconn Hclose Hfault.
  unfold add_to_favorites. rewrite Hm.
  destruct (String.eqb_spec (cb_data cb) "") as [E|_].
  { rewrite E in Hparse. discriminate Hparse. }
  rewrite Hparse. unfold cbind at 1. unfold fetch. rewrite Hfetch.
  destruct o as [|kv o']; [contradiction|].
  assert (Hstore : add_favorite_values sqlite_text f (c_db s)
                     (cb_from_user cb) mid
                     (obj_get (kv :: o') (lit "title") (JStr unknown_film))
                     (obj_get (kv :: o') (lit "poster_path") (JStr []))
                   = (c_db s, Ok false)).
  { unfold add_favorite_values.
    assert (Hforced : forall t p,
               add_favorite
                 {| connect_fails := connect_fails f; execute_fails := true;
                    commit_fails := commit_fails f;
                    fetch_fails := fetch_fails f;
                    close_fails := close_fails f |}
                 (c_db s) (cb_from_user cb) mid t p = (c_db s, Ok false)).
    { intros t p. apply DatabaseProofs.add_favorite_fault_to_false;
        cbn; auto. }
    destruct (sqlite_text (obj_get (kv :: o') (lit "title") (JStr unknown_film)))
      as [[t|]|] eqn:Et;
      destruct (sqlite_text (obj_get (kv :: o') (lit "poster_path") (JStr [])))
        as [p|] eqn:Ep; try apply Hforced.
    apply DatabaseProofs.add_favorite_fault_to_false; auto.
    destruct Hfault as [H|[H|[H|[H|H]]]]; auto; discriminate H. }
  unfold cbind, via_world, db_step. cbn [db fsm sent].
  rewrite Hstore. cbn [map]. rewrite app_nil_r. reflexivity.
Qed.

End AddingProofs.

Lemma adding_twice_stores_twice_witness :
  let cb := press "add_favorite_550" in
  let binding := bound_text (fun _ => lit "0.0") in
  let once := add_to_favorites binding no_faults detail_answer cb fresh in
  let twice := add_to_favorites binding no_faults detail_answer cb
                 (fst once) in
  snd once = Ok tt /\ snd twice = Ok tt /\
  c_sent (fst twice)
    = c_sent fresh ++
      [AnswerToast AddedToFavorites; AnswerToast AddedToFavorites] /\
  get_favorites no_faults (c_db (fst twice)) 7
    = Ok (select_rows (c_db fresh) 7 ++
          [{| row_id := last_id (c_db fresh) + 1; user_id := 7;
              movie_id := 550; title := lit "Fight Club";
              poster_path := None |};
           {| row_id := last_id (c_db fresh) + 2; user_id := 7;
              movie_id := 550; title := lit "Fight Club";
              poster_path := None |}]) /\
  c_fsm (fst twice) = c_fsm fresh.
Proof.
  intros cb binding.
  apply (adding_twice_stores_twice binding detail_answer cb fresh 1 550
           detail_body (lit "Fight Club") None);
    try reflexivity; discriminate.
Defined.

Lemma already_in_favorites_means_failure_witness :
  let untitled : Fetcher.provider := fun _ =>
    Fetcher.Response 200 Fetcher.HeaderAbsent
      (Fetcher.BodyJson (JObj [(lit "id", JInt 550); (lit "title", JNull)])) in
  let cb := press "add_favorite_550" in
  let binding := bound_text (fun _ => lit "0.0") in
  add_to_favorites binding no_faults untitled cb fresh
  = ({| c_state := c_state fresh; c_fsm := c_fsm fresh; c_db := c_db fresh;
        c_sent := c_sent fresh ++ [AnswerToast AlreadyInFavorites] |}, Ok tt).
Proof.
  intros untitled cb binding.
  apply (already_in_favorites_means_failure binding no_faults untitled
           cb fresh 1 550 [(lit "id", JInt 550); (lit "title", JNull)]);
    try reflexivity; try discriminate.
  right. right. right. left. reflexivity.
Defined.

End BrowseProofs.
